(** * The blog content query pipeline: filter, sort, paginate, cache

    A shallow embedding of [BlogService] (core/services/blog.service.ts),
    [CategoriaService] (core/services/categoria.service.ts) and of the
    helpers of the two mock data modules they call, followed by the
    properties of the pipeline.

    Conventions of the embedding.
    - A JavaScript number that holds a count, an index, a page or a time
      value is a [Z]; the one place where the code can leave the integers
      ([Math.ceil] of a division by zero) has its own type [JSNumber].
    - A string is the [string] of the bytes of its UTF-8 text. [trim]
      removes the white space and the line terminators of the language,
      whatever their length in bytes, and strings compare as their code
      units do; [toLowerCase] lowers the letters A to Z only, and the sort
      stage is defined for any lowering function in its place.
    - A [Date] is its time value in milliseconds since the epoch (a valid
      date); an absent optional date is [None].
    - An array of post objects is a list of references into the module
      level array [BLOG_POSTS_MOCK]; the post objects are mutated in place
      by the service, the arrays that hold them are never resized.
    - The simulated latency ([delay]) is dropped and the observable that a
      method returns is subscribed to once: an operation is the function
      from the state at its call to the value delivered and the state after
      it, with the clock readings it makes as arguments. *)

From Stdlib Require Import ZArith Lia Ascii String DecimalString DecimalPos DecimalZ.
From Stdlib Require Import Sorting.Permutation Sorting.Sorted.
From stdpp Require Import base decidable option list gmap strings sorting.

Local Open Scope Z_scope.

(** ** The JavaScript primitives the services use *)

Module JS.

(** *** Strings *)

(** The UTF-8 text of a code point. *)
Definition byte (n : Z) : ascii := ascii_of_nat (Z.to_nat n).

Definition utf8 (c : Z) : string :=
  if c <? 128 then String (byte c) EmptyString
  else if c <? 2048 then
    String (byte (192 + c / 64)) (String (byte (128 + c mod 64)) EmptyString)
  else if c <? 65536 then
    String (byte (224 + c / 4096))
      (String (byte (128 + c / 64 mod 64)) (String (byte (128 + c mod 64)) EmptyString))
  else
    String (byte (240 + c / 262144))
      (String (byte (128 + c / 4096 mod 64))
         (String (byte (128 + c / 64 mod 64))
            (String (byte (128 + c mod 64)) EmptyString))).

(** [String.prototype.toLowerCase], on the letters A to Z: a letter outside
    ASCII, which the language lowers too, is left as it is. *)
Definition lower_ascii (c : ascii) : ascii :=
  let n := nat_of_ascii c in
  if ((65 <=? n) && (n <=? 90))%nat then ascii_of_nat (n + 32) else c.

Fixpoint toLowerCase (s : string) : string :=
  match s with
  | EmptyString => EmptyString
  | String c r => String (lower_ascii c) (toLowerCase r)
  end.

(** The code points that [trim] removes. The white space of the language:
    TAB, VT, FF, ZWNBSP (U+FEFF) and the space separators SP, NBSP (U+00A0),
    U+1680, U+2000 to U+200A, U+202F, U+205F and U+3000. Its line
    terminators: LF, CR, LS (U+2028) and PS (U+2029). *)
Definition WhiteSpace : list Z :=
  [9; 11; 12; 65279; 32; 160; 5760; 8192; 8193; 8194; 8195; 8196; 8197; 8198; 8199; 8200;
   8201; 8202; 8239; 8287; 12288].

Definition LineTerminator : list Z := [10; 13; 8232; 8233].

(** [char], the text of one character, is white space or a line
    terminator. *)
Definition is_whitespace (char : string) : bool :=
  existsb (fun c => String.eqb char (utf8 c)) (WhiteSpace ++ LineTerminator).

(** [trimStart s] drops the leading white space, character after
    character; a white-space character takes one, two or three bytes. *)
Fixpoint trimStart (s : string) : string :=
  match s with
  | EmptyString => EmptyString
  | String c1 r1 =>
      if is_whitespace (String c1 EmptyString) then trimStart r1
      else
        match r1 with
        | EmptyString => s
        | String c2 r2 =>
            if is_whitespace (String c1 (String c2 EmptyString)) then trimStart r2
            else
              match r2 with
              | EmptyString => s
              | String c3 r3 =>
                  if is_whitespace (String c1 (String c2 (String c3 EmptyString)))
                  then trimStart r3
                  else s
              end
        end
  end.

(** [trimEnd s] drops the trailing white space: a byte is dropped when
    what starts at it is white space only. *)
Fixpoint trimEnd (s : string) : string :=
  match s with
  | EmptyString => EmptyString
  | String c r =>
      match trimStart s with
      | EmptyString => EmptyString
      | _ => String c (trimEnd r)
      end
  end.

(** [String.prototype.trim]. *)
Definition trim (s : string) : string := trimEnd (trimStart s).

(** Truthiness of a string: the empty string is falsy. *)
Definition truthy (s : string) : bool :=
  match s with EmptyString => false | _ => true end.

(** [String.prototype.includes]: [t] occurs in [s] as a substring. *)
Fixpoint includes (s t : string) : bool :=
  String.prefix t s ||
  match s with
  | EmptyString => false
  | String _ r => includes r t
  end.

(** [Array.prototype.includes] on an array of strings. *)
Definition array_includes (l : list string) (x : string) : bool :=
  existsb (String.eqb x) l.

(** *** Numbers *)

(** The result of a division followed by [Math.ceil]: an integer, or what
    a division by zero leaves. *)
Inductive JSNumber : Type :=
| Fin (z : Z)
| PosInf
| NegInf
| NaN.

(** [Math.ceil(a / b)] for integers [a] and [b]. The quotient of two
    integers below 2^53 in absolute value is rounded to a double that is
    an integer only when the exact quotient is one, hence the ceiling of
    the double is the ceiling of the exact quotient. *)
Definition ceil_div (a b : Z) : JSNumber :=
  if b =? 0 then
    if a =? 0 then NaN else if 0 <? a then PosInf else NegInf
  else Fin (- ((- a) / b)).

(** [x < n] and [x > n] for an integer [x] against a [JSNumber]. *)
Definition lt_num (x : Z) (n : JSNumber) : bool :=
  match n with
  | Fin z => x <? z
  | PosInf => true
  | NegInf | NaN => false
  end.

(** Decimal rendering of an integer, as a template literal does it. *)
Definition number_to_string (n : Z) : string :=
  NilZero.string_of_int (Z.to_int n).

(** *** Arrays *)

(** [Array.prototype.slice(start, end)]: a negative bound counts from the
    end of the array, both bounds are clamped to the array. *)
Definition clamp_index (len i : Z) : Z :=
  if i <? 0 then Z.max (len + i) 0 else Z.min i len.

Definition slice {A : Type} (l : list A) (start stop : Z) : list A :=
  let len := Z.of_nat (length l) in
  let k := clamp_index len start in
  let final := clamp_index len stop in
  take (Z.to_nat (Z.max (final - k) 0)) (drop (Z.to_nat k) l).

(** [Array.prototype.sort(compareFn)]. The language requires the sort to
    be stable, and for a consistent comparator the result is then fixed:
    the sorted permutation in which elements that compare equal keep
    their order. The embedding is the stable insertion sort: an element
    goes before the first one it does not compare greater than. For a
    comparator that is not consistent (one that meets a NaN key) the
    language leaves the order to the engine, and the insertion sort need
    not return the engine's: of such a sort only what holds of every
    permutation is stated. *)
Fixpoint sort_insert {A : Type} (cmp : A -> A -> Z) (x : A) (l : list A) : list A :=
  match l with
  | [] => [x]
  | y :: t => if cmp x y <=? 0 then x :: y :: t else y :: sort_insert cmp x t
  end.

Definition sort {A : Type} (cmp : A -> A -> Z) (l : list A) : list A :=
  foldr (sort_insert cmp) [] l.

(** [Array.prototype.find], returning the index with the element. *)
Fixpoint find_from {A : Type} (f : A -> bool) (i : nat) (l : list A) : option (nat * A) :=
  match l with
  | [] => None
  | x :: t => if f x then Some (i, x) else find_from f (S i) t
  end.

(** *** JSON.stringify *)

Definition dquote : ascii := ascii_of_nat 34.
Definition backslash : ascii := ascii_of_nat 92.

Definition hex_digit (n : nat) : ascii :=
  if (n <? 10)%nat then ascii_of_nat (48 + n) else ascii_of_nat (87 + n).

(** The escape of one code unit inside a JSON string. *)
Definition json_escape (c : ascii) : string :=
  let n := nat_of_ascii c in
  if (n =? 8)%nat then String backslash "b"
  else if (n =? 9)%nat then String backslash "t"
  else if (n =? 10)%nat then String backslash "n"
  else if (n =? 12)%nat then String backslash "f"
  else if (n =? 13)%nat then String backslash "r"
  else if (n =? 34)%nat then String backslash (String dquote EmptyString)
  else if (n =? 92)%nat then String backslash (String backslash EmptyString)
  else if (n <? 32)%nat then
    String backslash
      ("u00" +:+ String (hex_digit (n / 16)) (String (hex_digit (n mod 16)) EmptyString))
  else String c EmptyString.

Fixpoint json_escape_all (s : string) : string :=
  match s with
  | EmptyString => EmptyString
  | String c r => json_escape c +:+ json_escape_all r
  end.

(** A string value, quoted. *)
Definition json_string (s : string) : string :=
  String dquote (json_escape_all s +:+ String dquote EmptyString).

(** The elements of an array or the members of an object, comma separated. *)
Fixpoint json_join (l : list string) : string :=
  match l with
  | [] => EmptyString
  | x :: t => x +:+ match t with [] => EmptyString | _ => "," +:+ json_join t end
  end.

Definition json_array (l : list string) : string :=
  "[" +:+ json_join (map json_string l) +:+ "]".

Definition json_bool (b : bool) : string := if b then "true" else "false".

(** *** Date.prototype.toISOString (the [toJSON] of a valid date) *)

(** [n] in decimal on exactly [w] digits. *)
Fixpoint pad_dec (w : nat) (n : Z) : string :=
  match w with
  | O => EmptyString
  | S w' => pad_dec w' (n / 10) +:+ String (ascii_of_nat (48 + Z.to_nat (n mod 10))) EmptyString
  end.

(** Year, month and day of a day number counted from 1970-01-01, in the
    proleptic Gregorian calendar. *)
Definition civil_from_days (days : Z) : Z * Z * Z :=
  let z := days + 719468 in
  let era := z / 146097 in
  let doe := z - era * 146097 in
  let yoe := (doe - doe / 1460 + doe / 36524 - doe / 146096) / 365 in
  let doy := doe - (365 * yoe + yoe / 4 - yoe / 100) in
  let mp := (5 * doy + 2) / 153 in
  let d := doy - (153 * mp + 2) / 5 + 1 in
  let m := if mp <? 10 then mp + 3 else mp - 9 in
  let y := yoe + era * 400 + (if m <=? 2 then 1 else 0) in
  (y, m, d).

Definition iso_year (y : Z) : string :=
  if (0 <=? y) && (y <=? 9999) then pad_dec 4 y
  else if y <? 0 then "-" +:+ pad_dec 6 (- y)
  else "+" +:+ pad_dec 6 y.

Definition toISOString (t : Z) : string :=
  let days := t / 86400000 in
  let ms := t mod 86400000 in
  let '(y, m, d) := civil_from_days days in
  iso_year y +:+ "-" +:+ pad_dec 2 m +:+ "-" +:+ pad_dec 2 d +:+ "T"
    +:+ pad_dec 2 (ms / 3600000) +:+ ":" +:+ pad_dec 2 (ms / 60000 mod 60)
    +:+ ":" +:+ pad_dec 2 (ms / 1000 mod 60) +:+ "." +:+ pad_dec 3 (ms mod 1000)
    +:+ "Z".

(** *** Relational operators on the values that are sorted on *)

(** A number, the number NaN (the time value of an invalid date), or a
    string. *)
Inductive Value : Type :=
| Num (z : Z)
| NaNValue
| Str (s : string).

(** The rank of a byte of a UTF-8 text among the code units. The bytes of
    two texts compare as their code points do, and so do their code units,
    except that the surrogate pair of a character beyond U+FFFF (lead byte
    F0 to F4) stands before the characters from U+E000 to U+FFFF (lead
    byte EE or EF): the rank moves the former lead bytes below the
    latter. *)
Definition code_unit_rank (c : ascii) : ascii :=
  let n := nat_of_ascii c in
  if ((238 <=? n) && (n <=? 239))%nat then ascii_of_nat (n + 5)
  else if ((240 <=? n) && (n <=? 244))%nat then ascii_of_nat (n - 2)
  else c.

Fixpoint code_unit_ranks (s : string) : string :=
  match s with
  | EmptyString => EmptyString
  | String c r => String (code_unit_rank c) (code_unit_ranks r)
  end.

(** [a < b]: numeric on two numbers, by code units on two strings, false
    as soon as NaN is involved. One sort field yields values of one kind,
    so a number never meets a string. *)
Definition lt (a b : Value) : bool :=
  match a, b with
  | Num x, Num y => x <? y
  | Str s, Str t => String.ltb (code_unit_ranks s) (code_unit_ranks t)
  | _, _ => false
  end.

(** [a > b]. *)
Definition gt (a b : Value) : bool := lt b a.

(** *** Observables *)

(** What the observable returned by a service method delivers once
    subscribed: a value, or an error. *)
Inductive Emission (A : Type) : Type :=
| Next (a : A)
| Error (message : string).
Arguments Next {A} a.
Arguments Error {A} message.

(** [Math.round(a / b)] for integers [a] and [b]: the quotient rounded to
    the nearest integer, a half going up. As for [ceil_div], the double
    that the division gives is on the same side of every half as the
    exact quotient for operands of this size. *)
Definition round_div (a b : Z) : JSNumber :=
  if b =? 0 then
    if a =? 0 then NaN else if 0 <? a then PosInf else NegInf
  else Fin ((2 * a + b) / (2 * b)).

(** A number that is left as the quotient it was computed from: the double
    nearest to [numerator / denominator]. *)
Record Quotient : Type := { numerator : Z; denominator : Z }.

End JS.


(** ** The data model (core/models/blog.interface.ts) *)

(** A reference to a post object: its position in [BLOG_POSTS_MOCK]. *)
Definition PostRef : Type := nat.

Inductive BlogPostStatus : Type := draft | published | archived | scheduled.

Global Instance BlogPostStatus_eq_dec : EqDecision BlogPostStatus.
Proof. solve_decision. Defined.

Inductive BlogSortBy : Type :=
| by_publishedAt | by_createdAt | by_updatedAt | by_title
| by_views | by_likes | by_commentsCount | by_readingTime.

Inductive SortDirection : Type := asc | desc.

(** The fields of a post that the services read or write. *)
Module Post.
Record BlogPost : Type := {
  id : string;
  title : string;
  slug : string;
  excerpt : string;
  status : BlogPostStatus;
  authorId : string;
  categoryIds : list string;
  tags : list string;
  readingTime : Z;
  views : Z;
  likes : Z;
  commentsCount : Z;
  featured : bool;
  createdAt : Z;
  updatedAt : Z;
  publishedAt : option Z
}.

(** [post.views += 1] and [post.likes += d]. *)
Definition add_views (d : Z) (p : BlogPost) : BlogPost :=
  {| id := id p; title := title p; slug := slug p; excerpt := excerpt p;
     status := status p; authorId := authorId p; categoryIds := categoryIds p;
     tags := tags p; readingTime := readingTime p; views := views p + d;
     likes := likes p; commentsCount := commentsCount p; featured := featured p;
     createdAt := createdAt p; updatedAt := updatedAt p;
     publishedAt := publishedAt p |}.

Definition add_likes (d : Z) (p : BlogPost) : BlogPost :=
  {| id := id p; title := title p; slug := slug p; excerpt := excerpt p;
     status := status p; authorId := authorId p; categoryIds := categoryIds p;
     tags := tags p; readingTime := readingTime p; views := views p;
     likes := likes p + d; commentsCount := commentsCount p; featured := featured p;
     createdAt := createdAt p; updatedAt := updatedAt p;
     publishedAt := publishedAt p |}.
End Post.
Export Post(BlogPost).

(** A [BlogFilters] object: its own properties that hold a value, in the
    order in which they were inserted (the order in which [JSON.stringify]
    visits them). A property set to [undefined] reads as an absent one and
    is skipped by [JSON.stringify], so it is left out. *)
Module Filters.
Inductive Member : Type :=
| search_ (v : string)
| categoryIds_ (v : list string)
| tags_ (v : list string)
| authorId_ (v : string)
| status_ (v : BlogPostStatus)
| featured_ (v : bool)
| dateFrom_ (v : Z)
| dateTo_ (v : Z)
| sortBy_ (v : BlogSortBy)
| sortDirection_ (v : SortDirection).

Definition BlogFilters : Type := list Member.

(** The name of a property. *)
Definition key (e : Member) : string :=
  match e with
  | search_ _ => "search"
  | categoryIds_ _ => "categoryIds"
  | tags_ _ => "tags"
  | authorId_ _ => "authorId"
  | status_ _ => "status"
  | featured_ _ => "featured"
  | dateFrom_ _ => "dateFrom"
  | dateTo_ _ => "dateTo"
  | sortBy_ _ => "sortBy"
  | sortDirection_ _ => "sortDirection"
  end.

(** An object has each property name once. *)
Definition well_formed (f : BlogFilters) : Prop := NoDup (map key f).

(** Property reads: [filters.search] and so on. *)
Fixpoint search (f : BlogFilters) : option string :=
  match f with [] => None | search_ v :: _ => Some v | _ :: r => search r end.
Fixpoint categoryIds (f : BlogFilters) : option (list string) :=
  match f with [] => None | categoryIds_ v :: _ => Some v | _ :: r => categoryIds r end.
Fixpoint tags (f : BlogFilters) : option (list string) :=
  match f with [] => None | tags_ v :: _ => Some v | _ :: r => tags r end.
Fixpoint authorId (f : BlogFilters) : option string :=
  match f with [] => None | authorId_ v :: _ => Some v | _ :: r => authorId r end.
Fixpoint status (f : BlogFilters) : option BlogPostStatus :=
  match f with [] => None | status_ v :: _ => Some v | _ :: r => status r end.
Fixpoint featured (f : BlogFilters) : option bool :=
  match f with [] => None | featured_ v :: _ => Some v | _ :: r => featured r end.
Fixpoint dateFrom (f : BlogFilters) : option Z :=
  match f with [] => None | dateFrom_ v :: _ => Some v | _ :: r => dateFrom r end.
Fixpoint dateTo (f : BlogFilters) : option Z :=
  match f with [] => None | dateTo_ v :: _ => Some v | _ :: r => dateTo r end.
Fixpoint sortBy (f : BlogFilters) : option BlogSortBy :=
  match f with [] => None | sortBy_ v :: _ => Some v | _ :: r => sortBy r end.
Fixpoint sortDirection (f : BlogFilters) : option SortDirection :=
  match f with [] => None | sortDirection_ v :: _ => Some v | _ :: r => sortDirection r end.

Definition status_string (s : BlogPostStatus) : string :=
  match s with
  | draft => "draft" | published => "published"
  | archived => "archived" | scheduled => "scheduled"
  end.

Definition sortBy_string (s : BlogSortBy) : string :=
  match s with
  | by_publishedAt => "publishedAt" | by_createdAt => "createdAt"
  | by_updatedAt => "updatedAt" | by_title => "title" | by_views => "views"
  | by_likes => "likes" | by_commentsCount => "commentsCount"
  | by_readingTime => "readingTime"
  end.

Definition direction_string (d : SortDirection) : string :=
  match d with asc => "asc" | desc => "desc" end.

(** The JSON text of the value of a property. *)
Definition value_json (e : Member) : string :=
  match e with
  | search_ v | authorId_ v => JS.json_string v
  | categoryIds_ v | tags_ v => JS.json_array v
  | status_ v => JS.json_string (status_string v)
  | featured_ v => JS.json_bool v
  | dateFrom_ v | dateTo_ v => JS.json_string (JS.toISOString v)
  | sortBy_ v => JS.json_string (sortBy_string v)
  | sortDirection_ v => JS.json_string (direction_string v)
  end.

Definition member_json (e : Member) : string :=
  JS.json_string (key e) +:+ ":" +:+ value_json e.

(** [JSON.stringify(filters)]. *)
Definition stringify (f : BlogFilters) : string :=
  "{" +:+ JS.json_join (map member_json f) +:+ "}".
End Filters.
Export Filters(BlogFilters).

Record BlogPagination : Type := {
  currentPage : Z;
  totalPages : JS.JSNumber;
  totalItems : Z;
  itemsPerPage : Z;
  hasPrevious : bool;
  hasNext : bool
}.

Record BlogPostsResponse : Type := {
  data : list PostRef;
  pagination : BlogPagination;
  filters : BlogFilters
}.

Record BlogLoadingState : Type := {
  loading : bool;
  error : bool;
  errorMessage : option string;
  initialLoad : bool;
  loadingMore : bool
}.

(** ** The mock data module (core/data/blog-mock.data.ts) *)

Module BlogMock.

(** The elements of an array of posts, each a reference paired with the
    object it points to, as the array [store] holds them. *)
Fixpoint objects_from (i : nat) (store : list BlogPost) : list (PostRef * BlogPost) :=
  match store with
  | [] => []
  | post :: rest => (i, post) :: objects_from (S i) rest
  end.

Definition objects (store : list BlogPost) : list (PostRef * BlogPost) :=
  objects_from 0 store.

Definition is_published (post : BlogPost) : bool :=
  bool_decide (Post.status post = published).

Definition getPostById (store : list BlogPost) (id : string) : option (PostRef * BlogPost) :=
  JS.find_from (fun post => String.eqb (Post.id post) id) 0 store.

Definition getPostBySlug (store : list BlogPost) (slug : string) : option (PostRef * BlogPost) :=
  JS.find_from (fun post => String.eqb (Post.slug post) slug) 0 store.

Definition getPublishedPosts (store : list BlogPost) : list (PostRef * BlogPost) :=
  List.filter (fun o => is_published (snd o)) (objects store).

Definition searchPosts (store : list BlogPost) (term : string) : list (PostRef * BlogPost) :=
  let lowercaseTerm := JS.toLowerCase term in
  List.filter
    (fun o =>
       let post := snd o in
       is_published post &&
       (JS.includes (JS.toLowerCase (Post.title post)) lowercaseTerm
        || JS.includes (JS.toLowerCase (Post.excerpt post)) lowercaseTerm
        || existsb (fun tag => JS.includes (JS.toLowerCase tag) lowercaseTerm) (Post.tags post)))
    (objects store).

Definition getFeaturedPosts (store : list BlogPost) : list (PostRef * BlogPost) :=
  List.filter (fun o => Post.featured (snd o) && is_published (snd o)) (objects store).

Definition getPostsByCategory (store : list BlogPost) (categoryId : string)
    : list (PostRef * BlogPost) :=
  List.filter
    (fun o => JS.array_includes (Post.categoryIds (snd o)) categoryId && is_published (snd o))
    (objects store).

Definition getPostsByAuthor (store : list BlogPost) (authorId : string)
    : list (PostRef * BlogPost) :=
  List.filter
    (fun o => String.eqb (Post.authorId (snd o)) authorId && is_published (snd o))
    (objects store).

Definition getRelatedPosts (store : list BlogPost) (postId : string) (limit : Z)
    : list (PostRef * BlogPost) :=
  match getPostById store postId with
  | None => []
  | Some (_, currentPost) =>
      let related :=
        List.filter
          (fun o =>
             let post := snd o in
             negb (String.eqb (Post.id post) postId)
             && is_published post
             && (existsb (fun cat => JS.array_includes (Post.categoryIds currentPost) cat)
                   (Post.categoryIds post)
                 || existsb (fun tag => JS.array_includes (Post.tags currentPost) tag)
                      (Post.tags post)))
          (objects store) in
      JS.slice related 0 limit
  end.

(** The comparator [(a, b) => b.views - a.views]. *)
Definition by_views_descending (a b : PostRef * BlogPost) : Z :=
  Post.views (snd b) - Post.views (snd a).

Definition getPopularPosts (store : list BlogPost) (limit : Z) : list (PostRef * BlogPost) :=
  JS.slice
    (JS.sort by_views_descending (List.filter (fun o => is_published (snd o)) (objects store)))
    0 limit.

(** The comparator that subtracts the two publication times. Without a
    date on either side the difference is NaN, which [sort] takes for 0. *)
Definition by_date_descending (a b : PostRef * BlogPost) : Z :=
  match Post.publishedAt (snd b), Post.publishedAt (snd a) with
  | Some tb, Some ta => tb - ta
  | _, _ => 0
  end.

Definition getRecentPosts (store : list BlogPost) (limit : Z) : list (PostRef * BlogPost) :=
  JS.slice
    (JS.sort by_date_descending (List.filter (fun o => is_published (snd o)) (objects store)))
    0 limit.

End BlogMock.

(** ** The blog service (core/services/blog.service.ts) *)

Module BlogService.

Definition CACHE_DURATION : Z := 5 * 60 * 1000.
Definition DEFAULT_PAGE_SIZE : Z := 12.

(** *** The private stages of the pipeline

    The stages read the posts of an array through its elements: [post_of]
    is the read of the object an element refers to. *)

Section Pipeline.
Context {A : Type} (post_of : A -> BlogPost).

Definition matches_search (searchTerm : string) (post : BlogPost) : bool :=
  JS.includes (JS.toLowerCase (Post.title post)) searchTerm
  || JS.includes (JS.toLowerCase (Post.excerpt post)) searchTerm
  || existsb (fun tag => JS.includes (JS.toLowerCase tag) searchTerm) (Post.tags post).

(** [new Date(post.publishedAt!) >= bound]: false for a post with no
    publication date, whose time value is NaN. *)
Definition published_from (bound : Z) (post : BlogPost) : bool :=
  match Post.publishedAt post with
  | Some t => bound <=? t
  | None => false
  end.

Definition published_to (bound : Z) (post : BlogPost) : bool :=
  match Post.publishedAt post with
  | Some t => t <=? bound
  | None => false
  end.

Definition _applyFilters (posts : list A) (filters : BlogFilters) : list A :=
  let filteredPosts := posts in
  let filteredPosts :=
    match Filters.search filters with
    | Some search =>
        if JS.truthy search then
          let searchTerm := JS.toLowerCase search in
          List.filter (fun post => matches_search searchTerm (post_of post)) filteredPosts
        else filteredPosts
    | None => filteredPosts
    end in
  let filteredPosts :=
    match Filters.categoryIds filters with
    | Some ((_ :: _) as categoryIds) =>
        List.filter
          (fun post =>
             existsb (fun catId => JS.array_includes (Post.categoryIds (post_of post)) catId)
               categoryIds)
          filteredPosts
    | _ => filteredPosts
    end in
  let filteredPosts :=
    match Filters.tags filters with
    | Some ((_ :: _) as tags) =>
        List.filter
          (fun post =>
             existsb (fun tag => JS.array_includes (Post.tags (post_of post)) tag) tags)
          filteredPosts
    | _ => filteredPosts
    end in
  let filteredPosts :=
    match Filters.authorId filters with
    | Some authorId =>
        if JS.truthy authorId then
          List.filter (fun post => String.eqb (Post.authorId (post_of post)) authorId)
            filteredPosts
        else filteredPosts
    | None => filteredPosts
    end in
  let filteredPosts :=
    match Filters.status filters with
    | Some status =>
        List.filter (fun post => bool_decide (Post.status (post_of post) = status))
          filteredPosts
    | None => filteredPosts
    end in
  let filteredPosts :=
    match Filters.featured filters with
    | Some true => List.filter (fun post => Post.featured (post_of post)) filteredPosts
    | _ => filteredPosts
    end in
  let filteredPosts :=
    match Filters.dateFrom filters with
    | Some dateFrom => List.filter (fun post => published_from dateFrom (post_of post)) filteredPosts
    | None => filteredPosts
    end in
  let filteredPosts :=
    match Filters.dateTo filters with
    | Some dateTo => List.filter (fun post => published_to dateTo (post_of post)) filteredPosts
    | None => filteredPosts
    end in
  filteredPosts.

(** The value a post is sorted on: [new Date(d).getTime()] for a date,
    NaN when the date is absent. *)
Definition time_value (d : option Z) : JS.Value :=
  match d with
  | Some t => JS.Num t
  | None => JS.NaNValue
  end.

(** The sort stage. Its one call of [String.prototype.toLowerCase], on the
    titles, is an argument of the definitions that follow: they are the
    stage for any function [toLowerCase] in its place, and [sort_value],
    [compare_posts] and [_applySorting] are the stage with the lowering of
    the embedding. *)
Definition sort_value_with (toLowerCase : string -> string) (sortBy : BlogSortBy)
    (post : BlogPost) : JS.Value :=
  match sortBy with
  | by_publishedAt => time_value (Post.publishedAt post)
  | by_createdAt => JS.Num (Post.createdAt post)
  | by_updatedAt => JS.Num (Post.updatedAt post)
  | by_title => JS.Str (toLowerCase (Post.title post))
  | by_views => JS.Num (Post.views post)
  | by_likes => JS.Num (Post.likes post)
  | by_commentsCount => JS.Num (Post.commentsCount post)
  | by_readingTime => JS.Num (Post.readingTime post)
  end.

Definition sort_value (sortBy : BlogSortBy) (post : BlogPost) : JS.Value :=
  sort_value_with JS.toLowerCase sortBy post.

(** The comparator handed to [sort]. *)
Definition compare_posts_with (toLowerCase : string -> string) (sortBy : BlogSortBy)
    (direction : SortDirection) (a b : A) : Z :=
  let aValue := sort_value_with toLowerCase sortBy (post_of a) in
  let bValue := sort_value_with toLowerCase sortBy (post_of b) in
  match direction with
  | asc => if JS.gt aValue bValue then 1 else if JS.lt aValue bValue then -1 else 0
  | desc => if JS.lt aValue bValue then 1 else if JS.gt aValue bValue then -1 else 0
  end.


(** The two optional parameters default to ['publishedAt'] and ['desc']. *)
Definition _applySorting_with (toLowerCase : string -> string) (posts : list A)
    (sortBy : option BlogSortBy) (direction : option SortDirection) : list A :=
  let sortBy := default by_publishedAt sortBy in
  let direction := default desc direction in
  JS.sort (compare_posts_with toLowerCase sortBy direction) posts.

Definition _applySorting (posts : list A) (sortBy : option BlogSortBy)
    (direction : option SortDirection) : list A :=
  _applySorting_with JS.toLowerCase posts sortBy direction.

Definition _applyPagination (posts : list A) (page pageSize : Z) : list A :=
  let startIndex := (page - 1) * pageSize in
  let endIndex := startIndex + pageSize in
  JS.slice posts startIndex endIndex.

End Pipeline.

Definition _buildResponse (posts : list PostRef) (page pageSize : Z) (filters : BlogFilters)
    (totalItems : option Z) : BlogPostsResponse :=
  let total := default (Z.of_nat (length posts)) totalItems in
  let totalPages := JS.ceil_div total pageSize in
  let pagination :=
    {| currentPage := page;
       totalPages := totalPages;
       totalItems := total;
       itemsPerPage := pageSize;
       hasPrevious := 1 <? page;
       hasNext := JS.lt_num page totalPages |} in
  {| data := posts; pagination := pagination; filters := filters |}.

Definition _generateCacheKey (page pageSize : Z) (filters : BlogFilters) : string :=
  JS.number_to_string page +:+ "-" +:+ JS.number_to_string pageSize +:+ "-"
    +:+ Filters.stringify filters.

(** *** The state of the service *)

(** The fields of the instance. The cache holds arrays of post objects,
    that is references: the objects are shared with [BLOG_POSTS_MOCK]. *)
Record State : Type := {
  _loadingState : BlogLoadingState;
  _postsCache : gmap string (list PostRef);
  _lastFetchTime : gmap string Z;
  _currentFilters : BlogFilters;
  _currentPage : Z
}.

(** The post objects of the data module together with the service. *)
Record World : Type := {
  BLOG_POSTS_MOCK : list BlogPost;
  service : State
}.

Definition initial_state : State :=
  {| _loadingState :=
       {| loading := false; error := false; errorMessage := None;
          initialLoad := true; loadingMore := false |};
     _postsCache := ∅;
     _lastFetchTime := ∅;
     _currentFilters := [];
     _currentPage := 1 |}.

Definition initial_world (store : list BlogPost) : World :=
  {| BLOG_POSTS_MOCK := store; service := initial_state |}.

Definition with_service (f : State -> State) (w : World) : World :=
  {| BLOG_POSTS_MOCK := BLOG_POSTS_MOCK w; service := f (service w) |}.

Definition with_loadingState (f : BlogLoadingState -> BlogLoadingState) (s : State) : State :=
  {| _loadingState := f (_loadingState s);
     _postsCache := _postsCache s;
     _lastFetchTime := _lastFetchTime s;
     _currentFilters := _currentFilters s;
     _currentPage := _currentPage s |}.

Definition _setLoading (loading : bool) : State -> State :=
  with_loadingState (fun state =>
    {| loading := loading;
       error := false;
       errorMessage := None;
       initialLoad := if initialLoad state && negb loading then false else initialLoad state;
       loadingMore := loadingMore state |}).

Definition _setError (message : string) : State -> State :=
  with_loadingState (fun state =>
    {| loading := false;
       error := true;
       errorMessage := Some message;
       initialLoad := initialLoad state;
       loadingMore := loadingMore state |}).

Definition _isCacheValid (now : Z) (cacheKey : string) (s : State) : bool :=
  match _lastFetchTime s !! cacheKey with
  | None => false
  | Some lastFetch => if lastFetch =? 0 then false else now - lastFetch <? CACHE_DURATION
  end.

(** *** The public methods

    A method maps the state at its call to what its observable delivers and
    the state once it has. [now] is the reading of the clock at the call,
    [later] the reading made by the deferred part. An argument left out by
    the caller has been replaced by its default (page 1, [DEFAULT_PAGE_SIZE],
    the empty filters object). *)

(** The deferred part of [getPosts], run on a cache miss. *)
Definition fetchPosts (page pageSize : Z) (filters : BlogFilters) (cacheKey : string)
    (later : Z) (w : World) : JS.Emission BlogPostsResponse * World :=
  let posts := BlogMock.getPublishedPosts (BLOG_POSTS_MOCK w) in
  let posts := _applyFilters snd posts filters in
  let posts := _applySorting snd posts (Filters.sortBy filters) (Filters.sortDirection filters) in
  let paginatedPosts := _applyPagination posts page pageSize in
  let s := _setLoading false (service w) in
  let s :=
    {| _loadingState := _loadingState s;
       _postsCache := <[cacheKey := map fst posts]> (_postsCache s);
       _lastFetchTime := <[cacheKey := later]> (_lastFetchTime s);
       _currentFilters := filters;
       _currentPage := page |} in
  (JS.Next
     (_buildResponse (map fst paginatedPosts) page pageSize filters
        (Some (Z.of_nat (length posts)))),
   {| BLOG_POSTS_MOCK := BLOG_POSTS_MOCK w; service := s |}).

(** The cached array that [getPosts] answers from, if any. *)
Definition cached (now : Z) (cacheKey : string) (s : State) : option (list PostRef) :=
  if _isCacheValid now cacheKey s then _postsCache s !! cacheKey else None.

Definition getPosts (page pageSize : Z) (filters : BlogFilters) (now later : Z) (w : World)
    : JS.Emission BlogPostsResponse * World :=
  let w := with_service (_setLoading true) w in
  let cacheKey := _generateCacheKey page pageSize filters in
  match cached now cacheKey (service w) with
  | Some cachedPosts =>
      let w := with_service (_setLoading false) w in
      (JS.Next (_buildResponse cachedPosts page pageSize filters None), w)
  | None => fetchPosts page pageSize filters cacheKey later w
  end.

Definition getPostById (id : string) (w : World) : JS.Emission (option PostRef) * World :=
  let w := with_service (_setLoading true) w in
  let post := BlogMock.getPostById (BLOG_POSTS_MOCK w) id in
  let w := with_service (_setLoading false) w in
  (JS.Next (fst <$> post), w).

Definition getPostBySlug (slug : string) (w : World) : JS.Emission (option PostRef) * World :=
  let w := with_service (_setLoading true) w in
  let post := BlogMock.getPostBySlug (BLOG_POSTS_MOCK w) slug in
  let w := with_service (_setLoading false) w in
  (JS.Next (fst <$> post), w).

Definition searchPosts (term : string) (filters : BlogFilters) (w : World)
    : JS.Emission (list PostRef) * World :=
  if negb (JS.truthy (JS.trim term)) then (JS.Next [], w)
  else
    let w := with_service (_setLoading true) w in
    let posts := BlogMock.searchPosts (BLOG_POSTS_MOCK w) term in
    let posts := _applyFilters snd posts filters in
    let posts := _applySorting snd posts (Filters.sortBy filters) (Filters.sortDirection filters) in
    let w := with_service (_setLoading false) w in
    (JS.Next (map fst posts), w).

(** [post.views += 1] on the object found: the array keeps its length, the
    object at the reference is the updated one. *)
Definition incrementViews (postId : string) (w : World) : JS.Emission bool * World :=
  match BlogMock.getPostById (BLOG_POSTS_MOCK w) postId with
  | Some (ref, post) =>
      (JS.Next true,
       {| BLOG_POSTS_MOCK := <[ref := Post.add_views 1 post]> (BLOG_POSTS_MOCK w);
          service := service w |})
  | None => (JS.Next false, w)
  end.

Record LikeResult : Type := { liked : bool; totalLikes : Z }.

(** [random] is the outcome of [Math.random() > 0.5]. *)
Definition toggleLike (postId : string) (random : bool) (w : World)
    : JS.Emission LikeResult * World :=
  match BlogMock.getPostById (BLOG_POSTS_MOCK w) postId with
  | Some (ref, post) =>
      let liked := random in
      let post := Post.add_likes (if liked then 1 else -1) post in
      (JS.Next {| liked := liked; totalLikes := Post.likes post |},
       {| BLOG_POSTS_MOCK := <[ref := post]> (BLOG_POSTS_MOCK w); service := service w |})
  | None => (JS.Error "Post no encontrado", w)
  end.

Definition clearCache (w : World) : World :=
  with_service (fun s =>
    {| _loadingState := _loadingState s;
       _postsCache := ∅;
       _lastFetchTime := ∅;
       _currentFilters := _currentFilters s;
       _currentPage := _currentPage s |}) w.

Definition resetFilters (w : World) : World :=
  with_service (fun s =>
    {| _loadingState := _loadingState s;
       _postsCache := _postsCache s;
       _lastFetchTime := _lastFetchTime s;
       _currentFilters := [];
       _currentPage := 1 |}) w.

(** One call of a method of the service, or the deferred part of
    [getPosts] running on its own (other calls may have come in between
    the call and it). The methods that are left out ([getFeaturedPosts],
    [getPopularPosts], [getBlogStats] and the like) read the store and
    change nothing. *)
Inductive step : World -> World -> Prop :=
| step_getPosts page pageSize filters now later w :
    step w (snd (getPosts page pageSize filters now later w))
| step_fetchPosts page pageSize filters later w :
    step w (snd (fetchPosts page pageSize filters
                   (_generateCacheKey page pageSize filters) later w))
| step_getPostById id w : step w (snd (getPostById id w))
| step_getPostBySlug slug w : step w (snd (getPostBySlug slug w))
| step_searchPosts term filters w : step w (snd (searchPosts term filters w))
| step_incrementViews postId w : step w (snd (incrementViews postId w))
| step_toggleLike postId random w : step w (snd (toggleLike postId random w))
| step_clearCache w : step w (clearCache w)
| step_resetFilters w : step w (resetFilters w).

(** The states the service reaches from a fresh instance over [store]. *)
Inductive reachable (store : list BlogPost) : World -> Prop :=
| reachable_initial : reachable store (initial_world store)
| reachable_step w w' : reachable store w -> step w w' -> reachable store w'.

(** *** The methods that read the store and leave the service as it is *)

Definition getFeaturedPosts (limit : Z) (w : World) : JS.Emission (list PostRef) * World :=
  (JS.Next (map fst (JS.slice (BlogMock.getFeaturedPosts (BLOG_POSTS_MOCK w)) 0 limit)), w).

Definition getPopularPosts (limit : Z) (w : World) : JS.Emission (list PostRef) * World :=
  (JS.Next (map fst (BlogMock.getPopularPosts (BLOG_POSTS_MOCK w) limit)), w).

Definition getRecentPosts (limit : Z) (w : World) : JS.Emission (list PostRef) * World :=
  (JS.Next (map fst (BlogMock.getRecentPosts (BLOG_POSTS_MOCK w) limit)), w).

(** [limit ? posts.slice(0, limit) : posts]: an absent limit and the limit
    0 both give all the posts. *)
Definition limited {A : Type} (posts : list A) (limit : option Z) : list A :=
  match limit with
  | Some l => if l =? 0 then posts else JS.slice posts 0 l
  | None => posts
  end.

Definition getPostsByCategory (categoryId : string) (limit : option Z) (w : World)
    : JS.Emission (list PostRef) * World :=
  (JS.Next (map fst (limited (BlogMock.getPostsByCategory (BLOG_POSTS_MOCK w) categoryId) limit)),
   w).

Definition getPostsByAuthor (authorId : string) (limit : option Z) (w : World)
    : JS.Emission (list PostRef) * World :=
  (JS.Next (map fst (limited (BlogMock.getPostsByAuthor (BLOG_POSTS_MOCK w) authorId) limit)),
   w).

Definition getRelatedPosts (postId : string) (limit : Z) (w : World)
    : JS.Emission (list PostRef) * World :=
  (JS.Next (map fst (BlogMock.getRelatedPosts (BLOG_POSTS_MOCK w) postId limit)), w).

Module Stats.
Record BlogStats : Type := {
  totalPosts : Z;
  totalViews : Z;
  totalLikes : Z;
  totalComments : Z;
  avgReadingTime : JS.JSNumber
}.
End Stats.
Export Stats(BlogStats).

(** [posts.reduce((sum, post) => sum + f(post), 0)]. *)
Definition sum_of (f : BlogPost -> Z) (posts : list (PostRef * BlogPost)) : Z :=
  fold_left (fun sum o => sum + f (snd o)) posts 0.

Definition getBlogStats (w : World) : JS.Emission BlogStats * World :=
  let posts := BlogMock.getPublishedPosts (BLOG_POSTS_MOCK w) in
  (JS.Next
     {| Stats.totalPosts := Z.of_nat (length posts);
        Stats.totalViews := sum_of Post.views posts;
        Stats.totalLikes := sum_of Post.likes posts;
        Stats.totalComments := sum_of Post.commentsCount posts;
        Stats.avgReadingTime :=
          JS.round_div (sum_of Post.readingTime posts) (Z.of_nat (length posts)) |},
   w).

End BlogService.

(** ** Categories (core/models/categoria.interface.ts) *)

Inductive CategorySortBy : Type :=
| cat_by_name | cat_by_postsCount | cat_by_order | cat_by_createdAt | cat_by_updatedAt.

Module Category.
Record BlogCategory : Type := {
  id : string;
  name : string;
  slug : string;
  description : string;
  color : string;
  parentId : option string;
  postsCount : Z;
  isActive : bool;
  order : Z;
  (** [seo.keywords] *)
  keywords : list string
}.
End Category.
Export Category(BlogCategory).

(** A [CategoryFilters] object. It is only read property by property, so
    the order of its properties is not kept. *)
Module CategoryFilters.
Record t : Type := {
  search : option string;
  activeOnly : option bool;
  parentOnly : option bool;
  parentId : option string;
  color : option string;
  sortBy : option CategorySortBy;
  sortDirection : option SortDirection
}.
End CategoryFilters.

Record CategoriesResponse : Type := {
  cat_data : list BlogCategory;
  cat_pagination : BlogPagination
}.

(** ** The mock data module (core/data/categorias-mock.data.ts) *)

Module CategoriasMock.

Definition searchCategories (store : list BlogCategory) (term : string) : list BlogCategory :=
  let lowercaseTerm := JS.toLowerCase term in
  List.filter
    (fun category =>
       JS.includes (JS.toLowerCase (Category.name category)) lowercaseTerm
       || JS.includes (JS.toLowerCase (Category.description category)) lowercaseTerm
       || existsb (fun keyword => JS.includes keyword lowercaseTerm) (Category.keywords category))
    store.

Definition getCategoryById (store : list BlogCategory) (id : string) : option BlogCategory :=
  snd <$> JS.find_from (fun category => String.eqb (Category.id category) id) 0 store.

Definition getCategoryBySlug (store : list BlogCategory) (slug : string) : option BlogCategory :=
  snd <$> JS.find_from (fun category => String.eqb (Category.slug category) slug) 0 store.

(** [!category.parentId]: no parent, or the empty identifier. *)
Definition is_main (category : BlogCategory) : bool :=
  match Category.parentId category with
  | Some parentId => negb (JS.truthy parentId)
  | None => true
  end.

Definition getMainCategories (store : list BlogCategory) : list BlogCategory :=
  List.filter is_main store.

Definition getSubcategories (store : list BlogCategory) (parentId : string)
    : list BlogCategory :=
  List.filter (fun category => bool_decide (Category.parentId category = Some parentId)) store.

Definition getActiveCategories (store : list BlogCategory) : list BlogCategory :=
  List.filter Category.isActive store.

(** The comparator [(a, b) => b.postsCount - a.postsCount]. *)
Definition by_postsCount_descending (a b : BlogCategory) : Z :=
  Category.postsCount b - Category.postsCount a.

Definition getCategoriesByPopularity (store : list BlogCategory) : list BlogCategory :=
  JS.sort by_postsCount_descending (List.filter Category.isActive store).

End CategoriasMock.

(** ** The category service (core/services/categoria.service.ts) *)

Module CategoriaService.

Definition CACHE_DURATION : Z := 10 * 60 * 1000.

Record State : Type := {
  _loading : bool;
  _error : option string;
  _categoriesCache : option (list BlogCategory);
  _lastCacheTime : Z
}.

Record World : Type := {
  CATEGORIES_MOCK : list BlogCategory;
  service : State
}.

Definition initial_state : State :=
  {| _loading := false; _error := None; _categoriesCache := None; _lastCacheTime := 0 |}.

Definition with_service (f : State -> State) (w : World) : World :=
  {| CATEGORIES_MOCK := CATEGORIES_MOCK w; service := f (service w) |}.

Definition _setLoading (loading : bool) (s : State) : State :=
  {| _loading := loading;
     _error := if loading then None else _error s;
     _categoriesCache := _categoriesCache s;
     _lastCacheTime := _lastCacheTime s |}.

Definition _setError (message : string) (s : State) : State :=
  {| _loading := false;
     _error := Some message;
     _categoriesCache := _categoriesCache s;
     _lastCacheTime := _lastCacheTime s |}.

Definition _getCachedCategories (now : Z) (w : World) : list BlogCategory * World :=
  match _categoriesCache (service w) with
  | Some categories =>
      if now - _lastCacheTime (service w) <? CACHE_DURATION then (categories, w)
      else
        (CATEGORIES_MOCK w,
         with_service (fun s =>
           {| _loading := _loading s; _error := _error s;
              _categoriesCache := Some (CATEGORIES_MOCK w); _lastCacheTime := now |}) w)
  | None =>
      (CATEGORIES_MOCK w,
       with_service (fun s =>
         {| _loading := _loading s; _error := _error s;
            _categoriesCache := Some (CATEGORIES_MOCK w); _lastCacheTime := now |}) w)
  end.

(** [if (filters.p)] for an optional string or boolean property. *)
Definition truthy_string (o : option string) : bool :=
  match o with Some s => JS.truthy s | None => false end.

Definition truthy_bool (o : option bool) : bool := default false o.

Definition _applyFilters (categories : list BlogCategory) (filters : CategoryFilters.t)
    : list BlogCategory :=
  let filtered := categories in
  let filtered :=
    if truthy_string (CategoryFilters.search filters) then
      let searchTerm := JS.toLowerCase (default EmptyString (CategoryFilters.search filters)) in
      List.filter
        (fun cat =>
           JS.includes (JS.toLowerCase (Category.name cat)) searchTerm
           || JS.includes (JS.toLowerCase (Category.description cat)) searchTerm)
        filtered
    else filtered in
  let filtered :=
    if truthy_bool (CategoryFilters.activeOnly filters) then
      List.filter (fun cat => Category.isActive cat) filtered
    else filtered in
  let filtered :=
    if truthy_bool (CategoryFilters.parentOnly filters) then
      List.filter (fun cat => negb (truthy_string (Category.parentId cat))) filtered
    else filtered in
  let filtered :=
    if truthy_string (CategoryFilters.parentId filters) then
      List.filter
        (fun cat => bool_decide (Category.parentId cat = CategoryFilters.parentId filters))
        filtered
    else filtered in
  let filtered :=
    if truthy_string (CategoryFilters.color filters) then
      List.filter
        (fun cat => bool_decide (Some (Category.color cat) = CategoryFilters.color filters))
        filtered
    else filtered in
  filtered.

Section Sorting.
(** [new Date(text).getTime()], with [None] for NaN: what the engine makes
    of a text that is not in the ISO format is its own business. *)
Variable Date_parse : string -> option Z.

Definition sort_value (sortBy : CategorySortBy) (cat : BlogCategory) : JS.Value :=
  match sortBy with
  | cat_by_name => JS.Str (JS.toLowerCase (Category.name cat))
  | cat_by_postsCount => JS.Num (Category.postsCount cat)
  | cat_by_order => JS.Num (Category.order cat)
  | cat_by_createdAt | cat_by_updatedAt =>
      match Date_parse (Category.name cat) with
      | Some t => JS.Num t
      | None => JS.NaNValue
      end
  end.

Definition compare_categories (sortBy : CategorySortBy) (direction : SortDirection)
    (a b : BlogCategory) : Z :=
  let aValue := sort_value sortBy a in
  let bValue := sort_value sortBy b in
  match direction with
  | asc => if JS.gt aValue bValue then 1 else if JS.lt aValue bValue then -1 else 0
  | desc => if JS.lt aValue bValue then 1 else if JS.gt aValue bValue then -1 else 0
  end.

(** The two optional parameters default to ['order'] and ['asc']. *)
Definition _applySorting (categories : list BlogCategory) (sortBy : option CategorySortBy)
    (direction : option SortDirection) : list BlogCategory :=
  let sortBy := default cat_by_order sortBy in
  let direction := default asc direction in
  JS.sort (compare_categories sortBy direction) categories.

Definition _applyPagination (categories : list BlogCategory) (page pageSize : Z)
    : list BlogCategory :=
  let startIndex := (page - 1) * pageSize in
  let endIndex := startIndex + pageSize in
  JS.slice categories startIndex endIndex.

(** [now] is the reading of the clock by the deferred part. *)
Definition getCategories (page pageSize : Z) (filters : CategoryFilters.t) (now : Z)
    (w : World) : JS.Emission CategoriesResponse * World :=
  let w := with_service (_setLoading true) w in
  let '(categories, w) := _getCachedCategories now w in
  let categories := _applyFilters categories filters in
  let categories :=
    _applySorting categories (CategoryFilters.sortBy filters)
      (CategoryFilters.sortDirection filters) in
  let paginatedCategories := _applyPagination categories page pageSize in
  let w := with_service (_setLoading false) w in
  let total := Z.of_nat (length categories) in
  (JS.Next
     {| cat_data := paginatedCategories;
        cat_pagination :=
          {| currentPage := page;
             totalPages := JS.ceil_div total pageSize;
             totalItems := total;
             itemsPerPage := pageSize;
             hasPrevious := 1 <? page;
             hasNext := page * pageSize <? total |} |},
   w).

End Sorting.

Definition searchCategories (term : string) (w : World)
    : JS.Emission (list BlogCategory) * World :=
  if negb (JS.truthy (JS.trim term)) then (JS.Next [], w)
  else
    let w := with_service (_setLoading true) w in
    let results := CategoriasMock.searchCategories (CATEGORIES_MOCK w) term in
    let w := with_service (_setLoading false) w in
    (JS.Next results, w).

(** *** The other methods *)

Definition getCategoryById (id : string) (w : World)
    : JS.Emission (option BlogCategory) * World :=
  let w := with_service (_setLoading true) w in
  let category := CategoriasMock.getCategoryById (CATEGORIES_MOCK w) id in
  let w := with_service (_setLoading false) w in
  (JS.Next category, w).

Definition getCategoryBySlug (slug : string) (w : World)
    : JS.Emission (option BlogCategory) * World :=
  let w := with_service (_setLoading true) w in
  let category := CategoriasMock.getCategoryBySlug (CATEGORIES_MOCK w) slug in
  let w := with_service (_setLoading false) w in
  (JS.Next category, w).

Definition getMainCategories (w : World) : JS.Emission (list BlogCategory) * World :=
  (JS.Next (CategoriasMock.getMainCategories (CATEGORIES_MOCK w)), w).

Definition getSubcategories (parentId : string) (w : World)
    : JS.Emission (list BlogCategory) * World :=
  (JS.Next (CategoriasMock.getSubcategories (CATEGORIES_MOCK w) parentId), w).

Definition getActiveCategories (w : World) : JS.Emission (list BlogCategory) * World :=
  (JS.Next (CategoriasMock.getActiveCategories (CATEGORIES_MOCK w)), w).

Definition getPopularCategories (limit : Z) (w : World)
    : JS.Emission (list BlogCategory) * World :=
  (JS.Next (JS.slice (CategoriasMock.getCategoriesByPopularity (CATEGORIES_MOCK w)) 0 limit), w).

Definition clearCache (w : World) : World :=
  with_service (fun s =>
    {| _loading := _loading s; _error := _error s;
       _categoriesCache := None; _lastCacheTime := 0 |}) w.

(** **** The breadcrumb of a category *)

Record BreadcrumbItem : Type := {
  item_name : string;
  item_url : string;
  item_level : Z
}.

Record Breadcrumb : Type := {
  items : list BreadcrumbItem;
  current : BlogCategory
}.

(** The loop that walks from a category up its parents, putting each one
    in front of the items. [fuel] bounds the number of turns: the result is
    [None] when the loop is still running after that many. *)
Fixpoint breadcrumb_loop (fuel : nat) (store : list BlogCategory)
    (currentCategory : option BlogCategory) (level : Z) (breadcrumbItems : list BreadcrumbItem)
    : option (list BreadcrumbItem) :=
  match currentCategory with
  | None => Some breadcrumbItems
  | Some category =>
      match fuel with
      | O => None
      | S fuel =>
          let breadcrumbItems :=
            {| item_name := Category.name category;
               item_url := "/blog/categoria/" +:+ Category.slug category;
               item_level := level |} :: breadcrumbItems in
          match Category.parentId category with
          | Some parentId =>
              if JS.truthy parentId then
                breadcrumb_loop fuel store (CategoriasMock.getCategoryById store parentId)
                  (level + 1) breadcrumbItems
              else Some breadcrumbItems
          | None => Some breadcrumbItems
          end
      end
  end.

Definition getCategoryBreadcrumb (fuel : nat) (categoryId : string) (w : World)
    : option (JS.Emission Breadcrumb * World) :=
  match CategoriasMock.getCategoryById (CATEGORIES_MOCK w) categoryId with
  | None => Some (JS.Error "Categoría no encontrada", w)
  | Some category =>
      match breadcrumb_loop fuel (CATEGORIES_MOCK w) (Some category) 0 [] with
      | Some breadcrumbItems =>
          Some (JS.Next {| items := breadcrumbItems; current := category |}, w)
      | None => None
      end
  end.

(** **** The statistics of a category *)

Record PopularPost : Type := {
  popular_id : string;
  popular_title : string;
  popular_slug : string;
  popular_views : Z
}.

Record CategoryTrend : Type := {
  postsGrowth : Z;
  viewsGrowth : Z;
  engagementGrowth : Z
}.

Record CategoryStats : Type := {
  categoryId : string;
  totalPosts : Z;
  publishedPosts : Z;
  draftPosts : Z;
  totalViews : Z;
  totalLikes : Z;
  totalComments : Z;
  averageReadingTime : JS.Quotient;
  growthRate : Z;
  popularPosts : list PopularPost;
  trend : CategoryTrend
}.

(** The four random draws of the method, each the value of its
    [Math.floor(Math.random() * k)]. *)
Record Draws : Type := {
  draw_growthRate : Z;
  draw_postsGrowth : Z;
  draw_viewsGrowth : Z;
  draw_engagementGrowth : Z
}.

Definition sum_of (f : BlogPost -> Z) (posts : list (PostRef * BlogPost)) : Z :=
  fold_left (fun sum o => sum + f (snd o)) posts 0.

Definition count_status (status : BlogPostStatus) (posts : list (PostRef * BlogPost)) : Z :=
  Z.of_nat
    (length (List.filter (fun o => bool_decide (Post.status (snd o) = status)) posts)).

(** [blogPosts] is the array [BLOG_POSTS_MOCK] of the blog data module,
    which the method reads through [getPostsByCategory]. *)
Definition getCategoryStats (blogPosts : list BlogPost) (draws : Draws) (id : string)
    (w : World) : JS.Emission CategoryStats * World :=
  let w := with_service (_setLoading true) w in
  match CategoriasMock.getCategoryById (CATEGORIES_MOCK w) id with
  | None =>
      (JS.Error "Categoría no encontrada",
       with_service
         (_setError ("Error al cargar estadísticas de categoría: " +:+ id)) w)
  | Some category =>
      let posts := BlogMock.getPostsByCategory blogPosts id in
      let publishedPosts := count_status published posts in
      let draftPosts := count_status draft posts in
      let totalViews := sum_of Post.views posts in
      let totalLikes := sum_of Post.likes posts in
      let totalComments := sum_of Post.commentsCount posts in
      let posts := JS.sort BlogMock.by_views_descending posts in
      let popularPosts :=
        map (fun o =>
               {| popular_id := Post.id (snd o); popular_title := Post.title (snd o);
                  popular_slug := Post.slug (snd o); popular_views := Post.views (snd o) |})
          (JS.slice posts 0 5) in
      let averageReadingTime :=
        if 0 <? Z.of_nat (length posts) then
          {| JS.numerator := sum_of Post.readingTime posts;
             JS.denominator := Z.of_nat (length posts) |}
        else {| JS.numerator := 0; JS.denominator := 1 |} in
      let w := with_service (_setLoading false) w in
      (JS.Next
         {| categoryId := id;
            totalPosts := Z.of_nat (length posts);
            publishedPosts := publishedPosts;
            draftPosts := draftPosts;
            totalViews := totalViews;
            totalLikes := totalLikes;
            totalComments := totalComments;
            averageReadingTime := averageReadingTime;
            growthRate := draw_growthRate draws - 15;
            popularPosts := popularPosts;
            trend :=
              {| postsGrowth := draw_postsGrowth draws - 10;
                 viewsGrowth := draw_viewsGrowth draws - 15;
                 engagementGrowth := draw_engagementGrowth draws - 12 |} |},
       w)
  end.

(** One call of a method of the category service. *)
Inductive step : World -> World -> Prop :=
| step_getCategories Date_parse page pageSize filters now w :
    step w (snd (getCategories Date_parse page pageSize filters now w))
| step_getCategoryById id w : step w (snd (getCategoryById id w))
| step_getCategoryBySlug slug w : step w (snd (getCategoryBySlug slug w))
| step_searchCategories term w : step w (snd (searchCategories term w))
| step_getCategoryStats blogPosts draws id w :
    step w (snd (getCategoryStats blogPosts draws id w))
| step_clearCache w : step w (clearCache w).

(** The states the service reaches from a fresh instance over [store]. *)
Inductive reachable (store : list BlogCategory) : World -> Prop :=
| reachable_initial :
    reachable store {| CATEGORIES_MOCK := store; service := initial_state |}
| reachable_step w w' : reachable store w -> step w w' -> reachable store w'.

End CategoriaService.

(** * The vocabulary of the properties *)

Global Instance Value_eq_dec : EqDecision JS.Value.
Proof. solve_decision. Defined.

(** ** Filtering *)

(** Two sets of identifiers, given as arrays, have an element in common. *)
Definition intersects (xs ys : list string) : Prop :=
  Exists (fun x => x ∈ ys) xs.

Global Instance intersects_dec xs ys : Decision (intersects xs ys).
Proof. unfold intersects. apply _. Defined.

(** The filters object constrains the category identifiers to [C] and
    nothing else: every other predicate of the filter stage is absent or
    holds the value that the stage skips (the empty string, the empty
    array, [false]). The sort field and direction are free. *)
Definition category_constraint_only (F : BlogFilters) (C : list string) : Prop :=
  Filters.categoryIds F = Some C
  /\ JS.truthy (default EmptyString (Filters.search F)) = false
  /\ default [] (Filters.tags F) = []
  /\ JS.truthy (default EmptyString (Filters.authorId F)) = false
  /\ Filters.status F = None
  /\ default false (Filters.featured F) = false
  /\ Filters.dateFrom F = None
  /\ Filters.dateTo F = None.

(** ** Sorting *)

(** The values of one kind: two numbers, or two strings. NaN is of no kind. *)
Definition same_kind (u v : JS.Value) : Prop :=
  match u, v with
  | JS.Num _, JS.Num _ | JS.Str _, JS.Str _ => True
  | _, _ => False
  end.

(** [u] may stand before [v] in a sequence sorted in direction [d]: the
    comparator of the sort stage is not positive on them. *)
Definition in_order (d : SortDirection) (u v : JS.Value) : Prop :=
  match d with
  | asc => JS.gt u v = false
  | desc => JS.lt u v = false
  end.


(** The keys of the elements of [l] are of one kind (none is NaN). *)
Definition comparable {A : Type} (key : A -> JS.Value) (l : list A) : Prop :=
  forall a b, a ∈ l -> b ∈ l -> same_kind (key a) (key b).

(** [l] is sorted on [key] in direction [d]. *)
Definition sorted_on {A : Type} (key : A -> JS.Value) (d : SortDirection) (l : list A) : Prop :=
  StronglySorted (fun a b => in_order d (key a) (key b)) l.




(** ** Pagination *)

(** The pagination descriptor [p] is the one of [p.totalItems] items in
    pages of [p.itemsPerPage]: [totalPages] is the ceiling of their
    quotient, the integer [n] with [(n - 1) * itemsPerPage < totalItems <=
    n * itemsPerPage]; there is a next page when the current one is before
    the last, a previous one when it is after the first. *)
Definition descriptor_consistent (p : BlogPagination) : Prop :=
  exists n : Z,
    totalPages p = JS.Fin n
    /\ (n - 1) * itemsPerPage p < totalItems p <= n * itemsPerPage p
    /\ (hasNext p = true <-> currentPage p < n)
    /\ (hasPrevious p = true <-> 1 < currentPage p).

(** ** The cache *)

(** The reference points to a published post of the store. *)
Definition refers_to_published (store : list BlogPost) (ref : PostRef) : Prop :=
  exists post, store !! ref = Some post /\ Post.status post = published.

(** Every array held by the cache holds published posts only. *)
Definition cache_published (w : BlogService.World) : Prop :=
  forall cacheKey refs,
    BlogService._postsCache (BlogService.service w) !! cacheKey = Some refs ->
    Forall (refers_to_published (BlogService.BLOG_POSTS_MOCK w)) refs.

(** The text of a member of the serialized filters up to its value. *)
Definition member_prefix (e : Filters.Member) : string :=
  JS.json_string (Filters.key e) +:+ ":".

(** ** Searching *)

(** A search term that is empty or made of white space only: a sequence
    of characters each of which is white space or a line terminator. *)
Inductive blank : string -> Prop :=
| blank_empty : blank EmptyString
| blank_white char rest :
    JS.is_whitespace char = true -> blank rest -> blank (char +:+ rest).

(** A space, a no-break space, a tabulation, an ideographic space and a
    line separator. *)
Definition blank_term : string :=
  " " +:+ (JS.utf8 160 +:+ (JS.utf8 9 +:+ (JS.utf8 12288 +:+ (JS.utf8 8232 +:+ EmptyString)))).

(** ** Sample data *)

(** A post with the given identifier, status, view count and publication
    date, in the category of its own number. *)
Definition sample_post (id : string) (status : BlogPostStatus) (views : Z)
    (publishedAt : option Z) : BlogPost :=
  {| Post.id := id; Post.title := "Post " +:+ id; Post.slug := "post-" +:+ id;
     Post.excerpt := "An excerpt"; Post.status := status; Post.authorId := "author-1";
     Post.categoryIds := ["categoria-" +:+ id]; Post.tags := ["angular"];
     Post.readingTime := 5; Post.views := views; Post.likes := 0;
     Post.commentsCount := 0; Post.featured := false;
     Post.createdAt := 1000; Post.updatedAt := 2000; Post.publishedAt := publishedAt |}.

Definition two_posts : list BlogPost :=
  [sample_post "1" published 10 (Some 5000); sample_post "2" published 20 (Some 4000)].

(** A draft between two published posts. *)
Definition posts_with_draft : list BlogPost :=
  [sample_post "1" published 10 (Some 5000); sample_post "2" draft 30 None;
   sample_post "3" published 20 (Some 6000)].

(** The same two properties, inserted in the two possible orders. *)
Definition search_then_author : BlogFilters :=
  [Filters.search_ "angular"; Filters.authorId_ "author-1"].

Definition author_then_search : BlogFilters :=
  [Filters.authorId_ "author-1"; Filters.search_ "angular"].

(** The service after a first [getPosts] for page 1 in pages of one post,
    called at 100000 ms and answered at 100800 ms. *)
Definition after_first_page : BlogService.World :=
  snd (BlogService.getPosts 1 1 [] 100000 100800 (BlogService.initial_world two_posts)).

(** Membership in a list written with its first elements. *)
Ltac in_list := rewrite ?elem_of_cons in *; intuition auto.

(** A concrete list of pairwise distinct values has no duplicate. *)
Ltac distinct_values :=
  apply NoDup_ListNoDup; vm_compute; repeat constructor; simpl; intuition discriminate.

(** ** The other methods of the two services *)

(** Every array held by the cache lists no post twice. *)
Definition cache_nodup (w : BlogService.World) : Prop :=
  forall cacheKey refs,
    BlogService._postsCache (BlogService.service w) !! cacheKey = Some refs -> NoDup refs.

(** The conjunction of the predicates of the filter stage that [F] switches
    on, as one test of a post. *)
Definition passes (F : BlogFilters) (post : BlogPost) : bool :=
  match Filters.search F with
  | Some search =>
      if JS.truthy search then BlogService.matches_search (JS.toLowerCase search) post else true
  | None => true
  end
  && match Filters.categoryIds F with
     | Some ((_ :: _) as categoryIds) =>
         existsb (fun catId => JS.array_includes (Post.categoryIds post) catId) categoryIds
     | _ => true
     end
  && match Filters.tags F with
     | Some ((_ :: _) as tags) =>
         existsb (fun tag => JS.array_includes (Post.tags post) tag) tags
     | _ => true
     end
  && match Filters.authorId F with
     | Some authorId => if JS.truthy authorId then String.eqb (Post.authorId post) authorId else true
     | None => true
     end
  && match Filters.status F with
     | Some status => bool_decide (Post.status post = status)
     | None => true
     end
  && match Filters.featured F with
     | Some true => Post.featured post
     | _ => true
     end
  && match Filters.dateFrom F with
     | Some dateFrom => BlogService.published_from dateFrom post
     | None => true
     end
  && match Filters.dateTo F with
     | Some dateTo => BlogService.published_to dateTo post
     | None => true
     end.


(** ** Categories *)

(** The line of parents of a category: the category, its parent, the
    parent of that one and so on, up to a category without parent or one
    whose parent is not in the store. *)
Inductive ancestry (store : list BlogCategory) : BlogCategory -> list BlogCategory -> Prop :=
| ancestry_top category :
    CategoriasMock.is_main category = true -> ancestry store category [category]
| ancestry_dangling category parentId :
    Category.parentId category = Some parentId -> JS.truthy parentId = true ->
    CategoriasMock.getCategoryById store parentId = None ->
    ancestry store category [category]
| ancestry_parent category parentId parent line :
    Category.parentId category = Some parentId -> JS.truthy parentId = true ->
    CategoriasMock.getCategoryById store parentId = Some parent ->
    ancestry store parent line ->
    ancestry store category (category :: line).

(** The breadcrumb item of a category met [level] steps up the line. *)
Definition breadcrumb_item (level : nat) (category : BlogCategory)
    : CategoriaService.BreadcrumbItem :=
  {| CategoriaService.item_name := Category.name category;
     CategoriaService.item_url := "/blog/categoria/" +:+ Category.slug category;
     CategoriaService.item_level := Z.of_nat level |}.

(** The category has a parent identifier that resolves to [parent]. *)
Definition parent_of (store : list BlogCategory) (category parent : BlogCategory) : Prop :=
  exists parentId,
    Category.parentId category = Some parentId /\ JS.truthy parentId = true
    /\ CategoriasMock.getCategoryById store parentId = Some parent.

(** The cache of the category service is empty or holds the categories of
    the store, in their order. *)
Definition cache_is_store (store : list BlogCategory) (w : CategoriaService.World) : Prop :=
  CategoriaService.CATEGORIES_MOCK w = store
  /\ (CategoriaService._categoriesCache (CategoriaService.service w) = None
      \/ CategoriaService._categoriesCache (CategoriaService.service w) = Some store).

(** The category filters object with no property set. *)
Definition no_category_filters : CategoryFilters.t :=
  {| CategoryFilters.search := None; CategoryFilters.activeOnly := None;
     CategoryFilters.parentOnly := None; CategoryFilters.parentId := None;
     CategoryFilters.color := None; CategoryFilters.sortBy := None;
     CategoryFilters.sortDirection := None |}.

(** The conjunction of the predicates of the category filter stage that
    [filters] switches on, as one test of a category. *)
Definition category_passes (filters : CategoryFilters.t) (cat : BlogCategory) : bool :=
  (if CategoriaService.truthy_string (CategoryFilters.search filters) then
     let searchTerm := JS.toLowerCase (default EmptyString (CategoryFilters.search filters)) in
     JS.includes (JS.toLowerCase (Category.name cat)) searchTerm
     || JS.includes (JS.toLowerCase (Category.description cat)) searchTerm
   else true)
  && (if CategoriaService.truthy_bool (CategoryFilters.activeOnly filters)
      then Category.isActive cat else true)
  && (if CategoriaService.truthy_bool (CategoryFilters.parentOnly filters)
      then negb (CategoriaService.truthy_string (Category.parentId cat)) else true)
  && (if CategoriaService.truthy_string (CategoryFilters.parentId filters)
      then bool_decide (Category.parentId cat = CategoryFilters.parentId filters) else true)
  && (if CategoriaService.truthy_string (CategoryFilters.color filters)
      then bool_decide (Some (Category.color cat) = CategoryFilters.color filters) else true).

(** An integer that a JS number holds exactly and that a template literal
    writes with all its digits. *)
Definition safe_integer (n : Z) : Prop := - 2 ^ 53 < n < 2 ^ 53.

(** An active category with the given identifier, parent and number of
    posts. *)
Definition sample_category (id : string) (parentId : option string) (postsCount : Z)
    : BlogCategory :=
  {| Category.id := id; Category.name := "Categoria " +:+ id;
     Category.slug := "categoria-" +:+ id; Category.description := "Una categoria";
     Category.color := "#dd0031"; Category.parentId := parentId;
     Category.postsCount := postsCount; Category.isActive := true; Category.order := 1;
     Category.keywords := ["angular"] |}.

(** A category, a subcategory of it and a subcategory of that one. *)
Definition three_categories : list BlogCategory :=
  [sample_category "1" None 7; sample_category "2" (Some "1") 9;
   sample_category "3" (Some "2") 4].

(** Two categories, each the parent of the other. *)
Definition looping_categories : list BlogCategory :=
  [sample_category "1" (Some "2") 7; sample_category "2" (Some "1") 9].

(** The category service over [three_categories] after a first
    [getCategories], answered at 100400 ms. *)
Definition after_first_categories : CategoriaService.World :=
  snd (CategoriaService.getCategories (fun _ => None) 1 2 no_category_filters 100400
         {| CategoriaService.CATEGORIES_MOCK := three_categories;
            CategoriaService.service := CategoriaService.initial_state |}).

(** * Properties *)

(** ** The embedding at work on concrete inputs *)

Example toISOString_epoch : JS.toISOString 0 = "1970-01-01T00:00:00.000Z".
Proof. vm_compute. reflexivity. Qed.

Example toISOString_2023 : JS.toISOString 1700000000123 = "2023-11-14T22:13:20.123Z".
Proof. vm_compute. reflexivity. Qed.

Example toISOString_leap_day : JS.toISOString 1709164800000 = "2024-02-29T00:00:00.000Z".
Proof. vm_compute. reflexivity. Qed.

Example toISOString_before_epoch : JS.toISOString (-1) = "1969-12-31T23:59:59.999Z".
Proof. vm_compute. reflexivity. Qed.

Example trim_inner_space_kept : JS.trim "  a b  " = "a b".
Proof. vm_compute. reflexivity. Qed.

(** The text between the quotes is UTF-8. *)
Example utf8_e_acute : JS.utf8 233 = "é".
Proof. vm_compute. reflexivity. Qed.

(** A no-break space and a byte order mark in front, an ideographic space
    inside, a paragraph separator and a tabulation behind. *)
Example trim_white_space_of_any_length :
  JS.trim (JS.utf8 160 +:+ JS.utf8 65279 +:+ "année" +:+ JS.utf8 12288 +:+ "2024"
             +:+ JS.utf8 8233 +:+ JS.utf8 9)
  = "année" +:+ JS.utf8 12288 +:+ "2024".
Proof. vm_compute. reflexivity. Qed.

(** A zero-width space (U+200B) and a next-line character (U+0085) are
    not white space of the language. *)
Example trim_keeps_other_characters :
  JS.trim (JS.utf8 8203) = JS.utf8 8203 /\ JS.trim (JS.utf8 133) = JS.utf8 133.
Proof. vm_compute. auto. Qed.

(** Strings compare by code units: U+1F600, a surrogate pair that starts
    with D83D, stands before U+FF21, and after U+D7FF. *)
Example lt_code_units :
  JS.lt (JS.Str (JS.utf8 128512)) (JS.Str (JS.utf8 65313)) = true
  /\ JS.lt (JS.Str (JS.utf8 55295)) (JS.Str (JS.utf8 128512)) = true
  /\ JS.lt (JS.Str "Zebra") (JS.Str "apple") = true
  /\ JS.lt (JS.Str "post") (JS.Str "post 2") = true.
Proof. vm_compute. auto. Qed.

Example toLowerCase_letters : JS.toLowerCase "Angular 17 (SSR)" = "angular 17 (ssr)".
Proof. vm_compute. reflexivity. Qed.

Example slice_inside : JS.slice [1; 2; 3; 4; 5] 1 3 = [2; 3].
Proof. vm_compute. reflexivity. Qed.

Example slice_from_the_end : JS.slice [1; 2; 3; 4; 5] (-2) 10 = [4; 5].
Proof. vm_compute. reflexivity. Qed.

Example includes_substring :
  JS.includes "hello world" "o w" = true
  /\ JS.includes "abc" EmptyString = true
  /\ JS.includes "abc" "bd" = false.
Proof. vm_compute. auto. Qed.

Example number_to_string_decimal :
  JS.number_to_string 12 = "12" /\ JS.number_to_string (-3) = "-3"
  /\ JS.number_to_string 0 = "0".
Proof. vm_compute. auto. Qed.

Example ceil_div_values :
  JS.ceil_div 20 5 = JS.Fin 4 /\ JS.ceil_div 21 5 = JS.Fin 5 /\ JS.ceil_div 0 5 = JS.Fin 0
  /\ JS.ceil_div 3 0 = JS.PosInf /\ JS.ceil_div 0 0 = JS.NaN.
Proof. vm_compute. auto 6. Qed.

(** The stable sort keeps equal elements in their order: the pairs are
    compared on their first component only. *)
Example sort_is_stable :
  JS.sort (fun a b : Z * string => fst a - fst b) [(2, "a"); (1, "b"); (2, "c"); (1, "d")]
  = [(1, "b"); (1, "d"); (2, "a"); (2, "c")].
Proof. vm_compute. reflexivity. Qed.

(** Drafts are not served, and the default order is the latest publication
    first. *)
Example getPosts_skips_drafts :
  exists r,
    fst (BlogService.getPosts 1 12 [] 100000 100800 (BlogService.initial_world posts_with_draft))
    = JS.Next r
    /\ data r = [2%nat; 0%nat] /\ totalItems (pagination r) = 2
    /\ totalPages (pagination r) = JS.Fin 1 /\ hasNext (pagination r) = false.
Proof. eexists. vm_compute. repeat split. Qed.

Example getPosts_sorted_by_views_ascending :
  exists r,
    fst (BlogService.getPosts 1 12 [Filters.sortBy_ by_views; Filters.sortDirection_ asc]
           100000 100800 (BlogService.initial_world posts_with_draft))
    = JS.Next r
    /\ data r = [0%nat; 2%nat].
Proof. eexists. vm_compute. repeat split. Qed.

Example applyFilters_by_category :
  BlogService._applyFilters (fun post => post) two_posts [Filters.categoryIds_ ["categoria-2"]]
  = [sample_post "2" published 20 (Some 4000)].
Proof. vm_compute. reflexivity. Qed.

(** A like on a post that does not exist is the one error of the service. *)
Example toggleLike_unknown_post :
  fst (BlogService.toggleLike "99" true (BlogService.initial_world two_posts))
  = JS.Error "Post no encontrado".
Proof. vm_compute. reflexivity. Qed.

Example incrementViews_adds_one :
  Post.views <$> BlogService.BLOG_POSTS_MOCK
                   (snd (BlogService.incrementViews "2" (BlogService.initial_world two_posts)))
  = [10; 21].
Proof. vm_compute. reflexivity. Qed.

(** The key of a query: the two numbers, then the text of the object. *)
Example generateCacheKey_length :
  String.length (BlogService._generateCacheKey 1 12 [Filters.featured_ true]) = 22%nat.
Proof. vm_compute. reflexivity. Qed.

(** ** Pagination: the pages partition the sequence *)

Section SliceFacts.
Context {A : Type}.
Implicit Types l : list A.

(** A slice that starts at a non-negative index is a window of the list. *)
Lemma slice_window l (start size : Z) :
  0 <= start -> 0 <= size ->
  JS.slice l start (start + size) = take (Z.to_nat size) (drop (Z.to_nat start) l).
Proof.
  intros Hs Hn. unfold JS.slice, JS.clamp_index.
  destruct (start <? 0) eqn:E1; [lia|].
  destruct (start + size <? 0) eqn:E2; [lia|].
  set (len := Z.of_nat (length l)).
  destruct (Z_le_gt_dec start len) as [Hin|Hout].
  - replace (Z.to_nat (Z.min start len)) with (Z.to_nat start) by lia.
    destruct (Z_le_gt_dec (start + size) len) as [Hin2|Hout2].
    + f_equal. lia.
    + rewrite !take_ge; [reflexivity | rewrite length_drop; lia | rewrite length_drop; lia].
  - replace (Z.to_nat (Z.max (Z.min (start + size) len - Z.min start len) 0)) with 0%nat by lia.
    rewrite (drop_ge l (Z.to_nat start)) by lia.
    now rewrite take_nil.
Qed.

Lemma take_plus_drop l (a b : nat) :
  take (a + b) l = take a l ++ take b (drop a l).
Proof.
  revert l. induction a as [|a IH]; intros [|x l]; simpl; try reflexivity.
  - now rewrite take_nil.
  - now rewrite IH.
Qed.

(** The first [m] pages, end to end, are the first [m * p] items. *)
Lemma pages_prefix l (p : Z) (m : nat) :
  0 < p ->
  concat (map (fun k => BlogService._applyPagination l (Z.of_nat k) p) (seq 1 m))
  = take (m * Z.to_nat p) l.
Proof.
  intros Hp. induction m as [|m IH].
  - reflexivity.
  - rewrite seq_S, map_app, concat_app, IH. simpl.
    rewrite app_nil_r. unfold BlogService._applyPagination.
    rewrite slice_window by lia.
    replace (Z.to_nat ((Z.of_nat (S m) - 1) * p)) with (m * Z.to_nat p)%nat by lia.
    rewrite <- take_plus_drop. f_equal. lia.
Qed.

Lemma applyPagination_past_end l (page p : Z) :
  0 < p -> Z.of_nat (length l) <= (page - 1) * p ->
  BlogService._applyPagination l page p = [].
Proof.
  intros Hp Hge. unfold BlogService._applyPagination.
  rewrite slice_window by lia.
  rewrite drop_ge by lia. apply take_nil.
Qed.

Lemma slice_subset l (start stop : Z) (e : A) : e ∈ JS.slice l start stop -> e ∈ l.
Proof. unfold JS.slice. intros H. now apply subseteq_take, subseteq_drop in H. Qed.

Lemma applyPagination_subset l (page pageSize : Z) (e : A) :
  e ∈ BlogService._applyPagination l page pageSize -> e ∈ l.
Proof. apply slice_subset. Qed.

End SliceFacts.

(** C3. The pages of a sequence partition it. For a positive page size [p]
    and for [pages] the number of pages, that is the ceiling of [N / p]
    (the integer with [(pages - 1) * p < N <= pages * p], [N] the number of
    items), the slices that [_applyPagination] returns for the pages 1 to
    [pages], put end to end, are the sequence itself: every item once, in
    order. And a page whose start index [(page - 1) * p] is at or past [N]
    is the empty slice, not an error. *)
Theorem applyPagination_partition {A : Type} (posts : list A) (p : Z) (pages : nat) :
  0 < p ->
  (Z.of_nat pages - 1) * p < Z.of_nat (length posts) <= Z.of_nat pages * p ->
  concat (map (fun page => BlogService._applyPagination posts (Z.of_nat page) p) (seq 1 pages))
    = posts
  /\ forall page : Z,
      Z.of_nat (length posts) <= (page - 1) * p ->
      BlogService._applyPagination posts page p = [].
Proof.
  intros Hp [_ Hhi]. split.
  - rewrite pages_prefix by assumption. apply take_ge. nia.
  - intros page Hpage. now apply applyPagination_past_end.
Qed.

(** Seven items in pages of three: three pages, the last one short, and
    nothing from the fourth page on. *)
Lemma applyPagination_partition_witness :
  (0 < 3 /\ (Z.of_nat 3 - 1) * 3 < Z.of_nat (length [1; 2; 3; 4; 5; 6; 7]) <= Z.of_nat 3 * 3)
  /\ concat (map (fun page => BlogService._applyPagination [1; 2; 3; 4; 5; 6; 7] (Z.of_nat page) 3)
               (seq 1 3)) = [1; 2; 3; 4; 5; 6; 7]
  /\ forall page : Z,
      Z.of_nat (length [1; 2; 3; 4; 5; 6; 7]) <= (page - 1) * 3 ->
      BlogService._applyPagination [1; 2; 3; 4; 5; 6; 7] page 3 = [].
Proof.
  split; [simpl; lia|].
  apply (applyPagination_partition [1; 2; 3; 4; 5; 6; 7] 3 3); simpl; lia.
Defined.

Example applyPagination_pages_of_three :
  BlogService._applyPagination [1; 2; 3; 4; 5; 6; 7] 1 3 = [1; 2; 3]
  /\ BlogService._applyPagination [1; 2; 3; 4; 5; 6; 7] 3 3 = [7]
  /\ BlogService._applyPagination [1; 2; 3; 4; 5; 6; 7] 4 3 = [].
Proof. vm_compute. auto. Qed.

(** ** The filter stage *)

Section FilterFacts.
Context {A : Type} (post_of : A -> BlogPost).

(** The array method [filter] with a boolean callback, and the filter of a
    list by the property the callback decides. *)
Lemma filter_bool_prop (f : A -> bool) (P : A -> Prop) `{!forall x, Decision (P x)}
    (l : list A) :
  (forall x, f x = true <-> P x) -> List.filter f l = filter P l.
Proof.
  intros Hf. induction l as [|x l IH]; [reflexivity|].
  simpl. rewrite filter_cons. destruct (decide (P x)) as [HP|HP].
  - apply Hf in HP. rewrite HP. now f_equal.
  - destruct (f x) eqn:E; [apply Hf in E; contradiction | assumption].
Qed.

Lemma filter_subset (f : A -> bool) (l : list A) (e : A) : e ∈ List.filter f l -> e ∈ l.
Proof. rewrite !list_elem_of_In, filter_In. tauto. Qed.

(** The filter stage only drops elements. *)
Lemma applyFilters_subset (l : list A) (F : BlogFilters) (e : A) :
  e ∈ BlogService._applyFilters post_of l F -> e ∈ l.
Proof.
  unfold BlogService._applyFilters.
  repeat match goal with
         | |- context [match ?x with _ => _ end] => destruct x
         end;
    intros H; repeat (apply filter_subset in H); exact H.
Qed.

End FilterFacts.

Lemma array_includes_elem_of (l : list string) (x : string) :
  JS.array_includes l x = true <-> x ∈ l.
Proof.
  unfold JS.array_includes. rewrite existsb_exists. split.
  - intros (y & Hin & Heq). apply String.eqb_eq in Heq. subst. now apply list_elem_of_In.
  - intros Hin. exists x. split; [now apply list_elem_of_In | apply String.eqb_refl].
Qed.

Lemma some_includes_intersects (C ids : list string) :
  existsb (fun catId => JS.array_includes ids catId) C = true <-> intersects C ids.
Proof.
  unfold intersects. rewrite existsb_exists, Exists_exists. split.
  - intros (c & Hc & Hin). exists c.
    split; [now apply list_elem_of_In | now apply array_includes_elem_of].
  - intros (c & Hc & Hin). exists c.
    split; [now apply list_elem_of_In | now apply array_includes_elem_of].
Qed.

(** C5. For a list of posts [E] and a filters object [F] whose only
    constraint is the set [C] of category identifiers, [_applyFilters]
    returns the posts of [E] whose [categoryIds] have an element in common
    with [C], each as often as [E] holds it and in the order of [E]; when
    [C] is the empty array it returns [E] itself, the empty set being no
    constraint. The stage is a function to a new list: [E] is not changed. *)
Theorem applyFilters_category_only {A : Type} (post_of : A -> BlogPost) (E : list A)
    (F : BlogFilters) (C : list string) :
  category_constraint_only F C ->
  BlogService._applyFilters post_of E F
  = match C with
    | [] => E
    | _ => filter (fun e => intersects C (Post.categoryIds (post_of e))) E
    end.
Proof.
  intros (Hc & Hs & Ht & Ha & Hst & Hf & Hdf & Hdt).
  unfold BlogService._applyFilters.
  rewrite Hc, Hst, Hdf, Hdt.
  destruct (Filters.search F) as [s|]; simpl in Hs; [rewrite Hs|];
  (destruct (Filters.tags F) as [t|]; simpl in Ht; [rewrite Ht|]);
  (destruct (Filters.authorId F) as [a|]; simpl in Ha; [rewrite Ha|]);
  (destruct (Filters.featured F) as [b|]; simpl in Hf; [rewrite Hf|]);
  (destruct C as [|c C]; [reflexivity|];
   apply filter_bool_prop; intros e; apply (some_includes_intersects (c :: C))).
Qed.

(** The second of two posts is the one in category 2; with the empty set
    both are kept. *)
Lemma applyFilters_category_only_witness :
  (category_constraint_only [Filters.categoryIds_ ["categoria-2"]; Filters.sortBy_ by_views]
     ["categoria-2"]
   /\ BlogService._applyFilters (fun post => post) two_posts
        [Filters.categoryIds_ ["categoria-2"]; Filters.sortBy_ by_views]
      = filter (fun post => intersects ["categoria-2"] (Post.categoryIds post)) two_posts)
  /\ (category_constraint_only [Filters.categoryIds_ []] []
      /\ BlogService._applyFilters (fun post => post) two_posts [Filters.categoryIds_ []]
         = two_posts).
Proof.
  assert (H : category_constraint_only
                [Filters.categoryIds_ ["categoria-2"]; Filters.sortBy_ by_views]
                ["categoria-2"]) by (repeat split).
  assert (H0 : category_constraint_only [Filters.categoryIds_ []] []) by (repeat split).
  split; split; [exact H | | exact H0 | ].
  - exact (applyFilters_category_only (fun post => post) two_posts _ _ H).
  - exact (applyFilters_category_only (fun post => post) two_posts _ _ H0).
Defined.

(** ** The sort stage *)

(** *** The order of the values sorted on *)

Section ValueOrder.

Lemma string_ltb_iff (s t : string) : String.ltb s t = true <-> String.le s t /\ s <> t.
Proof.
  unfold String.le, String.leb, String.ltb.
  destruct (String.compare s t) eqn:E.
  - apply String.compare_eq_iff in E. subst.
    split; [discriminate | intros [_ H]; now destruct H].
  - split; [intros _; split; [exact I|] | reflexivity].
    intros ->.
    assert (H : String.compare t t = Eq).
    { clear E. induction t as [|a t IH]; simpl; [reflexivity|].
      unfold Ascii.compare. now rewrite N.compare_refl. }
    congruence.
  - split; [discriminate | intros [[] _]].
Qed.

(** The rank is a permutation of the bytes, so that texts of equal ranks
    are equal. *)
Lemma code_unit_rank_inj (c c' : ascii) :
  JS.code_unit_rank c = JS.code_unit_rank c' -> c = c'.
Proof.
  assert (H : forall c, ascii_of_nat
                          (let n := nat_of_ascii (JS.code_unit_rank c) in
                           if ((243 <=? n) && (n <=? 244))%nat then n - 5
                           else if ((238 <=? n) && (n <=? 242))%nat then n + 2
                           else n)%nat = c).
  { intros [[] [] [] [] [] [] [] []]; vm_compute; reflexivity. }
  intros Heq. rewrite <- (H c), <- (H c'). now rewrite Heq.
Qed.

Lemma code_unit_ranks_inj (s t : string) :
  JS.code_unit_ranks s = JS.code_unit_ranks t -> s = t.
Proof.
  revert t. induction s as [|c s IH]; intros [|c' t]; simpl; try discriminate; [reflexivity|].
  intros [= Hc Hs]. f_equal; [now apply code_unit_rank_inj | now apply IH].
Qed.

Lemma lt_irrefl (u : JS.Value) : JS.lt u u = false.
Proof.
  destruct u as [z| |s]; simpl; [apply Z.ltb_irrefl | reflexivity |].
  destruct (String.ltb _ _) eqn:E; [|reflexivity].
  apply string_ltb_iff in E. now destruct E as [_ []].
Qed.

Lemma lt_trans (u v w : JS.Value) :
  JS.lt u v = true -> JS.lt v w = true -> JS.lt u w = true.
Proof.
  destruct u as [x| |s], v as [y| |t], w as [z| |r]; simpl; try discriminate.
  - rewrite !Z.ltb_lt. lia.
  - rewrite !string_ltb_iff. intros [H1 N1] [H2 N2]. split.
    + etrans; eassumption.
    + intros Heq. apply N1. apply (anti_symm String.le); [assumption|].
      now rewrite Heq.
Qed.

Lemma lt_trichotomy (u v : JS.Value) :
  same_kind u v -> u = v \/ JS.lt u v = true \/ JS.lt v u = true.
Proof.
  destruct u as [x| |s], v as [y| |t]; simpl; try contradiction; intros _.
  - destruct (Z.lt_trichotomy x y) as [H|[H|H]].
    + right; left. now apply Z.ltb_lt.
    + left. now subst.
    + right; right. now apply Z.ltb_lt.
  - destruct (decide (JS.code_unit_ranks s = JS.code_unit_ranks t)) as [Heq|Hne].
    { left. f_equal. now apply code_unit_ranks_inj. }
    right. rewrite !string_ltb_iff.
    destruct (total String.le (JS.code_unit_ranks s) (JS.code_unit_ranks t));
      [left | right]; split; auto.
Qed.

Lemma same_kind_sym (u v : JS.Value) : same_kind u v -> same_kind v u.
Proof. destruct u, v; simpl; tauto. Qed.

(** Descending order is ascending order read backwards. *)
Lemma in_order_flip (u v : JS.Value) : in_order desc v u <-> in_order asc u v.
Proof. reflexivity. Qed.


Lemma in_order_asc_trans (u v w : JS.Value) :
  same_kind u v -> same_kind v w ->
  in_order asc u v -> in_order asc v w -> in_order asc u w.
Proof.
  unfold in_order, JS.gt. intros K1 K2 H1 H2.
  destruct (JS.lt w u) eqn:E; [|reflexivity].
  destruct (lt_trichotomy u v K1) as [->|[H|H]]; [congruence| |congruence].
  destruct (lt_trichotomy v w K2) as [->|[H'|H']]; [congruence| |congruence].
  pose proof (lt_trans _ _ _ E H) as Hwv.
  pose proof (lt_trans _ _ _ Hwv H') as Hww.
  rewrite lt_irrefl in Hww. discriminate.
Qed.

Lemma in_order_trans (d : SortDirection) (u v w : JS.Value) :
  same_kind u v -> same_kind v w ->
  in_order d u v -> in_order d v w -> in_order d u w.
Proof.
  destruct d; [apply in_order_asc_trans|].
  intros K1 K2 H1 H2. apply in_order_flip. apply in_order_flip in H1, H2.
  eapply in_order_asc_trans; eauto using same_kind_sym.
Qed.

Lemma in_order_total (d : SortDirection) (u v : JS.Value) :
  in_order d u v \/ in_order d v u.
Proof.
  assert (H : JS.lt u v = false \/ JS.lt v u = false).
  { destruct (JS.lt u v) eqn:E1; [|now left]. right.
    destruct (JS.lt v u) eqn:E2; [|reflexivity].
    pose proof (lt_trans _ _ _ E1 E2) as H. now rewrite lt_irrefl in H. }
  destruct d; unfold in_order, JS.gt; tauto.
Qed.


End ValueOrder.

(** *** The stable insertion sort *)

Section SortFacts.
Context {A : Type} (key : A -> JS.Value) (d : SortDirection) (cmp : A -> A -> Z).
Hypothesis cmp_in_order : forall a b, cmp a b <= 0 <-> in_order d (key a) (key b).

Lemma sort_insert_perm (x : A) (l : list A) : JS.sort_insert cmp x l ≡ₚ x :: l.
Proof.
  induction l as [|y l IH]; simpl; [reflexivity|].
  destruct (cmp x y <=? 0); [reflexivity|].
  rewrite IH. apply Permutation_swap.
Qed.

Lemma sort_perm (l : list A) : JS.sort cmp l ≡ₚ l.
Proof.
  induction l as [|x l IH]; simpl; [reflexivity|].
  unfold JS.sort in *. simpl. rewrite sort_insert_perm. now rewrite IH.
Qed.



Lemma sort_insert_sorted (x : A) (l : list A) :
  comparable key (x :: l) -> sorted_on key d l -> sorted_on key d (JS.sort_insert cmp x l).
Proof.
  unfold sorted_on. intros Hc Hs. induction Hs as [|y l Hs IH Hy]; simpl.
  - repeat constructor.
  - destruct (cmp x y <=? 0) eqn:E.
    + apply Z.leb_le, cmp_in_order in E.
      constructor; [now constructor|].
      constructor; [assumption|].
      rewrite Forall_forall in Hy |- *. intros z Hz.
      apply (in_order_trans d _ (key y)); auto.
      * apply Hc; in_list.
      * apply Hc; in_list.
    + apply Z.leb_gt in E.
      assert (Hyx : in_order d (key y) (key x)).
      { destruct (in_order_total d (key x) (key y)) as [H|H]; [|assumption].
        apply cmp_in_order in H. lia. }
      constructor.
      * apply IH. intros a b Ha Hb. apply Hc; in_list.
      * rewrite Forall_forall in Hy |- *. intros z Hz.
        rewrite sort_insert_perm in Hz.
        apply elem_of_cons in Hz as [->|Hz]; auto.
Qed.

Lemma sort_sorted (l : list A) : comparable key l -> sorted_on key d (JS.sort cmp l).
Proof.
  induction l as [|x l IH]; intros Hc; [constructor|].
  unfold JS.sort in *. simpl. apply sort_insert_sorted.
  - intros a b Ha Hb. apply Hc.
    + apply elem_of_cons in Ha as [->|Ha]; [in_list|].
      right. now rewrite <- (sort_perm l).
    + apply elem_of_cons in Hb as [->|Hb]; [in_list|].
      right. now rewrite <- (sort_perm l).
  - apply IH. intros a b Ha Hb. apply Hc; in_list.
Qed.

End SortFacts.

(** *** A sorted and stable arrangement is the only one *)

Section Uniqueness.
Context {A : Type} (key : A -> JS.Value) (d : SortDirection).







End Uniqueness.

(** *** The sort stage of the blog service *)

Section SortingStage.
Context {A : Type} (post_of : A -> BlogPost).



Lemma applySorting_perm (l : list A) (sortBy : option BlogSortBy)
    (direction : option SortDirection) :
  BlogService._applySorting post_of l sortBy direction ≡ₚ l.
Proof. apply sort_perm. Qed.



End SortingStage.

(** *** The sort stage for any lowering function *)

Section Outcome.
Context {A : Type} (key : A -> JS.Value) (d : SortDirection) (cmp : A -> A -> Z).
Hypothesis cmp_in_order : forall a b, cmp a b <= 0 <-> in_order d (key a) (key b).
Hypothesis cmp_behind : forall a b, 0 <= cmp b a <-> in_order d (key a) (key b).
Hypothesis cmp_equal :
  forall a b, same_kind (key a) (key b) -> (cmp a b = 0 <-> key a = key b).





End Outcome.

Section SortingStageWith.
Context {A : Type} (toLowerCase : string -> string) (post_of : A -> BlogPost).





End SortingStageWith.



(** ** The cache key *)

Section CacheKey.

Lemma append_assoc (a b c : string) : (a +:+ b) +:+ c = a +:+ (b +:+ c).
Proof.
  induction a as [|x a IH]; [reflexivity|].
  change (String x ((a +:+ b) +:+ c) = String x (a +:+ (b +:+ c))). now rewrite IH.
Qed.

Lemma member_json_split (e : Filters.Member) :
  Filters.member_json e = member_prefix e +:+ Filters.value_json e.
Proof. unfold Filters.member_json, member_prefix. now rewrite append_assoc. Qed.

(** The quoted names of two properties are not prefixes of one another:
    two texts that start with them start with the same name. *)
Lemma member_prefix_key (e1 e2 : Filters.Member) (s1 s2 : string) :
  member_prefix e1 +:+ s1 = member_prefix e2 +:+ s2 -> Filters.key e1 = Filters.key e2.
Proof.
  destruct e1, e2; intros H; try reflexivity; vm_compute in H; discriminate H.
Qed.

(** Two objects with the same properties hold the same value under a name. *)
Lemma same_key_same_member (e1 e2 : Filters.Member) (r1 r2 : list Filters.Member) :
  NoDup (map Filters.key (e1 :: r1)) -> e1 :: r1 ≡ₚ e2 :: r2 ->
  Filters.key e1 = Filters.key e2 -> e1 = e2.
Proof.
  intros Hnd Hp Hk.
  assert (Hin : e2 ∈ e1 :: r1) by (rewrite Hp; apply list_elem_of_here).
  apply elem_of_cons in Hin as [->|Hin]; [reflexivity|].
  simpl in Hnd. apply NoDup_cons in Hnd as [Hnot _].
  exfalso. apply Hnot. rewrite Hk. apply list_elem_of_fmap. eauto.
Qed.

Lemma json_join_members_inj (f1 f2 : BlogFilters) (tl : string) :
  Filters.well_formed f1 -> f1 ≡ₚ f2 ->
  JS.json_join (map Filters.member_json f1) +:+ tl
  = JS.json_join (map Filters.member_json f2) +:+ tl ->
  f1 = f2.
Proof.
  unfold Filters.well_formed. revert f2.
  induction f1 as [|e1 r1 IH]; intros f2 Hnd Hp Heq.
  - now apply Permutation_nil in Hp.
  - destruct f2 as [|e2 r2]; [now apply Permutation_sym, Permutation_nil in Hp|].
    simpl in Heq. rewrite !member_json_split, !append_assoc in Heq.
    pose proof (member_prefix_key _ _ _ _ Heq) as Hk.
    pose proof (same_key_same_member _ _ _ _ Hnd Hp Hk) as <-.
    apply (inj (String.app _)) in Heq. apply (inj (String.app _)) in Heq.
    apply Permutation_cons_inv in Hp.
    f_equal.
    destruct r1 as [|a1 r1], r2 as [|a2 r2];
      [reflexivity | now apply Permutation_nil in Hp
      | now apply Permutation_sym, Permutation_nil in Hp |].
    change (("," +:+ JS.json_join (map Filters.member_json (a1 :: r1))) +:+ tl
            = ("," +:+ JS.json_join (map Filters.member_json (a2 :: r2))) +:+ tl) in Heq.
    rewrite !append_assoc in Heq. apply (inj (String.app _)) in Heq.
    apply IH; auto. simpl in Hnd. now apply NoDup_cons in Hnd as [_ ?].
Qed.

End CacheKey.

(** C2, amended. For every page and page size, two calls of [getPosts]
    whose filter objects contain the same fields with the same values
    derive the same cache key, and so reach the same cache entry, exactly
    when the fields were also inserted in the same order: the key is the
    text that [JSON.stringify] writes, property after property in insertion
    order, and nothing sorts the properties first. *)
Theorem generateCacheKey_insertion_order (page pageSize : Z) (f1 f2 : BlogFilters) :
  Filters.well_formed f1 -> f1 ≡ₚ f2 ->
  (BlogService._generateCacheKey page pageSize f1
   = BlogService._generateCacheKey page pageSize f2
   <-> f1 = f2).
Proof.
  intros Hwf Hp. split; [|now intros ->].
  unfold BlogService._generateCacheKey, Filters.stringify. intros Heq.
  do 5 apply (inj (String.app _)) in Heq.
  now apply (json_join_members_inj f1 f2 "}").
Qed.

(** The search term and the author, inserted in the two orders. *)
Lemma generateCacheKey_insertion_order_witness :
  (Filters.well_formed search_then_author /\ search_then_author ≡ₚ author_then_search)
  /\ (BlogService._generateCacheKey 1 12 search_then_author
      = BlogService._generateCacheKey 1 12 author_then_search
      <-> search_then_author = author_then_search).
Proof.
  assert (Hwf : Filters.well_formed search_then_author)
    by (unfold Filters.well_formed; distinct_values).
  assert (Hp : search_then_author ≡ₚ author_then_search) by apply Permutation_swap.
  split; [split; assumption|].
  apply (generateCacheKey_insertion_order 1 12 search_then_author author_then_search);
    assumption.
Defined.

(** C2 as stated fails on the filters [{search, authorId}] and
    [{authorId, search}] with the same two values: the two keys differ, and
    after a first call with the one object a second call with the other,
    inside the time to live, finds no entry under its key, while a call
    with the first object again finds one. *)
Lemma generateCacheKey_order_counterexample :
  search_then_author ≡ₚ author_then_search
  /\ Filters.well_formed search_then_author
  /\ Filters.well_formed author_then_search
  /\ BlogService._generateCacheKey 1 12 search_then_author
     <> BlogService._generateCacheKey 1 12 author_then_search
  /\ BlogService.cached 101000 (BlogService._generateCacheKey 1 12 author_then_search)
       (BlogService.service
          (snd (BlogService.getPosts 1 12 search_then_author 100000 100800
                  (BlogService.initial_world two_posts))))
     = None
  /\ is_Some
       (BlogService.cached 101000 (BlogService._generateCacheKey 1 12 search_then_author)
          (BlogService.service
             (snd (BlogService.getPosts 1 12 search_then_author 100000 100800
                     (BlogService.initial_world two_posts))))).
Proof.
  split; [apply Permutation_swap|].
  split; [unfold Filters.well_formed; distinct_values|].
  split; [unfold Filters.well_formed; distinct_values|].
  split; [vm_compute; discriminate|].
  split; [vm_compute; reflexivity|].
  vm_compute. eauto.
Qed.

(** ** Lookups by identifier and by slug *)

Section Find.
Context {A : Type} (f : A -> bool).

Lemma find_from_none (i : nat) (l : list A) :
  (forall x, x ∈ l -> f x = false) -> JS.find_from f i l = None.
Proof.
  revert i. induction l as [|x l IH]; intros i H; simpl; [reflexivity|].
  rewrite (H x) by apply list_elem_of_here.
  apply IH. intros y Hy. apply H. now apply list_elem_of_further.
Qed.

Lemma find_from_some (i : nat) (l : list A) (x : A) :
  x ∈ l -> f x = true ->
  exists r y, JS.find_from f i l = Some (r, y) /\ (i <= r)%nat /\ l !! (r - i)%nat = Some y
              /\ f y = true
              /\ forall j z, (j < r - i)%nat -> l !! j = Some z -> f z = false.
Proof.
  revert i. induction l as [|a l IH]; intros i Hin Hx; [now apply elem_of_nil in Hin|].
  simpl. destruct (f a) eqn:Ha.
  - exists i, a. rewrite Nat.sub_diag. repeat split; auto. intros j z Hj. lia.
  - apply elem_of_cons in Hin as [->|Hin]; [congruence|].
    destruct (IH (S i) Hin Hx) as (r & y & Hf & Hle & Hl & Hy & Hfirst).
    exists r, y. repeat split; auto; try lia.
    + replace (r - i)%nat with (S (r - S i)) by lia. exact Hl.
    + intros [|j] z Hj Hz; simpl in Hz; [congruence|].
      apply (Hfirst j z); [lia|assumption].
Qed.

Lemma find_from_inv (i : nat) (l : list A) (r : nat) (y : A) :
  JS.find_from f i l = Some (r, y) -> (i <= r)%nat /\ l !! (r - i)%nat = Some y /\ f y = true.
Proof.
  revert i. induction l as [|a l IH]; intros i; simpl; [discriminate|].
  destruct (f a) eqn:Ha.
  - intros [= <- <-]. rewrite Nat.sub_diag. auto.
  - intros H. apply IH in H as (Hle & Hl & Hy). repeat split; auto; try lia.
    replace (r - i)%nat with (S (r - S i)) by lia. exact Hl.
Qed.

End Find.

(** C9. For an identifier (respectively a slug) that no post of the store
    has, [getPostById] (respectively [getPostBySlug]) delivers [null], a
    value and not an error; when a post has it, the method delivers that
    post: the first post of the store with this identifier (respectively
    this slug). *)
Theorem lookup_null_when_absent (w : BlogService.World) (key : string) :
  ((forall post, post ∈ BlogService.BLOG_POSTS_MOCK w -> Post.id post <> key) ->
   fst (BlogService.getPostById key w) = JS.Next None)
  /\ ((forall post, post ∈ BlogService.BLOG_POSTS_MOCK w -> Post.slug post <> key) ->
      fst (BlogService.getPostBySlug key w) = JS.Next None)
  /\ (forall post, post ∈ BlogService.BLOG_POSTS_MOCK w -> Post.id post = key ->
      exists ref found,
        fst (BlogService.getPostById key w) = JS.Next (Some ref)
        /\ BlogService.BLOG_POSTS_MOCK w !! ref = Some found /\ Post.id found = key
        /\ forall j other, (j < ref)%nat -> BlogService.BLOG_POSTS_MOCK w !! j = Some other ->
                           Post.id other <> key)
  /\ (forall post, post ∈ BlogService.BLOG_POSTS_MOCK w -> Post.slug post = key ->
      exists ref found,
        fst (BlogService.getPostBySlug key w) = JS.Next (Some ref)
        /\ BlogService.BLOG_POSTS_MOCK w !! ref = Some found /\ Post.slug found = key
        /\ forall j other, (j < ref)%nat -> BlogService.BLOG_POSTS_MOCK w !! j = Some other ->
                           Post.slug other <> key).
Proof.
  unfold BlogService.getPostById, BlogService.getPostBySlug,
    BlogMock.getPostById, BlogMock.getPostBySlug. simpl.
  repeat split.
  - intros H. rewrite find_from_none; [reflexivity|].
    intros x Hx. apply String.eqb_neq. auto.
  - intros H. rewrite find_from_none; [reflexivity|].
    intros x Hx. apply String.eqb_neq. auto.
  - intros post Hin Hid.
    destruct (find_from_some (fun p => String.eqb (Post.id p) key) 0 _ post Hin)
      as (r & y & Hf & _ & Hl & Hy & Hfirst); [now apply String.eqb_eq|].
    rewrite Nat.sub_0_r in *. exists r, y. rewrite Hf. simpl.
    repeat split; auto; [now apply String.eqb_eq|].
    intros j other Hj Ho. apply String.eqb_neq. eauto.
  - intros post Hin Hid.
    destruct (find_from_some (fun p => String.eqb (Post.slug p) key) 0 _ post Hin)
      as (r & y & Hf & _ & Hl & Hy & Hfirst); [now apply String.eqb_eq|].
    rewrite Nat.sub_0_r in *. exists r, y. rewrite Hf. simpl.
    repeat split; auto; [now apply String.eqb_eq|].
    intros j other Hj Ho. apply String.eqb_neq. eauto.
Qed.

(** No post of the two has the identifier 3; the second has the slug
    [post-2]. *)
Lemma lookup_null_when_absent_witness :
  fst (BlogService.getPostById "3" (BlogService.initial_world two_posts)) = JS.Next None
  /\ exists ref found,
       fst (BlogService.getPostBySlug "post-2" (BlogService.initial_world two_posts))
       = JS.Next (Some ref)
       /\ two_posts !! ref = Some found /\ Post.slug found = "post-2".
Proof.
  pose proof (lookup_null_when_absent (BlogService.initial_world two_posts) "3")
    as (Hid & _ & _ & _).
  pose proof (lookup_null_when_absent (BlogService.initial_world two_posts) "post-2")
    as (_ & _ & _ & Hslug).
  split.
  - apply Hid. intros post Hin. vm_compute in Hin.
    repeat (apply elem_of_cons in Hin as [->|Hin]; [discriminate|]).
    now apply elem_of_nil in Hin.
  - destruct (Hslug (sample_post "2" published 20 (Some 4000)))
      as (ref & found & Hf & Hl & Hs & _).
    + apply list_elem_of_further, list_elem_of_here.
    + reflexivity.
    + exists ref, found. auto.
Defined.

(** ** Blank search terms *)

Section Blank.

(** The equations of [trimStart] and [trimEnd]. *)
Lemma trimStart_cons (c1 : ascii) (r1 : string) :
  JS.trimStart (String c1 r1)
  = if JS.is_whitespace (String c1 EmptyString) then JS.trimStart r1
    else
      match r1 with
      | EmptyString => String c1 r1
      | String c2 r2 =>
          if JS.is_whitespace (String c1 (String c2 EmptyString)) then JS.trimStart r2
          else
            match r2 with
            | EmptyString => String c1 r1
            | String c3 r3 =>
                if JS.is_whitespace (String c1 (String c2 (String c3 EmptyString)))
                then JS.trimStart r3
                else String c1 r1
            end
      end.
Proof. reflexivity. Qed.

Lemma trimEnd_cons (c : ascii) (r : string) :
  JS.trimEnd (String c r)
  = match JS.trimStart (String c r) with
    | EmptyString => EmptyString
    | _ => String c (JS.trimEnd r)
    end.
Proof. reflexivity. Qed.

(** A white-space character is the text of one of the code points. *)
Lemma is_whitespace_utf8 (char : string) :
  JS.is_whitespace char = true ->
  exists c, List.In c (JS.WhiteSpace ++ JS.LineTerminator) /\ char = JS.utf8 c.
Proof.
  unfold JS.is_whitespace. rewrite existsb_exists. intros (c & Hin & Heq).
  exists c. split; [exact Hin|]. now apply String.eqb_eq.
Qed.

(** A leading white-space character is dropped, whatever its length. *)
Lemma trimStart_white (char rest : string) :
  JS.is_whitespace char = true -> JS.trimStart (char +:+ rest) = JS.trimStart rest.
Proof.
  intros (c & Hin & ->)%is_whitespace_utf8. simpl in Hin.
  repeat (destruct Hin as [<-|Hin]; [reflexivity|]). contradiction.
Qed.

Lemma trimStart_blank (term : string) : blank term -> JS.trimStart term = EmptyString.
Proof.
  induction 1 as [|char rest Hchar _ IH]; [reflexivity|].
  now rewrite trimStart_white.
Qed.

Lemma trim_blank (term : string) : blank term -> JS.trim term = EmptyString.
Proof. intros H. unfold JS.trim. now rewrite trimStart_blank. Qed.

(** What [trimStart] returns is the term itself or what it returns for a
    shorter term that lacks a leading white-space character. *)
Lemma trimStart_step (term : string) :
  JS.trimStart term = term
  \/ exists char rest,
       term = char +:+ rest /\ JS.is_whitespace char = true
       /\ JS.trimStart term = JS.trimStart rest
       /\ (String.length rest < String.length term)%nat.
Proof.
  destruct term as [|c1 r1]; [now left|]. rewrite trimStart_cons.
  destruct (JS.is_whitespace (String c1 EmptyString)) eqn:E1.
  { right. exists (String c1 EmptyString), r1. repeat split; auto; simpl; lia. }
  destruct r1 as [|c2 r2]; [now left|].
  destruct (JS.is_whitespace (String c1 (String c2 EmptyString))) eqn:E2.
  { right. exists (String c1 (String c2 EmptyString)), r2. repeat split; auto; simpl; lia. }
  destruct r2 as [|c3 r3]; [now left|].
  destruct (JS.is_whitespace (String c1 (String c2 (String c3 EmptyString)))) eqn:E3.
  { right. exists (String c1 (String c2 (String c3 EmptyString))), r3.
    repeat split; auto; simpl; lia. }
  now left.
Qed.

Lemma trimStart_empty_blank (term : string) : JS.trimStart term = EmptyString -> blank term.
Proof.
  remember (String.length term) as n eqn:Hn. revert term Hn.
  induction n as [n IH] using lt_wf_ind. intros term -> H.
  destruct (trimStart_step term) as [Hsame|(char & rest & -> & Hchar & Hrest & Hlen)].
  - rewrite Hsame in H. subst. constructor.
  - apply blank_white; [exact Hchar|].
    apply (IH _ Hlen rest eq_refl). now rewrite <- Hrest.
Qed.

(** [trimStart] leaves nothing to drop. *)
Lemma trimStart_trimStart (term : string) :
  JS.trimStart (JS.trimStart term) = JS.trimStart term.
Proof.
  remember (String.length term) as n eqn:Hn. revert term Hn.
  induction n as [n IH] using lt_wf_ind. intros term ->.
  destruct (trimStart_step term) as [Hsame|(char & rest & _ & _ & Hrest & Hlen)].
  - now rewrite !Hsame.
  - rewrite Hrest. now apply (IH _ Hlen).
Qed.

Lemma trimEnd_empty (term : string) :
  JS.trimEnd term = EmptyString -> JS.trimStart term = EmptyString.
Proof.
  destruct term as [|c r]; [reflexivity|]. rewrite trimEnd_cons.
  destruct (JS.trimStart (String c r)); [reflexivity | discriminate].
Qed.

(** The guard [!term.trim()] holds of the blank terms and of no other. *)
Lemma trim_empty_blank (term : string) : JS.trim term = EmptyString -> blank term.
Proof.
  unfold JS.trim. intros H%trimEnd_empty. rewrite trimStart_trimStart in H.
  now apply trimStart_empty_blank.
Qed.

End Blank.

(** C10. For a search term that is empty or made of white space only,
    [BlogService.searchPosts] and [CategoriaService.searchCategories]
    deliver the empty list, and the state after the call is the state
    before it: nothing is filtered or sorted and the loading state is not
    touched. *)
Theorem search_blank_term (term : string) :
  blank term ->
  (forall filters w, BlogService.searchPosts term filters w = (JS.Next [], w))
  /\ (forall w, CategoriaService.searchCategories term w = (JS.Next [], w)).
Proof.
  intros Hb. split; intros;
    unfold BlogService.searchPosts, CategoriaService.searchCategories;
    now rewrite (trim_blank term Hb).
Qed.

(** A term of five white-space characters, four of them outside ASCII or
    not a space. *)
Lemma search_blank_term_witness :
  blank blank_term
  /\ (forall filters w, BlogService.searchPosts blank_term filters w = (JS.Next [], w))
  /\ (forall w, CategoriaService.searchCategories blank_term w = (JS.Next [], w)).
Proof.
  assert (H : blank blank_term).
  { unfold blank_term. repeat (apply blank_white; [reflexivity|]). apply blank_empty. }
  split; [exact H|]. exact (search_blank_term blank_term H).
Defined.

(** The filter stage, by contrast, takes the empty term for no constraint,
    and a term that is not blank is searched for. *)
Example search_terms :
  BlogService._applyFilters (fun post => post) two_posts [Filters.search_ EmptyString]
  = two_posts
  /\ fst (BlogService.searchPosts " post 2 " [] (BlogService.initial_world two_posts))
     = JS.Next []
  /\ fst (BlogService.searchPosts "post 2" [] (BlogService.initial_world two_posts))
     = JS.Next [1%nat].
Proof. vm_compute. auto. Qed.

(** ** The pagination descriptor *)

Section Descriptor.

Lemma ceil_div_spec (a b : Z) :
  0 < b -> exists n, JS.ceil_div a b = JS.Fin n /\ (n - 1) * b < a <= n * b.
Proof.
  intros Hb. unfold JS.ceil_div.
  destruct (b =? 0) eqn:E; [lia|].
  exists (- (- a / b)). split; [reflexivity|].
  pose proof (Z.div_mod (- a) b ltac:(lia)) as Hdm.
  pose proof (Z.mod_pos_bound (- a) b Hb) as Hm.
  nia.
Qed.

Lemma buildResponse_consistent (posts : list PostRef) (page pageSize : Z)
    (filters : BlogFilters) (totalItems : option Z) :
  0 < pageSize ->
  descriptor_consistent
    (pagination (BlogService._buildResponse posts page pageSize filters totalItems)).
Proof.
  intros Hp. unfold BlogService._buildResponse, descriptor_consistent. simpl.
  destruct (ceil_div_spec (default (Z.of_nat (length posts)) totalItems) pageSize Hp)
    as (n & -> & Hn).
  exists n. simpl. repeat split; lia.
Qed.

End Descriptor.

(** C4. For a positive page size, every pagination descriptor delivered by
    [BlogService.getPosts], from the cache or not, and by
    [CategoriaService.getCategories] is that of the requested page and page
    size and has [totalPages] the ceiling of [totalItems / itemsPerPage],
    [hasNext] exactly when [currentPage < totalPages] and [hasPrevious]
    exactly when [currentPage > 1]; the [hasNext] of the category service,
    computed as [page * pageSize < totalItems], is that same condition. *)
Theorem pagination_descriptor_consistent (page pageSize : Z) :
  0 < pageSize ->
  (forall filters now later w,
     exists r, fst (BlogService.getPosts page pageSize filters now later w) = JS.Next r
               /\ currentPage (pagination r) = page
               /\ itemsPerPage (pagination r) = pageSize
               /\ descriptor_consistent (pagination r))
  /\ (forall Date_parse filters now w,
        exists r, fst (CategoriaService.getCategories Date_parse page pageSize filters now w)
                  = JS.Next r
                  /\ currentPage (cat_pagination r) = page
                  /\ itemsPerPage (cat_pagination r) = pageSize
                  /\ hasNext (cat_pagination r)
                     = (page * pageSize <? totalItems (cat_pagination r))
                  /\ descriptor_consistent (cat_pagination r)).
Proof.
  intros Hp. split.
  - intros filters now later w. unfold BlogService.getPosts.
    destruct (BlogService.cached _ _ _) as [cachedPosts|]; simpl;
      eexists; (split; [reflexivity|]); (split; [reflexivity|]); (split; [reflexivity|]);
      now apply buildResponse_consistent.
  - intros Date_parse filters now w. unfold CategoriaService.getCategories.
    destruct (CategoriaService._getCachedCategories _ _) as [categories w'].
    simpl. eexists. split; [reflexivity|]. simpl. repeat (split; [reflexivity|]).
    unfold descriptor_consistent. simpl.
    match goal with |- context [JS.ceil_div ?a pageSize] =>
      destruct (ceil_div_spec a pageSize Hp) as (n & -> & Hn) end.
    exists n. repeat split; try lia.
    + rewrite Z.ltb_lt. nia.
    + rewrite Z.ltb_lt. nia.
Qed.

(** The second page in pages of twelve. *)
Lemma pagination_descriptor_consistent_witness :
  0 < 12
  /\ (forall filters now later w,
        exists r, fst (BlogService.getPosts 2 12 filters now later w) = JS.Next r
                  /\ currentPage (pagination r) = 2
                  /\ itemsPerPage (pagination r) = 12
                  /\ descriptor_consistent (pagination r))
  /\ (forall Date_parse filters now w,
        exists r, fst (CategoriaService.getCategories Date_parse 2 12 filters now w)
                  = JS.Next r
                  /\ currentPage (cat_pagination r) = 2
                  /\ itemsPerPage (cat_pagination r) = 12
                  /\ hasNext (cat_pagination r)
                     = (2 * 12 <? totalItems (cat_pagination r))
                  /\ descriptor_consistent (cat_pagination r)).
Proof. split; [lia|]. apply (pagination_descriptor_consistent 2 12). lia. Defined.

(** ** The cache holds published posts *)

Section Store.

Lemma objects_from_lookup (i : nat) (store : list BlogPost) (o : PostRef * BlogPost) :
  o ∈ BlogMock.objects_from i store ->
  (i <= fst o)%nat /\ store !! (fst o - i)%nat = Some (snd o).
Proof.
  revert i. induction store as [|p store IH]; intros i; simpl.
  - intros H. now apply elem_of_nil in H.
  - intros [->|H]%elem_of_cons.
    + simpl. rewrite Nat.sub_diag. auto.
    + apply IH in H as [Hle Hl]. split; [lia|].
      replace (o.1 - i)%nat with (S (o.1 - S i)) by lia. exact Hl.
Qed.

Lemma getPublishedPosts_published (store : list BlogPost) (o : PostRef * BlogPost) :
  o ∈ BlogMock.getPublishedPosts store ->
  store !! fst o = Some (snd o) /\ Post.status (snd o) = published.
Proof.
  unfold BlogMock.getPublishedPosts, BlogMock.objects.
  rewrite list_elem_of_In, filter_In, <- list_elem_of_In. intros [Hin Hp].
  apply objects_from_lookup in Hin as [_ Hl]. rewrite Nat.sub_0_r in Hl.
  split; [assumption|]. unfold BlogMock.is_published in Hp.
  now apply bool_decide_eq_true in Hp.
Qed.

(** What comes out of the filter and sort stages fed with the published
    posts is published. *)
Lemma pipeline_published (store : list BlogPost) (F : BlogFilters) (o : PostRef * BlogPost) :
  o ∈ BlogService._applySorting snd
        (BlogService._applyFilters snd (BlogMock.getPublishedPosts store) F)
        (Filters.sortBy F) (Filters.sortDirection F) ->
  refers_to_published store (fst o).
Proof.
  rewrite applySorting_perm. intros H%applyFilters_subset.
  apply getPublishedPosts_published in H as [Hl Hs]. now exists (snd o).
Qed.

Lemma refs_published (store : list BlogPost) (l : list (PostRef * BlogPost)) :
  (forall o, o ∈ l -> refers_to_published store (fst o)) ->
  Forall (refers_to_published store) (map fst l).
Proof.
  intros H. apply Forall_forall. intros r Hr.
  apply list_elem_of_fmap in Hr as (o & -> & Ho). auto.
Qed.

(** A write to one post that leaves its status alone keeps every
    reference to a published post one. *)
Lemma update_keeps_published (store : list BlogPost) (ref : nat) (old new : BlogPost)
    (r : PostRef) :
  store !! ref = Some old -> Post.status new = Post.status old ->
  refers_to_published store r -> refers_to_published (<[ref := new]> store) r.
Proof.
  intros Hold Hst (p & Hp & Hpub). unfold refers_to_published.
  destruct (decide (ref = r)) as [->|Hne].
  - exists new. split; [|unfold PostRef in *; simplify_eq; congruence].
    apply list_lookup_insert_eq. now apply lookup_lt_Some in Hold.
  - exists p. split; [|assumption]. now rewrite list_lookup_insert_ne.
Qed.

End Store.

Section Invariant.
Import BlogService.

Lemma fetchPosts_cache_published page pageSize filters cacheKey later w :
  cache_published w -> cache_published (snd (fetchPosts page pageSize filters cacheKey later w)).
Proof.
  intros Hinv key refs. unfold fetchPosts. simpl.
  intros [[<- <-]|[Hne Hl]]%lookup_insert_Some.
  - apply refs_published. intros o. apply pipeline_published.
  - now apply Hinv in Hl.
Qed.

Lemma getPosts_cache_published page pageSize filters now later w :
  cache_published w -> cache_published (snd (getPosts page pageSize filters now later w)).
Proof.
  intros Hinv. unfold getPosts.
  destruct (cached _ _ _) as [cachedPosts|].
  - exact Hinv.
  - apply fetchPosts_cache_published. exact Hinv.
Qed.

Lemma step_cache_published w w' : step w w' -> cache_published w -> cache_published w'.
Proof.
  intros Hstep Hinv. destruct Hstep.
  - now apply getPosts_cache_published.
  - now apply fetchPosts_cache_published.
  - exact Hinv.
  - exact Hinv.
  - unfold searchPosts. destruct (negb _); exact Hinv.
  - unfold incrementViews, BlogMock.getPostById.
    destruct (JS.find_from _ _ _) as [[ref post]|] eqn:Hf; [|exact Hinv].
    apply find_from_inv in Hf as (_ & Hl & _). rewrite Nat.sub_0_r in Hl.
    intros key refs Hk. simpl in *. apply Hinv in Hk.
    eapply Forall_impl; [exact Hk|]. intros r. now apply update_keeps_published with post.
  - unfold toggleLike, BlogMock.getPostById.
    destruct (JS.find_from _ _ _) as [[ref post]|] eqn:Hf; [|exact Hinv].
    apply find_from_inv in Hf as (_ & Hl & _). rewrite Nat.sub_0_r in Hl.
    intros key refs Hk. simpl in *. apply Hinv in Hk.
    eapply Forall_impl; [exact Hk|]. intros r. now apply update_keeps_published with post.
  - intros key refs Hk. simpl in Hk. now rewrite lookup_empty in Hk.
  - exact Hinv.
Qed.

Lemma reachable_cache_published store w : reachable store w -> cache_published w.
Proof.
  induction 1 as [|w w' _ IH Hstep].
  - intros key refs Hk. simpl in Hk. now rewrite lookup_empty in Hk.
  - now apply (step_cache_published w w').
Qed.

(** While an entry is within its time to live, a call answers from it. *)
Lemma getPosts_hit page pageSize filters now later w refs :
  cached now (_generateCacheKey page pageSize filters) (service w) = Some refs ->
  fst (getPosts page pageSize filters now later w)
  = JS.Next (_buildResponse refs page pageSize filters None).
Proof.
  intros Hc. unfold getPosts.
  change (cached now (_generateCacheKey page pageSize filters)
            (service (with_service (_setLoading true) w)))
    with (cached now (_generateCacheKey page pageSize filters) (service w)).
  now rewrite Hc.
Qed.

(** The entry written by the deferred part is found until its time to live
    is over. *)
Lemma fetchPosts_then_cached page pageSize filters cacheKey later now w :
  later <> 0 -> now - later < CACHE_DURATION ->
  is_Some (cached now cacheKey (service (snd (fetchPosts page pageSize filters cacheKey later w)))).
Proof.
  intros Hl Hn. unfold cached, _isCacheValid, fetchPosts. simpl.
  rewrite !lookup_insert_eq.
  destruct (later =? 0) eqn:E; [lia|].
  destruct (now - later <? CACHE_DURATION) eqn:E'; [eauto|lia].
Qed.

Lemma incrementViews_service postId w : service (snd (incrementViews postId w)) = service w.
Proof. unfold incrementViews. now destruct (BlogMock.getPostById _ _) as [[ref post]|]. Qed.

Lemma toggleLike_service postId random w :
  service (snd (toggleLike postId random w)) = service w.
Proof. unfold toggleLike. now destruct (BlogMock.getPostById _ _) as [[ref post]|]. Qed.

End Invariant.

(** C7. In every state that the service reaches from a fresh instance,
    whatever the page, the page size and the filters, every post in the
    [data] array of what [getPosts] delivers is a published post of the
    store, when the answer comes from the cache as when it is computed. *)
Theorem getPosts_only_published (store : list BlogPost) (w : BlogService.World)
    (page pageSize : Z) (filters : BlogFilters) (now later : Z) :
  BlogService.reachable store w ->
  exists r,
    fst (BlogService.getPosts page pageSize filters now later w) = JS.Next r
    /\ Forall (refers_to_published
                 (BlogService.BLOG_POSTS_MOCK
                    (snd (BlogService.getPosts page pageSize filters now later w))))
         (data r).
Proof.
  intros Hr. apply reachable_cache_published in Hr.
  unfold BlogService.getPosts.
  destruct (BlogService.cached _ _ _) as [cachedPosts|] eqn:Hc.
  - eexists. split; [reflexivity|]. simpl.
    unfold BlogService.cached in Hc. simpl in Hc.
    destruct (BlogService._isCacheValid _ _ _); [|discriminate].
    now apply Hr in Hc.
  - eexists. split; [reflexivity|]. simpl.
    apply refs_published. intros o Ho%applyPagination_subset.
    now apply pipeline_published in Ho.
Qed.

(** A second call for the first page, answered from the cache that the
    first call filled. *)
Lemma getPosts_only_published_witness :
  BlogService.reachable two_posts after_first_page
  /\ exists r,
       fst (BlogService.getPosts 1 1 [] 101000 101800 after_first_page) = JS.Next r
       /\ Forall (refers_to_published
                    (BlogService.BLOG_POSTS_MOCK
                       (snd (BlogService.getPosts 1 1 [] 101000 101800 after_first_page))))
            (data r).
Proof.
  assert (Hr : BlogService.reachable two_posts after_first_page).
  { unfold after_first_page.
    apply (BlogService.reachable_step two_posts (BlogService.initial_world two_posts)).
    - apply BlogService.reachable_initial.
    - apply BlogService.step_getPosts. }
  split; [exact Hr|].
  exact (getPosts_only_published two_posts after_first_page 1 1 [] 101000 101800 Hr).
Defined.

(** ** Writes and the cache *)

(** C8. For every post identifier, [incrementViews] and [toggleLike] leave
    the two maps of the query cache, [_postsCache] and [_lastFetchTime], as
    they are: no entry is removed, replaced or invalidated. A page that the
    cache answers with before the write is therefore the answer after it
    too: the same array of the same post objects, with the same pagination
    descriptor. (The objects are those of the store, on which the write
    was made.) *)
Theorem writes_leave_cache_untouched (postId : string) (random : bool)
    (w : BlogService.World) :
  (BlogService._postsCache (BlogService.service (snd (BlogService.incrementViews postId w)))
   = BlogService._postsCache (BlogService.service w)
   /\ BlogService._lastFetchTime (BlogService.service (snd (BlogService.incrementViews postId w)))
      = BlogService._lastFetchTime (BlogService.service w))
  /\ (BlogService._postsCache
        (BlogService.service (snd (BlogService.toggleLike postId random w)))
      = BlogService._postsCache (BlogService.service w)
      /\ BlogService._lastFetchTime
           (BlogService.service (snd (BlogService.toggleLike postId random w)))
         = BlogService._lastFetchTime (BlogService.service w))
  /\ forall page pageSize filters now later refs,
       BlogService.cached now (BlogService._generateCacheKey page pageSize filters)
         (BlogService.service w) = Some refs ->
       fst (BlogService.getPosts page pageSize filters now later w)
       = JS.Next (BlogService._buildResponse refs page pageSize filters None)
       /\ fst (BlogService.getPosts page pageSize filters now later
                 (snd (BlogService.incrementViews postId w)))
          = fst (BlogService.getPosts page pageSize filters now later w)
       /\ fst (BlogService.getPosts page pageSize filters now later
                 (snd (BlogService.toggleLike postId random w)))
          = fst (BlogService.getPosts page pageSize filters now later w).
Proof.
  rewrite !incrementViews_service, !toggleLike_service.
  repeat split.
  - now apply getPosts_hit.
  - rewrite !(getPosts_hit _ _ _ _ _ _ refs); auto. now rewrite incrementViews_service.
  - rewrite !(getPosts_hit _ _ _ _ _ _ refs); auto. now rewrite toggleLike_service.
Qed.

(** A view of the second post after the first page has been cached. *)
Lemma writes_leave_cache_untouched_witness :
  BlogService.cached 101000 (BlogService._generateCacheKey 1 1 [])
    (BlogService.service after_first_page) = Some [0%nat; 1%nat]
  /\ fst (BlogService.getPosts 1 1 [] 101000 101800
            (snd (BlogService.incrementViews "2" after_first_page)))
     = fst (BlogService.getPosts 1 1 [] 101000 101800 after_first_page).
Proof.
  assert (H : BlogService.cached 101000 (BlogService._generateCacheKey 1 1 [])
                (BlogService.service after_first_page) = Some [0%nat; 1%nat])
    by (vm_compute; reflexivity).
  split; [exact H|].
  exact (proj1 (proj2 (proj2 (proj2 (writes_leave_cache_untouched "2" true after_first_page))
                         1 1 [] 101000 101800 [0%nat; 1%nat] H))).
Defined.

(** The cached page is an array of the post objects of the store: the view
    counted after the page was cached is read through it. *)
Example cached_page_shows_new_views :
  exists r,
    fst (BlogService.getPosts 1 1 [] 101000 101800
           (snd (BlogService.incrementViews "2" after_first_page))) = JS.Next r
    /\ data r = [0%nat; 1%nat]
    /\ Post.views <$> BlogService.BLOG_POSTS_MOCK after_first_page !! 1%nat = Some 20
    /\ Post.views <$> BlogService.BLOG_POSTS_MOCK
                        (snd (BlogService.incrementViews "2" after_first_page)) !! 1%nat
       = Some 21.
Proof. eexists. vm_compute. repeat split. Qed.

(** ** A cache hit is not the page *)

(** A call that misses the cache delivers the slice of the page; the same
    call made again while the entry lives delivers the whole filtered and
    sorted array, under the same pagination descriptor. *)
Lemma getPosts_miss_then_hit (page pageSize : Z) (filters : BlogFilters)
    (now later now' later' : Z) (w : BlogService.World) :
  BlogService.cached now (BlogService._generateCacheKey page pageSize filters)
    (BlogService.service w) = None ->
  later <> 0 -> now' - later < BlogService.CACHE_DURATION ->
  exists posts : list (PostRef * BlogPost),
    posts = BlogService._applySorting snd
              (BlogService._applyFilters snd
                 (BlogMock.getPublishedPosts (BlogService.BLOG_POSTS_MOCK w)) filters)
              (Filters.sortBy filters) (Filters.sortDirection filters)
    /\ fst (BlogService.getPosts page pageSize filters now later w)
       = JS.Next (BlogService._buildResponse
                    (map fst (BlogService._applyPagination posts page pageSize))
                    page pageSize filters (Some (Z.of_nat (length posts))))
    /\ fst (BlogService.getPosts page pageSize filters now' later'
              (snd (BlogService.getPosts page pageSize filters now later w)))
       = JS.Next (BlogService._buildResponse (map fst posts) page pageSize filters None).
Proof.
  intros Hmiss Hl Hn. eexists. split; [reflexivity|].
  assert (Hfirst : BlogService.getPosts page pageSize filters now later w
                   = BlogService.fetchPosts page pageSize filters
                       (BlogService._generateCacheKey page pageSize filters) later
                       (BlogService.with_service (BlogService._setLoading true) w)).
  { unfold BlogService.getPosts.
    change (BlogService.cached now (BlogService._generateCacheKey page pageSize filters)
              (BlogService.service
                 (BlogService.with_service (BlogService._setLoading true) w)))
      with (BlogService.cached now (BlogService._generateCacheKey page pageSize filters)
              (BlogService.service w)).
    now rewrite Hmiss. }
  rewrite Hfirst. split; [reflexivity|].
  apply getPosts_hit.
  unfold BlogService.cached, BlogService._isCacheValid, BlogService.fetchPosts. simpl.
  rewrite !lookup_insert_eq.
  destruct (later =? 0) eqn:E; [lia|].
  destruct (now' - later <? BlogService.CACHE_DURATION) eqn:E'; [reflexivity|lia].
Qed.

(** C1 does not hold of the code. Two published posts, pages of one post:
    the first call for page 1 misses the cache and delivers the slice with
    the first post; the same call one second later is answered from the
    cache, with the same pagination descriptor and filters, and with both
    posts in [data]: the cache holds the filtered and sorted array before
    pagination, and the hit returns it whole. *)
Theorem getPosts_cache_hit_returns_whole_array :
  exists first second,
    fst (BlogService.getPosts 1 1 [] 100000 100800 (BlogService.initial_world two_posts))
      = JS.Next first
    /\ fst (BlogService.getPosts 1 1 [] 101000 101800 after_first_page) = JS.Next second
    /\ data first = [0%nat]
    /\ data second = [0%nat; 1%nat]
    /\ pagination second = pagination first
    /\ filters second = filters first.
Proof. eexists _, _. vm_compute. repeat split. Qed.

(** * The other methods of the two services *)

(** ** The filter stage *)

Section ListFilter.
Context {A : Type}.

Lemma filter_filter_and (f g : A -> bool) (l : list A) :
  List.filter g (List.filter f l) = List.filter (fun x => f x && g x) l.
Proof.
  induction l as [|x l IH]; [reflexivity|]. simpl.
  destruct (f x) eqn:Hf; simpl; [destruct (g x); now rewrite IH | exact IH].
Qed.

Lemma filter_true (l : list A) : List.filter (fun _ => true) l = l.
Proof. induction l as [|x l IH]; [reflexivity|]. simpl. now rewrite IH. Qed.

Lemma filter_sublist (f : A -> bool) (l : list A) : List.filter f l `sublist_of` l.
Proof.
  induction l as [|x l IH]; simpl; [constructor|].
  destruct (f x); [now apply sublist_skip | now apply sublist_cons].
Qed.

Lemma slice_sublist (l : list A) (start stop : Z) : JS.slice l start stop `sublist_of` l.
Proof. unfold JS.slice. etrans; [apply sublist_take | apply sublist_drop]. Qed.

End ListFilter.

Section FilterStage.
Context {A : Type} (post_of : A -> BlogPost).

(** The filter stage is one filter by the conjunction of its predicates. *)
Lemma applyFilters_passes (l : list A) (F : BlogFilters) :
  BlogService._applyFilters post_of l F = List.filter (fun e => passes F (post_of e)) l.
Proof.
  unfold BlogService._applyFilters, passes.
  rewrite <- (filter_true l) at 1.
  replace (List.filter (fun e => _ (post_of e)) l)
    with (List.filter (fun e => true && passes F (post_of e)) l)
    by (apply filter_ext; reflexivity).
  unfold passes. rewrite <- !filter_filter_and.
  destruct (Filters.search F) as [s|]; [destruct (JS.truthy s)|];
    rewrite ?filter_true;
  (destruct (Filters.categoryIds F) as [[|c cs]|]; rewrite ?filter_true);
  (destruct (Filters.tags F) as [[|t ts]|]; rewrite ?filter_true);
  (destruct (Filters.authorId F) as [a|]; [destruct (JS.truthy a)|]; rewrite ?filter_true);
  (destruct (Filters.status F) as [st|]; rewrite ?filter_true);
  (destruct (Filters.featured F) as [[|]|]; rewrite ?filter_true);
  (destruct (Filters.dateFrom F) as [df|]; rewrite ?filter_true);
  (destruct (Filters.dateTo F) as [dt|]; rewrite ?filter_true);
  reflexivity.
Qed.

End FilterStage.

(** X1. The filter stage [_applyFilters] only drops posts and keeps the
    others in their order; filtering twice with the same filters object
    changes nothing more; two filters objects can be applied in either
    order; the posts of two arrays are filtered one array after the other;
    the empty filters object keeps every post. *)
Theorem applyFilters_algebra {A : Type} (post_of : A -> BlogPost) (l l' : list A)
    (F G : BlogFilters) :
  BlogService._applyFilters post_of l F `sublist_of` l
  /\ BlogService._applyFilters post_of (BlogService._applyFilters post_of l F) F
     = BlogService._applyFilters post_of l F
  /\ BlogService._applyFilters post_of (BlogService._applyFilters post_of l F) G
     = BlogService._applyFilters post_of (BlogService._applyFilters post_of l G) F
  /\ BlogService._applyFilters post_of (l ++ l') F
     = BlogService._applyFilters post_of l F ++ BlogService._applyFilters post_of l' F
  /\ BlogService._applyFilters post_of l [] = l.
Proof.
  rewrite !applyFilters_passes, !filter_filter_and.
  split; [apply filter_sublist|].
  split; [apply filter_ext; intros e; now destruct (passes F (post_of e))|].
  split; [apply filter_ext; intros e; apply andb_comm|].
  split; [apply List.filter_app|].
  apply filter_true.
Qed.

(** The search of the data module is the search predicate of the filter
    stage on the published posts. *)
Lemma searchPosts_filter_stage (store : list BlogPost) (term : string) :
  JS.truthy term = true ->
  BlogMock.searchPosts store term
  = BlogService._applyFilters snd (BlogMock.getPublishedPosts store) [Filters.search_ term].
Proof.
  intros H. unfold BlogMock.getPublishedPosts.
  rewrite applyFilters_passes, filter_filter_and.
  apply filter_ext. intros o. unfold passes. simpl.
  rewrite H. unfold BlogService.matches_search. now rewrite !andb_true_r.
Qed.

(** X2. The helpers of the data module list what the filter stage of the
    service lists for the one corresponding property: [searchPosts] for a
    non-empty term is the [search] filter, [getPostsByCategory] the
    [categoryIds] filter with that one category, [getPostsByAuthor] for a
    non-empty author the [authorId] filter and [getFeaturedPosts] the
    [featured] filter, each on the published posts and in the order of the
    store. *)
Theorem mock_helpers_agree_with_filter_stage (store : list BlogPost) :
  (forall term, JS.truthy term = true ->
     BlogMock.searchPosts store term
     = BlogService._applyFilters snd (BlogMock.getPublishedPosts store) [Filters.search_ term])
  /\ (forall categoryId,
        BlogMock.getPostsByCategory store categoryId
        = BlogService._applyFilters snd (BlogMock.getPublishedPosts store)
            [Filters.categoryIds_ [categoryId]])
  /\ (forall authorId, JS.truthy authorId = true ->
        BlogMock.getPostsByAuthor store authorId
        = BlogService._applyFilters snd (BlogMock.getPublishedPosts store)
            [Filters.authorId_ authorId])
  /\ BlogMock.getFeaturedPosts store
     = BlogService._applyFilters snd (BlogMock.getPublishedPosts store)
         [Filters.featured_ true].
Proof.
  unfold BlogMock.getPublishedPosts.
  repeat split; intros; rewrite applyFilters_passes, filter_filter_and;
    apply filter_ext; intros o; unfold passes; simpl.
  - rewrite H. unfold BlogService.matches_search. now rewrite !andb_true_r.
  - rewrite !andb_true_r. rewrite orb_false_r. apply andb_comm.
  - rewrite H. rewrite !andb_true_r. apply andb_comm.
  - rewrite !andb_true_r. apply andb_comm.
Qed.

(** ** What [getPosts] lists *)

Section NoDuplicates.

Lemma objects_from_refs (i : nat) (store : list BlogPost) :
  map fst (BlogMock.objects_from i store) = seq i (length store).
Proof.
  revert i. induction store as [|p store IH]; intros i; [reflexivity|].
  simpl. now rewrite IH.
Qed.

Lemma objects_refs_nodup (store : list BlogPost) :
  NoDup (map fst (BlogMock.objects store)).
Proof. unfold BlogMock.objects. rewrite objects_from_refs. apply NoDup_seq. Qed.

(** The references of what the filter and sort stages make of the posts of
    the store are pairwise distinct. *)
Lemma pipeline_refs_nodup (store : list BlogPost) (F : BlogFilters) :
  NoDup (map fst
           (BlogService._applySorting snd
              (BlogService._applyFilters snd (BlogMock.getPublishedPosts store) F)
              (Filters.sortBy F) (Filters.sortDirection F))).
Proof.
  rewrite (Permutation_map fst (applySorting_perm snd _ _ _)).
  rewrite applyFilters_passes. unfold BlogMock.getPublishedPosts.
  eapply sublist_NoDup; [apply (objects_refs_nodup store)|].
  apply (fmap_sublist fst). etrans; apply filter_sublist.
Qed.

Lemma fetchPosts_cache_nodup page pageSize filters cacheKey later w :
  cache_nodup w ->
  cache_nodup (snd (BlogService.fetchPosts page pageSize filters cacheKey later w)).
Proof.
  intros Hinv key refs. unfold BlogService.fetchPosts. simpl.
  intros [[<- <-]|[Hne Hl]]%lookup_insert_Some.
  - apply pipeline_refs_nodup.
  - now apply Hinv in Hl.
Qed.

Lemma step_cache_nodup w w' : BlogService.step w w' -> cache_nodup w -> cache_nodup w'.
Proof.
  intros Hstep Hinv. destruct Hstep.
  - unfold BlogService.getPosts. destruct (BlogService.cached _ _ _); [exact Hinv|].
    now apply fetchPosts_cache_nodup.
  - now apply fetchPosts_cache_nodup.
  - exact Hinv.
  - exact Hinv.
  - unfold BlogService.searchPosts. destruct (negb _); exact Hinv.
  - intros key refs. rewrite incrementViews_service. apply Hinv.
  - intros key refs. rewrite toggleLike_service. apply Hinv.
  - intros key refs Hk. simpl in Hk. now rewrite lookup_empty in Hk.
  - exact Hinv.
Qed.

Lemma reachable_cache_nodup store w : BlogService.reachable store w -> cache_nodup w.
Proof.
  induction 1 as [|w w' _ IH Hstep].
  - intros key refs Hk. simpl in Hk. now rewrite lookup_empty in Hk.
  - now apply (step_cache_nodup w w').
Qed.

End NoDuplicates.

(** X3. In every state that the service reaches from a fresh instance,
    [getPosts] delivers a response whose [data] array lists no post twice,
    from the cache as on a miss. *)
Theorem getPosts_lists_no_post_twice (store : list BlogPost) (w : BlogService.World)
    (page pageSize : Z) (filters : BlogFilters) (now later : Z) :
  BlogService.reachable store w ->
  exists r,
    fst (BlogService.getPosts page pageSize filters now later w) = JS.Next r
    /\ NoDup (data r).
Proof.
  intros Hr. apply reachable_cache_nodup in Hr.
  unfold BlogService.getPosts.
  destruct (BlogService.cached _ _ _) as [cachedPosts|] eqn:Hc.
  - eexists. split; [reflexivity|]. simpl.
    unfold BlogService.cached in Hc. simpl in Hc.
    destruct (BlogService._isCacheValid _ _ _); [|discriminate].
    now apply Hr in Hc.
  - eexists. split; [reflexivity|]. simpl.
    eapply sublist_NoDup;
      [apply (pipeline_refs_nodup (BlogService.BLOG_POSTS_MOCK w) filters)|].
    apply (fmap_sublist fst). apply slice_sublist.
Qed.

(** The second call for the first page, answered from the cache. *)
Lemma getPosts_lists_no_post_twice_witness :
  BlogService.reachable two_posts after_first_page
  /\ exists r,
       fst (BlogService.getPosts 1 1 [] 101000 101800 after_first_page) = JS.Next r
       /\ NoDup (data r).
Proof.
  assert (Hr : BlogService.reachable two_posts after_first_page).
  { unfold after_first_page.
    apply (BlogService.reachable_step two_posts (BlogService.initial_world two_posts)).
    - apply BlogService.reachable_initial.
    - apply BlogService.step_getPosts. }
  split; [exact Hr|].
  exact (getPosts_lists_no_post_twice two_posts after_first_page 1 1 [] 101000 101800 Hr).
Defined.

Section PageLength.
Context {A : Type}.

Lemma slice_window_length (l : list A) (start size : Z) :
  0 <= start -> 0 <= size ->
  Z.of_nat (length (JS.slice l start (start + size)))
  = Z.min size (Z.max 0 (Z.of_nat (length l) - start)).
Proof.
  intros Hs Hn. rewrite slice_window by assumption.
  rewrite length_take, length_drop. lia.
Qed.

End PageLength.

(** X4. On a cache miss, for a page number of at least 1 and a positive
    page size, the [data] array of what [getPosts] delivers holds
    [min(pageSize, max(0, totalItems - (page - 1) * pageSize))] posts: a
    page that has a next one is full, the last page holds the remainder
    and a page past the last one is empty. *)
Theorem getPosts_miss_page_length (page pageSize : Z) (filters : BlogFilters)
    (now later : Z) (w : BlogService.World) :
  BlogService.cached now (BlogService._generateCacheKey page pageSize filters)
    (BlogService.service w) = None ->
  1 <= page -> 0 < pageSize ->
  exists r,
    fst (BlogService.getPosts page pageSize filters now later w) = JS.Next r
    /\ Z.of_nat (length (data r))
       = Z.min pageSize (Z.max 0 (totalItems (pagination r) - (page - 1) * pageSize))
    /\ (hasNext (pagination r) = true -> Z.of_nat (length (data r)) = pageSize)
    /\ (totalPages (pagination r) = JS.Fin page ->
        Z.of_nat (length (data r)) = totalItems (pagination r) - (page - 1) * pageSize).
Proof.
  intros Hmiss Hpage Hsize. unfold BlogService.getPosts.
  change (BlogService.cached now (BlogService._generateCacheKey page pageSize filters)
            (BlogService.service
               (BlogService.with_service (BlogService._setLoading true) w)))
    with (BlogService.cached now (BlogService._generateCacheKey page pageSize filters)
            (BlogService.service w)).
  rewrite Hmiss. unfold BlogService.fetchPosts, BlogService._buildResponse. simpl.
  eexists. split; [reflexivity|]. simpl.
  set (posts := BlogService._applySorting snd _ _ _).
  rewrite length_map. unfold BlogService._applyPagination.
  rewrite slice_window_length by nia.
  destruct (ceil_div_spec (Z.of_nat (length posts)) pageSize Hsize) as (n & Hn & Hb).
  rewrite Hn. simpl. repeat split.
  - intros Hnext%Z.ltb_lt. nia.
  - intros [= ->]. nia.
Qed.

(** The second page of two posts in pages of one, asked of a fresh
    service. *)
Lemma getPosts_miss_page_length_witness :
  BlogService.cached 100000 (BlogService._generateCacheKey 2 1 [])
    (BlogService.service (BlogService.initial_world two_posts)) = None
  /\ exists r,
       fst (BlogService.getPosts 2 1 [] 100000 100800 (BlogService.initial_world two_posts))
       = JS.Next r
       /\ Z.of_nat (length (data r))
          = Z.min 1 (Z.max 0 (totalItems (pagination r) - (2 - 1) * 1))
       /\ (hasNext (pagination r) = true -> Z.of_nat (length (data r)) = 1)
       /\ (totalPages (pagination r) = JS.Fin 2 ->
           Z.of_nat (length (data r)) = totalItems (pagination r) - (2 - 1) * 1).
Proof.
  assert (H : BlogService.cached 100000 (BlogService._generateCacheKey 2 1 [])
                (BlogService.service (BlogService.initial_world two_posts)) = None)
    by (vm_compute; reflexivity).
  split; [exact H|].
  apply (getPosts_miss_page_length 2 1 [] 100000 100800
           (BlogService.initial_world two_posts) H); lia.
Defined.

(** ** The life of a cache entry *)

Section Lifetime.

(** On a miss [getPosts] is its deferred part. *)
Lemma getPosts_miss page pageSize filters now later w :
  BlogService.cached now (BlogService._generateCacheKey page pageSize filters)
    (BlogService.service w) = None ->
  BlogService.getPosts page pageSize filters now later w
  = BlogService.fetchPosts page pageSize filters
      (BlogService._generateCacheKey page pageSize filters) later
      (BlogService.with_service (BlogService._setLoading true) w).
Proof.
  intros Hmiss. unfold BlogService.getPosts.
  change (BlogService.cached now (BlogService._generateCacheKey page pageSize filters)
            (BlogService.service
               (BlogService.with_service (BlogService._setLoading true) w)))
    with (BlogService.cached now (BlogService._generateCacheKey page pageSize filters)
            (BlogService.service w)).
  now rewrite Hmiss.
Qed.

End Lifetime.

(** X5. The life of a cache entry. When the cache holds an array for the
    key of a call and the key was last fetched at [t], a [getPosts] made
    less than [CACHE_DURATION] (five minutes) after [t] is answered from
    that array and changes nothing but the loading flags; one made five
    minutes after [t] or later (or with [t = 0], which the code reads as no
    fetch time) delivers what the deferred computation delivers and stamps
    the key with the time of the new fetch. *)
Theorem cache_entry_lifetime (page pageSize : Z) (filters : BlogFilters) (now later t : Z)
    (refs : list PostRef) (w : BlogService.World) :
  BlogService._lastFetchTime (BlogService.service w)
    !! BlogService._generateCacheKey page pageSize filters = Some t ->
  BlogService._postsCache (BlogService.service w)
    !! BlogService._generateCacheKey page pageSize filters = Some refs ->
  (t <> 0 /\ now - t < BlogService.CACHE_DURATION ->
   BlogService.getPosts page pageSize filters now later w
   = (JS.Next (BlogService._buildResponse refs page pageSize filters None),
      BlogService.with_service (BlogService._setLoading false) w))
  /\ (t = 0 \/ BlogService.CACHE_DURATION <= now - t ->
      fst (BlogService.getPosts page pageSize filters now later w)
      = fst (BlogService.fetchPosts page pageSize filters
               (BlogService._generateCacheKey page pageSize filters) later w)
      /\ BlogService._lastFetchTime
           (BlogService.service (snd (BlogService.getPosts page pageSize filters now later w)))
           !! BlogService._generateCacheKey page pageSize filters = Some later).
Proof.
  intros Ht Hrefs. split.
  - intros [Hnz Hlive]. unfold BlogService.getPosts, BlogService.cached,
      BlogService._isCacheValid. simpl. rewrite Ht, Hrefs.
    destruct (t =? 0) eqn:E; [lia|].
    destruct (now - t <? BlogService.CACHE_DURATION) eqn:E'; [|lia].
    f_equal. destruct w as [store [ls pc lf cf cp]]. destruct ls as [? ? ? [|] ?]; reflexivity.
  - intros Hdead.
    assert (Hmiss : BlogService.cached now (BlogService._generateCacheKey page pageSize filters)
                      (BlogService.service w) = None).
    { unfold BlogService.cached, BlogService._isCacheValid. rewrite Ht.
      destruct (t =? 0) eqn:E; [reflexivity|].
      destruct (now - t <? BlogService.CACHE_DURATION) eqn:E'; [lia|reflexivity]. }
    rewrite (getPosts_miss _ _ _ _ _ _ Hmiss). split; [reflexivity|].
    unfold BlogService.fetchPosts. simpl. apply lookup_insert_eq.
Qed.

(** The entry made at 100800 ms, read at 101000 ms. *)
Lemma cache_entry_lifetime_witness :
  (BlogService._lastFetchTime (BlogService.service after_first_page)
     !! BlogService._generateCacheKey 1 1 [] = Some 100800
   /\ BlogService._postsCache (BlogService.service after_first_page)
        !! BlogService._generateCacheKey 1 1 [] = Some [0%nat; 1%nat])
  /\ BlogService.getPosts 1 1 [] 101000 101800 after_first_page
     = (JS.Next (BlogService._buildResponse [0%nat; 1%nat] 1 1 [] None),
        BlogService.with_service (BlogService._setLoading false) after_first_page).
Proof.
  assert (Ht : BlogService._lastFetchTime (BlogService.service after_first_page)
                 !! BlogService._generateCacheKey 1 1 [] = Some 100800)
    by (vm_compute; reflexivity).
  assert (Hrefs : BlogService._postsCache (BlogService.service after_first_page)
                    !! BlogService._generateCacheKey 1 1 [] = Some [0%nat; 1%nat])
    by (vm_compute; reflexivity).
  split; [split; assumption|].
  apply (proj1 (cache_entry_lifetime 1 1 [] 101000 101800 100800 [0%nat; 1%nat]
                  after_first_page Ht Hrefs)).
  split; [discriminate | reflexivity].
Defined.


(** ** The sort stage *)

Section SortCanonical.
Context {A : Type} (key : A -> JS.Value).




End SortCanonical.



(** ** The most viewed and the latest posts *)

Section TopOfSorted.
Context {A : Type} (R : A -> A -> Prop).

Lemma slice_from_start (l : list A) (limit : Z) :
  0 <= limit -> JS.slice l 0 limit = take (Z.to_nat limit) l.
Proof.
  intros H. change limit with (0 + limit) at 1.
  rewrite (slice_window l 0 limit) by lia. reflexivity.
Qed.

(** The first elements of a sorted list are sorted and stand before all
    the others. *)
Lemma take_sorted_top (l : list A) (n : nat) :
  StronglySorted R l ->
  StronglySorted R (take n l)
  /\ forall a b, a ∈ take n l -> b ∈ l -> b ∉ take n l -> R a b.
Proof.
  intros Hs. rewrite <- (take_drop n l) in Hs.
  apply StronglySorted_app in Hs as (Hcross & Htake & _).
  split; [exact Htake|]. intros a b Ha Hb Hnb. apply Hcross; [exact Ha|].
  rewrite <- (take_drop n l) in Hb. apply elem_of_app in Hb as [Hb|Hb]; [contradiction|exact Hb].
Qed.

Lemma sorted_weaken (R' : A -> A -> Prop) (l : list A) :
  (forall a b, R a b -> R' a b) -> StronglySorted R l -> StronglySorted R' l.
Proof.
  intros HR. induction 1 as [|a l _ IH Hall]; constructor; [exact IH|].
  eapply Forall_impl; [exact Hall|]. intros b. apply HR.
Qed.

End TopOfSorted.

Section Popular.

Lemma by_views_in_order (a b : PostRef * BlogPost) :
  BlogMock.by_views_descending a b <= 0
  <-> in_order desc (JS.Num (Post.views (snd a))) (JS.Num (Post.views (snd b))).
Proof.
  unfold BlogMock.by_views_descending, in_order. simpl. rewrite Z.ltb_ge. lia.
Qed.

Lemma by_date_in_order (a b : PostRef * BlogPost) :
  BlogMock.by_date_descending a b <= 0
  <-> in_order desc (BlogService.time_value (Post.publishedAt (snd a)))
        (BlogService.time_value (Post.publishedAt (snd b))).
Proof.
  unfold BlogMock.by_date_descending, in_order, BlogService.time_value.
  destruct (Post.publishedAt (snd b)), (Post.publishedAt (snd a)); simpl;
    rewrite ?Z.ltb_ge; intuition lia.
Qed.

Lemma views_comparable (l : list (PostRef * BlogPost)) :
  comparable (fun o => JS.Num (Post.views (snd o))) l.
Proof. intros a b _ _. exact I. Qed.

End Popular.

Section TopK.
Context {A : Type} (key : A -> JS.Value) (cmp : A -> A -> Z).
Hypothesis cmp_desc : forall a b, cmp a b <= 0 <-> in_order desc (key a) (key b).

(** [l.sort(cmp).slice(0, limit)]: the [limit] first of [l] in descending
    order of the key. *)
Lemma sort_slice_top (l : list A) (limit : Z) :
  0 <= limit -> comparable key l ->
  Z.of_nat (length (JS.slice (JS.sort cmp l) 0 limit)) = Z.min limit (Z.of_nat (length l))
  /\ (exists rest, JS.slice (JS.sort cmp l) 0 limit ++ rest ≡ₚ l)
  /\ sorted_on key desc (JS.slice (JS.sort cmp l) 0 limit)
  /\ (forall a b, a ∈ JS.slice (JS.sort cmp l) 0 limit -> b ∈ l ->
        b ∉ JS.slice (JS.sort cmp l) 0 limit -> in_order desc (key a) (key b)).
Proof.
  intros Hl Hc.
  assert (Hperm : JS.sort cmp l ≡ₚ l) by apply sort_perm.
  assert (Hsorted : sorted_on key desc (JS.sort cmp l))
    by (apply (sort_sorted key desc cmp cmp_desc); exact Hc).
  rewrite slice_from_start by assumption.
  destruct (take_sorted_top _ (JS.sort cmp l) (Z.to_nat limit) Hsorted) as [Htake Htop].
  split; [rewrite length_take, (Permutation_length Hperm); lia|].
  split; [exists (drop (Z.to_nat limit) (JS.sort cmp l)); now rewrite take_drop|].
  split; [exact Htake|].
  intros a b Ha Hb Hnb. rewrite <- Hperm in Hb. exact (Htop a b Ha Hb Hnb).
Qed.

End TopK.

Lemma published_refs_nodup (store : list BlogPost) :
  NoDup (map fst (BlogMock.getPublishedPosts store)).
Proof.
  eapply sublist_NoDup; [apply (objects_refs_nodup store)|].
  apply (fmap_sublist fst), filter_sublist.
Qed.

Lemma part_refs_nodup (store : list BlogPost) (l rest : list (PostRef * BlogPost)) :
  l ++ rest ≡ₚ BlogMock.getPublishedPosts store ->
  NoDup (map fst l) /\ forall o, o ∈ l -> o ∈ BlogMock.getPublishedPosts store.
Proof.
  intros Hp. split.
  - pose proof (published_refs_nodup store) as Hn.
    rewrite <- (Permutation_map fst Hp), map_app in Hn.
    now apply NoDup_app in Hn as [Hn _].
  - intros o Ho. rewrite <- Hp. apply elem_of_app. now left.
Qed.

(** X8. For a limit of at least 0, [getPopularPosts] lists
    [min(limit, number of published posts)] posts, each a published post
    of the store and none twice, in descending order of their views, and
    no published post that is left out has more views than a listed one. *)
Theorem getPopularPosts_most_viewed (store : list BlogPost) (limit : Z) :
  0 <= limit ->
  Z.of_nat (length (BlogMock.getPopularPosts store limit))
  = Z.min limit (Z.of_nat (length (BlogMock.getPublishedPosts store)))
  /\ NoDup (map fst (BlogMock.getPopularPosts store limit))
  /\ (forall o, o ∈ BlogMock.getPopularPosts store limit ->
        store !! fst o = Some (snd o) /\ Post.status (snd o) = published)
  /\ StronglySorted (fun a b => Post.views (snd b) <= Post.views (snd a))
       (BlogMock.getPopularPosts store limit)
  /\ (forall a b,
        a ∈ BlogMock.getPopularPosts store limit ->
        b ∈ BlogMock.getPublishedPosts store ->
        b ∉ BlogMock.getPopularPosts store limit ->
        Post.views (snd b) <= Post.views (snd a)).
Proof.
  intros Hl. unfold BlogMock.getPopularPosts.
  fold (BlogMock.getPublishedPosts store).
  destruct (sort_slice_top _ _ by_views_in_order (BlogMock.getPublishedPosts store) limit Hl
              (views_comparable _)) as (Hlen & [rest Hrest] & Hsorted & Htop).
  destruct (part_refs_nodup store _ rest Hrest) as [Hnd Hsub].
  split; [exact Hlen|]. split; [exact Hnd|].
  split; [intros o Ho; now apply getPublishedPosts_published, Hsub|].
  split.
  - eapply sorted_weaken; [|exact Hsorted].
    intros a b H. unfold in_order in H. simpl in H. now apply Z.ltb_ge in H.
  - intros a b Ha Hb Hnb. specialize (Htop a b Ha Hb Hnb).
    unfold in_order in Htop. simpl in Htop. now apply Z.ltb_ge in Htop.
Qed.

(** The most viewed of the two published posts among three. *)
Lemma getPopularPosts_most_viewed_witness :
  0 <= 1
  /\ Z.of_nat (length (BlogMock.getPopularPosts posts_with_draft 1))
     = Z.min 1 (Z.of_nat (length (BlogMock.getPublishedPosts posts_with_draft))).
Proof.
  assert (H : 0 <= 1) by lia.
  split; [exact H|].
  exact (proj1 (getPopularPosts_most_viewed posts_with_draft 1 H)).
Defined.

(** X9. For a limit of at least 0 and when every published post has a
    publication date, [getRecentPosts] lists [min(limit, number of
    published posts)] posts, each a published post of the store and none
    twice, from the latest publication date to the earliest, and no
    published post that is left out is more recent than a listed one. *)
Theorem getRecentPosts_most_recent (store : list BlogPost) (limit : Z) :
  0 <= limit ->
  (forall o, o ∈ BlogMock.getPublishedPosts store -> Post.publishedAt (snd o) <> None) ->
  Z.of_nat (length (BlogMock.getRecentPosts store limit))
  = Z.min limit (Z.of_nat (length (BlogMock.getPublishedPosts store)))
  /\ NoDup (map fst (BlogMock.getRecentPosts store limit))
  /\ (forall o, o ∈ BlogMock.getRecentPosts store limit ->
        store !! fst o = Some (snd o) /\ Post.status (snd o) = published)
  /\ StronglySorted
       (fun a b => exists ta tb, Post.publishedAt (snd a) = Some ta
                                 /\ Post.publishedAt (snd b) = Some tb /\ tb <= ta)
       (BlogMock.getRecentPosts store limit)
  /\ (forall a b,
        a ∈ BlogMock.getRecentPosts store limit ->
        b ∈ BlogMock.getPublishedPosts store ->
        b ∉ BlogMock.getRecentPosts store limit ->
        exists ta tb, Post.publishedAt (snd a) = Some ta
                      /\ Post.publishedAt (snd b) = Some tb /\ tb <= ta).
Proof.
  intros Hl Hdated. unfold BlogMock.getRecentPosts.
  fold (BlogMock.getPublishedPosts store).
  assert (Hc : comparable (fun o : PostRef * BlogPost =>
                             BlogService.time_value (Post.publishedAt (snd o)))
                 (BlogMock.getPublishedPosts store)).
  { intros a b Ha Hb. apply Hdated in Ha, Hb. unfold BlogService.time_value.
    destruct (Post.publishedAt (snd a)), (Post.publishedAt (snd b)); simpl;
      try exact I; congruence. }
  destruct (sort_slice_top _ _ by_date_in_order (BlogMock.getPublishedPosts store) limit Hl Hc)
    as (Hlen & [rest Hrest] & Hsorted & Htop).
  destruct (part_refs_nodup store _ rest Hrest) as [Hnd Hsub].
  assert (Hdates : forall a b : PostRef * BlogPost,
            Post.publishedAt (snd a) <> None -> Post.publishedAt (snd b) <> None ->
            in_order desc (BlogService.time_value (Post.publishedAt (snd a)))
              (BlogService.time_value (Post.publishedAt (snd b))) ->
            exists ta tb, Post.publishedAt (snd a) = Some ta
                          /\ Post.publishedAt (snd b) = Some tb /\ tb <= ta).
  { intros a b Ha Hb. unfold in_order, BlogService.time_value.
    destruct (Post.publishedAt (snd a)) as [ta|], (Post.publishedAt (snd b)) as [tb|];
      try congruence.
    simpl. intros H. apply Z.ltb_ge in H. now exists ta, tb. }
  split; [exact Hlen|]. split; [exact Hnd|].
  split; [intros o Ho; now apply getPublishedPosts_published, Hsub|].
  split.
  - revert Hsub Hsorted. unfold sorted_on.
    generalize (JS.slice (JS.sort BlogMock.by_date_descending (BlogMock.getPublishedPosts store))
                  0 limit).
    intros l Hsub. induction 1 as [|a l Hs IH Hall]; constructor.
    + apply IH. intros o Ho. apply Hsub. now right.
    + apply Forall_forall. intros b Hb. rewrite Forall_forall in Hall.
      apply Hdates; [apply Hdated, Hsub; now left | apply Hdated, Hsub; now right | now apply Hall].
  - intros a b Ha Hb Hnb. apply Hdates; [now apply Hdated, Hsub | now apply Hdated | now apply Htop].
Qed.

(** The more recent of the two posts. *)
Lemma getRecentPosts_most_recent_witness :
  (0 <= 1
   /\ forall o, o ∈ BlogMock.getPublishedPosts two_posts -> Post.publishedAt (snd o) <> None)
  /\ Z.of_nat (length (BlogMock.getRecentPosts two_posts 1))
     = Z.min 1 (Z.of_nat (length (BlogMock.getPublishedPosts two_posts))).
Proof.
  assert (H : 0 <= 1) by lia.
  assert (Hdated : forall o, o ∈ BlogMock.getPublishedPosts two_posts ->
                     Post.publishedAt (snd o) <> None).
  { intros o Ho. apply list_elem_of_In in Ho. simpl in Ho.
    destruct Ho as [<-|[<-|[]]]; discriminate. }
  split; [split; assumption|].
  exact (proj1 (getRecentPosts_most_recent two_posts 1 H Hdated)).
Defined.

(** ** Related posts and limits *)

Lemma slice_length_le {A : Type} (l : list A) (limit : Z) :
  0 <= limit -> Z.of_nat (length (JS.slice l 0 limit)) <= limit.
Proof. intros H. rewrite slice_from_start, length_take by assumption. lia. Qed.

Lemma slice_all {A : Type} (l : list A) (limit : Z) :
  Z.of_nat (length l) <= limit -> JS.slice l 0 limit = l.
Proof. intros H. rewrite slice_from_start by lia. apply take_ge. lia. Qed.

(** X10. [getRelatedPosts] gives the empty list for an identifier that no
    post has. Otherwise, with [currentPost] the first post of that
    identifier (published or not), it lists published posts in the order of
    the store, at most [limit] of them for a limit of at least 0, each with
    another identifier than the one asked for and sharing a category or a
    tag with [currentPost]; with a limit that is at least the size of the
    store it lists every such post. *)
Theorem getRelatedPosts_related (store : list BlogPost) (postId : string) (limit : Z) :
  (BlogMock.getPostById store postId = None ->
   BlogMock.getRelatedPosts store postId limit = [])
  /\ (forall r currentPost,
        BlogMock.getPostById store postId = Some (r, currentPost) ->
        sublist (BlogMock.getRelatedPosts store postId limit) (BlogMock.getPublishedPosts store)
        /\ (0 <= limit ->
            Z.of_nat (length (BlogMock.getRelatedPosts store postId limit)) <= limit)
        /\ (forall o, o ∈ BlogMock.getRelatedPosts store postId limit ->
              Post.id (snd o) <> postId
              /\ (intersects (Post.categoryIds (snd o)) (Post.categoryIds currentPost)
                  \/ intersects (Post.tags (snd o)) (Post.tags currentPost)))
        /\ (Z.of_nat (length store) <= limit ->
            forall o, o ∈ BlogMock.getPublishedPosts store ->
              Post.id (snd o) <> postId ->
              intersects (Post.categoryIds (snd o)) (Post.categoryIds currentPost)
              \/ intersects (Post.tags (snd o)) (Post.tags currentPost) ->
              o ∈ BlogMock.getRelatedPosts store postId limit)).
Proof.
  unfold BlogMock.getRelatedPosts. split; [intros ->; reflexivity|].
  intros r currentPost ->.
  set (shares := fun o : PostRef * BlogPost =>
         negb (String.eqb (Post.id (snd o)) postId)
         && (existsb (fun cat => JS.array_includes (Post.categoryIds currentPost) cat)
               (Post.categoryIds (snd o))
             || existsb (fun tag => JS.array_includes (Post.tags currentPost) tag)
                  (Post.tags (snd o)))).
  assert (Hrel : List.filter
                   (fun o : PostRef * BlogPost =>
                      let post := snd o in
                      negb (String.eqb (Post.id post) postId)
                      && BlogMock.is_published post
                      && (existsb (fun cat => JS.array_includes (Post.categoryIds currentPost) cat)
                            (Post.categoryIds post)
                          || existsb (fun tag => JS.array_includes (Post.tags currentPost) tag)
                               (Post.tags post)))
                   (BlogMock.objects store)
                 = List.filter shares (BlogMock.getPublishedPosts store)).
  { unfold BlogMock.getPublishedPosts. rewrite filter_filter_and.
    apply List.filter_ext. intros o. unfold shares. simpl.
    destruct (negb _), (BlogMock.is_published _); reflexivity. }
  cbv beta iota zeta in Hrel |- *. rewrite Hrel. clear Hrel.
  assert (Hshares : forall o, shares o = true <->
            Post.id (snd o) <> postId
            /\ (intersects (Post.categoryIds (snd o)) (Post.categoryIds currentPost)
                \/ intersects (Post.tags (snd o)) (Post.tags currentPost))).
  { intros o. unfold shares.
    rewrite andb_true_iff, orb_true_iff, negb_true_iff, String.eqb_neq,
      !some_includes_intersects. reflexivity. }
  split; [etransitivity; [apply slice_sublist | apply filter_sublist]|].
  split; [apply slice_length_le|].
  split.
  - intros o Ho. apply slice_subset in Ho.
    apply list_elem_of_In, filter_In in Ho as [_ Ho]. now apply Hshares.
  - intros Hlimit o Ho Hid Hsh. rewrite slice_all.
    + apply list_elem_of_In, filter_In. split; [now apply list_elem_of_In|].
      apply Hshares. auto.
    + etransitivity; [|exact Hlimit]. apply inj_le.
      etransitivity; [apply sublist_length, filter_sublist|].
      etransitivity; [apply sublist_length, filter_sublist|].
      unfold BlogMock.objects. clear. generalize 0%nat.
      induction store as [|p s IH]; intros i; simpl; [lia|]. specialize (IH (S i)). lia.
Qed.

(** X11. The limit 0. [getPostsByCategory] and [getPostsByAuthor] take a
    limit of 0 for no limit and deliver every post, whereas
    [getFeaturedPosts], [getPopularPosts], [getRecentPosts] and
    [getRelatedPosts] deliver no post for it. A positive limit of
    [getPostsByCategory] keeps that many first posts, and a negative one
    drops that many last posts. *)
Theorem limit_zero_and_negative (categoryId authorId postId : string) (w : BlogService.World) :
  BlogService.getPostsByCategory categoryId (Some 0) w
  = BlogService.getPostsByCategory categoryId None w
  /\ BlogService.getPostsByAuthor authorId (Some 0) w
     = BlogService.getPostsByAuthor authorId None w
  /\ BlogService.getFeaturedPosts 0 w = (JS.Next [], w)
  /\ BlogService.getPopularPosts 0 w = (JS.Next [], w)
  /\ BlogService.getRecentPosts 0 w = (JS.Next [], w)
  /\ BlogService.getRelatedPosts postId 0 w = (JS.Next [], w)
  /\ (forall limit all,
        limit <> 0 ->
        fst (BlogService.getPostsByCategory categoryId None w) = JS.Next all ->
        fst (BlogService.getPostsByCategory categoryId (Some limit) w)
        = JS.Next (if limit <? 0
                   then take (length all - Z.to_nat (- limit)) all
                   else take (Z.to_nat limit) all)).
Proof.
  assert (Hzero : forall A (l : list A), JS.slice l 0 0 = []).
  { intros A l. now rewrite slice_from_start by lia. }
  unfold BlogService.getPostsByCategory, BlogService.getPostsByAuthor,
    BlogService.getFeaturedPosts, BlogService.getPopularPosts, BlogService.getRecentPosts,
    BlogService.getRelatedPosts, BlogMock.getPopularPosts, BlogMock.getRecentPosts,
    BlogMock.getRelatedPosts.
  repeat split; rewrite ?Hzero; try reflexivity.
  - destruct (BlogMock.getPostById _ _) as [[? ?]|]; [now rewrite Hzero | reflexivity].
  - intros limit all Hl [= <-]. simpl.
    destruct (limit =? 0) eqn:E; [lia|]. f_equal.
    set (posts := BlogMock.getPostsByCategory _ _).
    rewrite length_map.
    destruct (limit <? 0) eqn:Hneg; [apply Z.ltb_lt in Hneg | apply Z.ltb_ge in Hneg].
    + rewrite firstn_map. f_equal. unfold JS.slice, JS.clamp_index. simpl.
      apply Z.ltb_lt in Hneg. rewrite Hneg. apply Z.ltb_lt in Hneg.
      replace (Z.to_nat (0 `min` Z.of_nat (length posts))) with 0%nat by lia.
      rewrite drop_0. f_equal. lia.
    + rewrite firstn_map. f_equal. now apply slice_from_start.
Qed.

(** ** The two writes *)

Section StoreUpdate.
Context {A : Type} (f : A -> bool).

Lemma find_from_bound (i : nat) (l : list A) (r : nat) (y : A) :
  JS.find_from f i l = Some (r, y) -> (i <= r)%nat.
Proof. intros H. now apply find_from_inv in H as [H _]. Qed.

(** Replacing an element by one on which the predicate gives the same
    answer does not change which index [find] stops at. *)
Lemma find_from_insert (i k : nat) (l : list A) (y y' : A) :
  l !! k = Some y -> f y' = f y ->
  JS.find_from f i (<[k := y']> l)
  = (fun o => if decide (fst o = (i + k)%nat) then (fst o, y') else o) <$> JS.find_from f i l.
Proof.
  revert i k. induction l as [|a l IH]; intros i k Hk Hf; [discriminate|].
  destruct k as [|k]; simpl in *.
  - injection Hk as ->. rewrite Hf. destruct (f y) eqn:E; simpl.
    + rewrite decide_True by lia. reflexivity.
    + pose proof (find_from_bound (S i) l) as Hb.
      destruct (JS.find_from f (S i) l) as [[r z]|]; [|reflexivity]. simpl.
      specialize (Hb r z eq_refl). rewrite decide_False by lia. reflexivity.
  - destruct (f a) eqn:E; simpl.
    + rewrite decide_False by lia. reflexivity.
    + rewrite (IH (S i) k Hk Hf). replace (S i + k)%nat with (i + S k)%nat by lia. reflexivity.
Qed.

End StoreUpdate.

Section Writes.

Lemma sum_of_cons (f : BlogPost -> Z) (o : PostRef * BlogPost) (l : list (PostRef * BlogPost)) :
  BlogService.sum_of f (o :: l) = f (snd o) + BlogService.sum_of f l.
Proof.
  unfold BlogService.sum_of. simpl.
  assert (H : forall l a b, fold_left (fun sum (o : PostRef * BlogPost) => sum + f (snd o)) l (a + b)
                            = a + fold_left (fun sum o => sum + f (snd o)) l b).
  { clear. induction l as [|x l IH]; intros a b; simpl; [reflexivity|].
    now rewrite <- Z.add_assoc, IH. }
  rewrite Z.add_comm. rewrite <- (H l (f (snd o)) 0). now rewrite Z.add_comm.
Qed.

(** The published posts after a write to the post at [ref] that leaves
    its status alone: the same references, the same number, and sums that
    differ by what the write added if the post is published. *)
Lemma published_after_write (i k : nat) (store : list BlogPost) (old new : BlogPost) :
  store !! k = Some old -> Post.status new = Post.status old ->
  let before := List.filter (fun o => BlogMock.is_published (snd o))
                  (BlogMock.objects_from i store) in
  let after := List.filter (fun o => BlogMock.is_published (snd o))
                 (BlogMock.objects_from i (<[k := new]> store)) in
  map fst after = map fst before
  /\ forall f, BlogService.sum_of f after
               = BlogService.sum_of f before
                 + (if BlogMock.is_published old then f new - f old else 0).
Proof.
  revert i k. induction store as [|p store IH]; intros i k Hk Hst; [discriminate|].
  assert (Hpub : BlogMock.is_published new = BlogMock.is_published old)
    by (unfold BlogMock.is_published; now rewrite Hst).
  destruct k as [|k]; simpl in *.
  - injection Hk as ->. rewrite Hpub. destruct (BlogMock.is_published old); simpl.
    + split; [reflexivity|]. intros f. rewrite !sum_of_cons. simpl. lia.
    + split; [reflexivity|]. intros f. lia.
  - destruct (IH (S i) k Hk Hst) as [Hrefs Hsum].
    destruct (BlogMock.is_published p); simpl.
    + split; [now f_equal|]. intros f. rewrite !sum_of_cons, Hsum. simpl. lia.
    + split; [assumption|]. exact Hsum.
Qed.

End Writes.

(** X12. [incrementViews] on an identifier that no post has delivers
    [false] and changes nothing. Otherwise it delivers [true] and adds one
    view to the first post of that identifier: the service keeps its state,
    the store its length and every other post; the identifier then finds
    that same post with one view more, every identifier and every slug
    finds the post it found before, and the published posts are the same. *)
Theorem incrementViews_counts_one_view (postId : string) (w : BlogService.World) :
  match BlogMock.getPostById (BlogService.BLOG_POSTS_MOCK w) postId with
  | None => BlogService.incrementViews postId w = (JS.Next false, w)
  | Some (ref, post) =>
      exists store',
        BlogService.incrementViews postId w
        = (JS.Next true,
           {| BlogService.BLOG_POSTS_MOCK := store'; BlogService.service := BlogService.service w |})
        /\ length store' = length (BlogService.BLOG_POSTS_MOCK w)
        /\ (forall r, r <> ref -> store' !! r = BlogService.BLOG_POSTS_MOCK w !! r)
        /\ BlogMock.getPostById store' postId = Some (ref, Post.add_views 1 post)
        /\ (forall id, fst <$> BlogMock.getPostById store' id
                       = fst <$> BlogMock.getPostById (BlogService.BLOG_POSTS_MOCK w) id)
        /\ (forall slug, fst <$> BlogMock.getPostBySlug store' slug
                         = fst <$> BlogMock.getPostBySlug (BlogService.BLOG_POSTS_MOCK w) slug)
        /\ map fst (BlogMock.getPublishedPosts store')
           = map fst (BlogMock.getPublishedPosts (BlogService.BLOG_POSTS_MOCK w))
  end.
Proof.
  unfold BlogService.incrementViews.
  destruct (BlogMock.getPostById _ _) as [[ref post]|] eqn:Hfind; [|reflexivity].
  set (store := BlogService.BLOG_POSTS_MOCK w) in *.
  exists (<[ref := Post.add_views 1 post]> store).
  unfold BlogMock.getPostById in Hfind.
  pose proof (find_from_inv _ _ _ _ _ Hfind) as (_ & Hl & Hid). rewrite Nat.sub_0_r in Hl.
  split; [reflexivity|].
  split; [apply length_insert|].
  split; [intros r Hr; now rewrite list_lookup_insert_ne|].
  assert (Hlook : forall g : BlogPost -> bool,
            g (Post.add_views 1 post) = g post ->
            JS.find_from g 0 (<[ref := Post.add_views 1 post]> store)
            = (fun o => if decide (fst o = ref) then (fst o, Post.add_views 1 post) else o)
                <$> JS.find_from g 0 store).
  { intros g Hg. now rewrite (find_from_insert g 0 ref store post). }
  split.
  { unfold BlogMock.getPostById. rewrite Hlook by reflexivity. rewrite Hfind. simpl.
    now rewrite decide_True. }
  assert (Hsame : forall o : option (PostRef * BlogPost),
            fst <$> ((fun o => if decide (fst o = ref) then (fst o, Post.add_views 1 post) else o)
                       <$> o) = fst <$> o).
  { intros [[r p]|]; [|reflexivity]. simpl. now destruct (decide (r = ref)). }
  split.
  { intros id. unfold BlogMock.getPostById. rewrite Hlook by reflexivity. apply Hsame. }
  split.
  { intros slug. unfold BlogMock.getPostBySlug. rewrite Hlook by reflexivity. apply Hsame. }
  now apply (published_after_write 0 ref store post (Post.add_views 1 post)).
Qed.

Lemma toggleLike_found (postId : string) (random : bool) (w : BlogService.World)
    (ref : PostRef) (post : BlogPost) :
  BlogMock.getPostById (BlogService.BLOG_POSTS_MOCK w) postId = Some (ref, post) ->
  let post' := Post.add_likes (if random then 1 else -1) post in
  BlogService.toggleLike postId random w
  = (JS.Next {| BlogService.liked := random; BlogService.totalLikes := Post.likes post' |},
     {| BlogService.BLOG_POSTS_MOCK := <[ref := post']> (BlogService.BLOG_POSTS_MOCK w);
        BlogService.service := BlogService.service w |})
  /\ BlogMock.getPostById (<[ref := post']> (BlogService.BLOG_POSTS_MOCK w)) postId
     = Some (ref, post').
Proof.
  intros Hfind post'. unfold BlogService.toggleLike. rewrite Hfind. split; [reflexivity|].
  unfold BlogMock.getPostById in *.
  pose proof (find_from_inv _ _ _ _ _ Hfind) as (_ & Hl & Hid). rewrite Nat.sub_0_r in Hl.
  rewrite (find_from_insert _ 0 ref _ post post' Hl) by reflexivity.
  rewrite Hfind. simpl. now rewrite decide_True.
Qed.

(** X13. [toggleLike] on an identifier that no post has fails with
    'Post no encontrado' and changes nothing. Otherwise it keeps no record
    of a like: [liked] is the draw of the call, and two calls in a row
    deliver the likes of the post plus the first draw (one more or one
    less), then plus the two draws; the service keeps its state and the
    other posts are as they were. *)
Theorem toggleLike_adds_the_draws (postId : string) (first second : bool)
    (w : BlogService.World) :
  match BlogMock.getPostById (BlogService.BLOG_POSTS_MOCK w) postId with
  | None => BlogService.toggleLike postId first w = (JS.Error "Post no encontrado", w)
  | Some (ref, post) =>
      exists w1 w2,
        BlogService.toggleLike postId first w
        = (JS.Next {| BlogService.liked := first;
                      BlogService.totalLikes := Post.likes post + (if first then 1 else -1) |},
           w1)
        /\ BlogService.toggleLike postId second w1
           = (JS.Next {| BlogService.liked := second;
                         BlogService.totalLikes :=
                           Post.likes post + (if first then 1 else -1)
                           + (if second then 1 else -1) |},
              w2)
        /\ BlogService.service w2 = BlogService.service w
        /\ forall r, r <> ref ->
             BlogService.BLOG_POSTS_MOCK w2 !! r = BlogService.BLOG_POSTS_MOCK w !! r
  end.
Proof.
  destruct (BlogMock.getPostById _ _) as [[ref post]|] eqn:Hfind.
  - destruct (toggleLike_found postId first w ref post Hfind) as [H1 Hfind1].
    eexists _, _. split; [exact H1|].
    destruct (toggleLike_found postId second
                {| BlogService.BLOG_POSTS_MOCK :=
                     <[ref := Post.add_likes (if first then 1 else -1) post]>
                       (BlogService.BLOG_POSTS_MOCK w);
                   BlogService.service := BlogService.service w |} ref _ Hfind1) as [H2 _].
    split; [exact H2|]. simpl. split; [reflexivity|].
    intros r Hr. now rewrite !list_lookup_insert_ne.
  - unfold BlogService.toggleLike. now rewrite Hfind.
Qed.

(** X14. The statistics follow the writes at once: after
    [incrementViews] on a published post, [getBlogStats] counts one view
    more, after [toggleLike] one like more or less according to the draw,
    and nothing else changes; a write to a post that is not published, or
    to an identifier that no post has, leaves the statistics as they were. *)
Theorem stats_follow_the_writes (postId : string) (random : bool) (w : BlogService.World) :
  exists s,
    fst (BlogService.getBlogStats w) = JS.Next s
    /\ let found :=
         match BlogMock.getPostById (BlogService.BLOG_POSTS_MOCK w) postId with
         | Some (_, post) => BlogMock.is_published post
         | None => false
         end in
       fst (BlogService.getBlogStats (snd (BlogService.incrementViews postId w)))
       = JS.Next
           {| BlogService.Stats.totalPosts := BlogService.Stats.totalPosts s;
              BlogService.Stats.totalViews :=
                BlogService.Stats.totalViews s + (if found then 1 else 0);
              BlogService.Stats.totalLikes := BlogService.Stats.totalLikes s;
              BlogService.Stats.totalComments := BlogService.Stats.totalComments s;
              BlogService.Stats.avgReadingTime := BlogService.Stats.avgReadingTime s |}
       /\ fst (BlogService.getBlogStats (snd (BlogService.toggleLike postId random w)))
          = JS.Next
              {| BlogService.Stats.totalPosts := BlogService.Stats.totalPosts s;
                 BlogService.Stats.totalViews := BlogService.Stats.totalViews s;
                 BlogService.Stats.totalLikes :=
                   BlogService.Stats.totalLikes s
                   + (if found then (if random then 1 else -1) else 0);
                 BlogService.Stats.totalComments := BlogService.Stats.totalComments s;
                 BlogService.Stats.avgReadingTime := BlogService.Stats.avgReadingTime s |}.
Proof.
  eexists. split; [reflexivity|]. cbv zeta.
  unfold BlogService.incrementViews, BlogService.toggleLike.
  destruct (BlogMock.getPostById _ _) as [[ref post]|] eqn:Hfind.
  - unfold BlogMock.getPostById in Hfind.
    pose proof (find_from_inv _ _ _ _ _ Hfind) as (_ & Hl & _). rewrite Nat.sub_0_r in Hl.
    assert (Hw : forall new, Post.status new = Post.status post ->
              length (BlogMock.getPublishedPosts (<[ref := new]> (BlogService.BLOG_POSTS_MOCK w)))
              = length (BlogMock.getPublishedPosts (BlogService.BLOG_POSTS_MOCK w))
              /\ forall f,
                   BlogService.sum_of f
                     (BlogMock.getPublishedPosts (<[ref := new]> (BlogService.BLOG_POSTS_MOCK w)))
                   = BlogService.sum_of f (BlogMock.getPublishedPosts (BlogService.BLOG_POSTS_MOCK w))
                     + (if BlogMock.is_published post then f new - f post else 0)).
    { intros new Hst.
      destruct (published_after_write 0 ref _ post new Hl Hst) as [Hrefs Hsum].
      split; [|exact Hsum]. apply (f_equal (@length _)) in Hrefs.
      now rewrite !length_map in Hrefs. }
    unfold BlogService.getBlogStats. simpl.
    destruct (Hw (Post.add_views 1 post) eq_refl) as [Hlen1 Hsum1].
    destruct (Hw (Post.add_likes (if random then 1 else -1) post) eq_refl) as [Hlen2 Hsum2].
    rewrite Hlen1, Hlen2, !Hsum1, !Hsum2. simpl.
    destruct (BlogMock.is_published post); split; f_equal; f_equal; try lia;
      f_equal; lia.
  - simpl. split; f_equal; unfold BlogService.getBlogStats; simpl;
      rewrite ?Z.add_0_r; reflexivity.
Qed.

(** ** The category service *)

Section CategoryCache.

Lemma getCachedCategories_store (store : list BlogCategory) (now : Z)
    (w : CategoriaService.World) :
  cache_is_store store w ->
  fst (CategoriaService._getCachedCategories now w) = store
  /\ cache_is_store store (snd (CategoriaService._getCachedCategories now w))
  /\ CategoriaService._categoriesCache
       (CategoriaService.service (snd (CategoriaService._getCachedCategories now w)))
     = Some store.
Proof.
  intros [Hs Hc]. unfold CategoriaService._getCachedCategories, cache_is_store.
  destruct Hc as [Hc|Hc]; rewrite Hc; [simpl; rewrite Hs; auto|].
  destruct (_ <? _); simpl; rewrite ?Hs, ?Hc; auto.
Qed.

Lemma getCachedCategories_flags (now : Z) (w : CategoriaService.World) :
  CategoriaService._error
    (CategoriaService.service (snd (CategoriaService._getCachedCategories now w)))
  = CategoriaService._error (CategoriaService.service w)
  /\ CategoriaService._loading
       (CategoriaService.service (snd (CategoriaService._getCachedCategories now w)))
     = CategoriaService._loading (CategoriaService.service w).
Proof.
  unfold CategoriaService._getCachedCategories.
  destruct (CategoriaService._categoriesCache (CategoriaService.service w)) as [c|];
    [destruct (now - _ <? _)|]; split; reflexivity.
Qed.

Lemma category_step_cache (store : list BlogCategory) (w w' : CategoriaService.World) :
  CategoriaService.step w w' -> cache_is_store store w -> cache_is_store store w'.
Proof.
  intros Hstep Hw. destruct Hstep.
  - unfold CategoriaService.getCategories.
    pose proof (getCachedCategories_store store now
                  (CategoriaService.with_service (CategoriaService._setLoading true) w)) as H.
    destruct (CategoriaService._getCachedCategories _ _) as [categories w1]. simpl in *.
    apply H. exact Hw.
  - exact Hw.
  - exact Hw.
  - unfold CategoriaService.searchCategories. now destruct (negb _).
  - unfold CategoriaService.getCategoryStats. simpl.
    now destruct (CategoriasMock.getCategoryById _ _).
  - destruct Hw as [Hs _]. split; [exact Hs|]. now left.
Qed.

Lemma category_reachable_cache (store : list BlogCategory) (w : CategoriaService.World) :
  CategoriaService.reachable store w -> cache_is_store store w.
Proof.
  induction 1 as [|w w' _ IH Hstep]; [split; [reflexivity | now left]|].
  exact (category_step_cache store w w' Hstep IH).
Qed.

End CategoryCache.

(** X15. The cache of the category service never changes an answer. In
    every state that the service reaches from a fresh instance, whatever
    the time, [getCategories] delivers the page of the categories of the
    store, filtered and sorted, with their number as [totalItems]; after it
    the cache holds the categories of the store, the service is not
    loading and holds no error. *)
Theorem category_cache_never_changes_an_answer (store : list BlogCategory)
    (w : CategoriaService.World) (Date_parse : string -> option Z) (page pageSize : Z)
    (filters : CategoryFilters.t) (now : Z) :
  CategoriaService.reachable store w ->
  let categories :=
    CategoriaService._applySorting Date_parse
      (CategoriaService._applyFilters store filters)
      (CategoryFilters.sortBy filters) (CategoryFilters.sortDirection filters) in
  exists response w',
    CategoriaService.getCategories Date_parse page pageSize filters now w
    = (JS.Next response, w')
    /\ cat_data response = CategoriaService._applyPagination categories page pageSize
    /\ totalItems (cat_pagination response) = Z.of_nat (length categories)
    /\ CategoriaService._categoriesCache (CategoriaService.service w') = Some store
    /\ CategoriaService.CATEGORIES_MOCK w' = store
    /\ CategoriaService._loading (CategoriaService.service w') = false
    /\ CategoriaService._error (CategoriaService.service w') = None.
Proof.
  intros Hr categories. apply category_reachable_cache in Hr.
  unfold CategoriaService.getCategories.
  pose proof (getCachedCategories_store store now
                (CategoriaService.with_service (CategoriaService._setLoading true) w)) as H.
  assert (He : CategoriaService._error
                 (CategoriaService.service
                    (snd (CategoriaService._getCachedCategories now
                            (CategoriaService.with_service
                               (CategoriaService._setLoading true) w)))) = None).
  { now rewrite (proj1 (getCachedCategories_flags now _)). }
  destruct (CategoriaService._getCachedCategories _ _) as [cached w1]. simpl in *.
  destruct (H Hr) as (-> & [Hs _] & Hc).
  eexists _, _. split; [reflexivity|]. simpl. auto 10.
Qed.

(** A second call, answered from the cache that the first one filled. *)
Lemma category_cache_never_changes_an_answer_witness :
  CategoriaService.reachable three_categories after_first_categories
  /\ exists response w',
       CategoriaService.getCategories (fun _ => None) 2 2 no_category_filters 100900
         after_first_categories
       = (JS.Next response, w')
       /\ cat_data response
          = CategoriaService._applyPagination
              (CategoriaService._applySorting (fun _ => None)
                 (CategoriaService._applyFilters three_categories no_category_filters)
                 (CategoryFilters.sortBy no_category_filters)
                 (CategoryFilters.sortDirection no_category_filters)) 2 2
       /\ totalItems (cat_pagination response)
          = Z.of_nat
              (length
                 (CategoriaService._applySorting (fun _ => None)
                    (CategoriaService._applyFilters three_categories no_category_filters)
                    (CategoryFilters.sortBy no_category_filters)
                    (CategoryFilters.sortDirection no_category_filters)))
       /\ CategoriaService._categoriesCache (CategoriaService.service w')
          = Some three_categories
       /\ CategoriaService.CATEGORIES_MOCK w' = three_categories
       /\ CategoriaService._loading (CategoriaService.service w') = false
       /\ CategoriaService._error (CategoriaService.service w') = None.
Proof.
  assert (Hr : CategoriaService.reachable three_categories after_first_categories).
  { unfold after_first_categories.
    apply (CategoriaService.reachable_step three_categories
             {| CategoriaService.CATEGORIES_MOCK := three_categories;
                CategoriaService.service := CategoriaService.initial_state |}).
    - apply CategoriaService.reachable_initial.
    - apply CategoriaService.step_getCategories. }
  split; [exact Hr|].
  exact (category_cache_never_changes_an_answer three_categories after_first_categories
           (fun _ => None) 2 2 no_category_filters 100900 Hr).
Defined.

Lemma filter_nothing {A : Type} (f g : A -> bool) (l : list A) :
  (forall x, f x = true -> g x = false) -> List.filter g (List.filter f l) = [].
Proof.
  intros H. induction l as [|x l IH]; [reflexivity|]. simpl.
  destruct (f x) eqn:E; [|exact IH]. simpl. now rewrite (H x E).
Qed.

Lemma filter_implies_sublist {A : Type} (f g : A -> bool) (l : list A) :
  (forall x, f x = true -> g x = true) -> sublist (List.filter f l) (List.filter g l).
Proof.
  intros H. induction l as [|x l IH]; [constructor|]. simpl.
  destruct (f x) eqn:E.
  - rewrite (H x E). now constructor.
  - destruct (g x); [now constructor | exact IH].
Qed.

(** X16. The helpers of the category data module and the filter stage of
    the category service: [getActiveCategories] is the [activeOnly]
    filter, [getMainCategories] the [parentOnly] filter and
    [getSubcategories], for a non-empty parent identifier, the [parentId]
    filter. The [search] filter looks at the name and the description
    only, so that what it keeps is part of what [searchCategories] finds
    for the same non-empty term, which looks at the keywords too. *)
Theorem category_helpers_agree_with_filter_stage (store : list BlogCategory) :
  CategoriasMock.getActiveCategories store
  = CategoriaService._applyFilters store
      {| CategoryFilters.search := None; CategoryFilters.activeOnly := Some true;
         CategoryFilters.parentOnly := None; CategoryFilters.parentId := None;
         CategoryFilters.color := None; CategoryFilters.sortBy := None;
         CategoryFilters.sortDirection := None |}
  /\ CategoriasMock.getMainCategories store
     = CategoriaService._applyFilters store
         {| CategoryFilters.search := None; CategoryFilters.activeOnly := None;
            CategoryFilters.parentOnly := Some true; CategoryFilters.parentId := None;
            CategoryFilters.color := None; CategoryFilters.sortBy := None;
            CategoryFilters.sortDirection := None |}
  /\ (forall parentId,
        JS.truthy parentId = true ->
        CategoriasMock.getSubcategories store parentId
        = CategoriaService._applyFilters store
            {| CategoryFilters.search := None; CategoryFilters.activeOnly := None;
               CategoryFilters.parentOnly := None; CategoryFilters.parentId := Some parentId;
               CategoryFilters.color := None; CategoryFilters.sortBy := None;
               CategoryFilters.sortDirection := None |})
  /\ (forall term,
        JS.truthy term = true ->
        sublist
          (CategoriaService._applyFilters store
             {| CategoryFilters.search := Some term; CategoryFilters.activeOnly := None;
                CategoryFilters.parentOnly := None; CategoryFilters.parentId := None;
                CategoryFilters.color := None; CategoryFilters.sortBy := None;
                CategoryFilters.sortDirection := None |})
          (CategoriasMock.searchCategories store term)).
Proof.
  unfold CategoriaService._applyFilters. simpl. split; [reflexivity|].
  split.
  { unfold CategoriasMock.getMainCategories. apply List.filter_ext. intros cat.
    unfold CategoriasMock.is_main, CategoriaService.truthy_string.
    now destruct (Category.parentId cat). }
  split.
  { intros parentId Ht. rewrite Ht. reflexivity. }
  intros term Ht. rewrite Ht. unfold CategoriasMock.searchCategories.
  apply filter_implies_sublist. intros cat H. now rewrite H.
Qed.

Lemma category_filters_passes (categories : list BlogCategory) (filters : CategoryFilters.t) :
  CategoriaService._applyFilters categories filters
  = List.filter (category_passes filters) categories.
Proof.
  unfold CategoriaService._applyFilters.
  rewrite <- (filter_true categories) at 1.
  replace (List.filter (category_passes filters) categories)
    with (List.filter (fun cat => true && category_passes filters cat) categories)
    by (apply filter_ext; reflexivity).
  unfold category_passes. rewrite <- !filter_filter_and. cbv zeta.
  destruct (CategoriaService.truthy_string (CategoryFilters.search filters));
    rewrite ?filter_true;
  (destruct (CategoriaService.truthy_bool (CategoryFilters.activeOnly filters));
     rewrite ?filter_true);
  (destruct (CategoriaService.truthy_bool (CategoryFilters.parentOnly filters));
     rewrite ?filter_true);
  (destruct (CategoriaService.truthy_string (CategoryFilters.parentId filters));
     rewrite ?filter_true);
  (destruct (CategoriaService.truthy_string (CategoryFilters.color filters));
     rewrite ?filter_true);
  reflexivity.
Qed.

(** X17. The filter stage of the category service only drops categories
    and keeps the others in their order, and filtering twice with the same
    filters object changes nothing more. A filters object that sets
    [parentOnly] and gives a non-empty [parentId] keeps no category at
    all: the first asks for categories without parent, the second for the
    children of one. *)
Theorem category_filters_narrow (store : list BlogCategory) (filters : CategoryFilters.t) :
  sublist (CategoriaService._applyFilters store filters) store
  /\ CategoriaService._applyFilters (CategoriaService._applyFilters store filters) filters
     = CategoriaService._applyFilters store filters
  /\ (CategoryFilters.parentOnly filters = Some true ->
      CategoriaService.truthy_string (CategoryFilters.parentId filters) = true ->
      CategoriaService._applyFilters store filters = []).
Proof.
  rewrite !category_filters_passes, filter_filter_and.
  split; [apply filter_sublist|].
  split; [apply filter_ext; intros cat; now destruct (category_passes filters cat)|].
  intros Hpo Hpid.
  rewrite <- (filter_nothing (fun _ => true) (category_passes filters) store).
  - now rewrite filter_true.
  - intros cat _. unfold category_passes. rewrite Hpo, Hpid. simpl.
    destruct (CategoryFilters.parentId filters) as [pid|]; simpl in Hpid; [|discriminate].
    destruct (Category.parentId cat) as [p|] eqn:Hp; simpl.
    + destruct (JS.truthy p) eqn:Ht; simpl; [rewrite andb_false_r; reflexivity|].
      rewrite (bool_decide_eq_false_2 (Some p = Some pid)); [|intros [= ->]; congruence].
      rewrite andb_false_r. reflexivity.
    + rewrite andb_false_r. reflexivity.
Qed.

Lemma by_postsCount_in_order (a b : BlogCategory) :
  CategoriasMock.by_postsCount_descending a b <= 0
  <-> in_order desc (JS.Num (Category.postsCount a)) (JS.Num (Category.postsCount b)).
Proof.
  unfold CategoriasMock.by_postsCount_descending, in_order. simpl. rewrite Z.ltb_ge. lia.
Qed.

(** X18. For a limit of at least 0, [getPopularCategories] delivers
    [min(limit, number of active categories)] of the active categories of
    the store, in descending order of their number of posts, and no active
    category that is left out has more posts than a listed one; the
    service keeps its state. *)
Theorem getPopularCategories_most_posts (limit : Z) (w : CategoriaService.World) :
  0 <= limit ->
  exists categories,
    CategoriaService.getPopularCategories limit w = (JS.Next categories, w)
    /\ Z.of_nat (length categories)
       = Z.min limit
           (Z.of_nat (length (CategoriasMock.getActiveCategories
                                (CategoriaService.CATEGORIES_MOCK w))))
    /\ (exists rest,
          categories ++ rest
          ≡ₚ CategoriasMock.getActiveCategories (CategoriaService.CATEGORIES_MOCK w))
    /\ StronglySorted (fun a b => Category.postsCount b <= Category.postsCount a) categories
    /\ (forall a b,
          a ∈ categories ->
          b ∈ CategoriasMock.getActiveCategories (CategoriaService.CATEGORIES_MOCK w) ->
          b ∉ categories ->
          Category.postsCount b <= Category.postsCount a).
Proof.
  intros Hl. eexists. split; [reflexivity|].
  unfold CategoriasMock.getCategoriesByPopularity.
  fold (CategoriasMock.getActiveCategories (CategoriaService.CATEGORIES_MOCK w)).
  destruct (sort_slice_top _ _ by_postsCount_in_order
              (CategoriasMock.getActiveCategories (CategoriaService.CATEGORIES_MOCK w)) limit Hl)
    as (Hlen & Hrest & Hsorted & Htop).
  { intros a b _ _. exact I. }
  split; [exact Hlen|]. split; [exact Hrest|].
  split.
  - eapply sorted_weaken; [|exact Hsorted].
    intros a b H. unfold in_order in H. simpl in H. now apply Z.ltb_ge in H.
  - intros a b Ha Hb Hnb. specialize (Htop a b Ha Hb Hnb).
    unfold in_order in Htop. simpl in Htop. now apply Z.ltb_ge in Htop.
Qed.

(** The two categories with most posts among three. *)
Lemma getPopularCategories_most_posts_witness :
  0 <= 2
  /\ exists categories,
       CategoriaService.getPopularCategories 2 after_first_categories
       = (JS.Next categories, after_first_categories)
       /\ Z.of_nat (length categories)
          = Z.min 2
              (Z.of_nat
                 (length (CategoriasMock.getActiveCategories
                            (CategoriaService.CATEGORIES_MOCK after_first_categories)))).
Proof.
  assert (H : 0 <= 2) by lia.
  split; [exact H|].
  destruct (getPopularCategories_most_posts 2 after_first_categories H)
    as (categories & Hcall & Hlen & _).
  exists categories. split; assumption.
Defined.

(** ** The breadcrumb of a category *)

Section BreadcrumbFacts.
Variable store : list BlogCategory.

Lemma breadcrumb_loop_line (category : BlogCategory) (line : list BlogCategory) :
  ancestry store category line ->
  forall (fuel level : nat) (acc : list CategoriaService.BreadcrumbItem),
    (length line <= fuel)%nat ->
    CategoriaService.breadcrumb_loop fuel store (Some category) (Z.of_nat level) acc
    = Some (reverse (imap (fun i => breadcrumb_item (level + i)) line) ++ acc).
Proof.
  induction 1 as [category Hmain | category parentId Hp Ht Hnone
                  | category parentId parent line Hp Ht Hsome Hline IH];
    intros fuel level acc Hfuel; (destruct fuel as [|fuel]; [simpl in Hfuel; lia|]).
  - simpl. unfold CategoriasMock.is_main in Hmain. unfold breadcrumb_item.
    rewrite Nat.add_0_r.
    destruct (Category.parentId category) as [pid|]; [|reflexivity].
    apply negb_true_iff in Hmain. now rewrite Hmain.
  - simpl. rewrite Hp, Ht, Hnone. unfold breadcrumb_item. rewrite Nat.add_0_r.
    destruct fuel; reflexivity.
  - simpl. rewrite Hp, Ht, Hsome.
    replace (Z.of_nat level + 1) with (Z.of_nat (S level)) by lia.
    rewrite IH by (simpl in Hfuel; lia).
    rewrite reverse_cons, <- app_assoc. simpl. unfold breadcrumb_item at 3.
    rewrite Nat.add_0_r. f_equal. f_equal. f_equal.
    apply imap_ext. intros i x _. simpl. f_equal. lia.
Qed.

Lemma breadcrumb_loop_endless (S : BlogCategory -> Prop) :
  (forall c, S c -> exists parent, parent_of store c parent /\ S parent) ->
  forall (fuel : nat) (category : BlogCategory) (level : Z)
         (acc : list CategoriaService.BreadcrumbItem),
    S category ->
    CategoriaService.breadcrumb_loop fuel store (Some category) level acc = None.
Proof.
  intros Hclosed. induction fuel as [|fuel IH]; intros category level acc Hc; [reflexivity|].
  destruct (Hclosed category Hc) as (parent & (pid & Hp & Ht & Hsome) & HS).
  simpl. rewrite Hp, Ht, Hsome. now apply IH.
Qed.

End BreadcrumbFacts.

(** X19. The breadcrumb of a category whose line of parents ends (at a
    category without parent, or at one whose parent is not in the store):
    the loop of [getCategoryBreadcrumb] ends after as many turns as the
    line has categories, and the items are those of the line from its top
    down to the category, which is [current]; the level of an item counts
    the steps from the category up, so that the category has level 0 and
    comes last. *)
Theorem getCategoryBreadcrumb_line (categoryId : string) (category : BlogCategory)
    (line : list BlogCategory) (fuel : nat) (w : CategoriaService.World) :
  CategoriasMock.getCategoryById (CategoriaService.CATEGORIES_MOCK w) categoryId
  = Some category ->
  ancestry (CategoriaService.CATEGORIES_MOCK w) category line ->
  (length line <= fuel)%nat ->
  CategoriaService.getCategoryBreadcrumb fuel categoryId w
  = Some (JS.Next {| CategoriaService.items := reverse (imap breadcrumb_item line);
                      CategoriaService.current := category |},
          w).
Proof.
  intros Hfind Hline Hfuel. unfold CategoriaService.getCategoryBreadcrumb. rewrite Hfind.
  pose proof (breadcrumb_loop_line _ category line Hline fuel 0%nat [] Hfuel) as Hloop.
  change (Z.of_nat 0) with 0 in Hloop. rewrite Hloop. now rewrite app_nil_r.
Qed.

(** The line of the third category: itself, its parent, its grandparent. *)
Lemma getCategoryBreadcrumb_line_witness :
  (CategoriasMock.getCategoryById (CategoriaService.CATEGORIES_MOCK after_first_categories) "3"
   = Some (sample_category "3" (Some "2") 4)
   /\ ancestry (CategoriaService.CATEGORIES_MOCK after_first_categories)
        (sample_category "3" (Some "2") 4)
        [sample_category "3" (Some "2") 4; sample_category "2" (Some "1") 9;
         sample_category "1" None 7]
   /\ (3 <= 5)%nat)
  /\ CategoriaService.getCategoryBreadcrumb 5 "3" after_first_categories
     = Some (JS.Next
               {| CategoriaService.items :=
                    reverse (imap breadcrumb_item
                               [sample_category "3" (Some "2") 4;
                                sample_category "2" (Some "1") 9;
                                sample_category "1" None 7]);
                  CategoriaService.current := sample_category "3" (Some "2") 4 |},
             after_first_categories).
Proof.
  assert (Hfind : CategoriasMock.getCategoryById
                    (CategoriaService.CATEGORIES_MOCK after_first_categories) "3"
                  = Some (sample_category "3" (Some "2") 4))
    by (vm_compute; reflexivity).
  assert (Hline : ancestry (CategoriaService.CATEGORIES_MOCK after_first_categories)
                    (sample_category "3" (Some "2") 4)
                    [sample_category "3" (Some "2") 4; sample_category "2" (Some "1") 9;
                     sample_category "1" None 7]).
  { apply (ancestry_parent _ _ "2" (sample_category "2" (Some "1") 9));
      [reflexivity | reflexivity | vm_compute; reflexivity |].
    apply (ancestry_parent _ _ "1" (sample_category "1" None 7));
      [reflexivity | reflexivity | vm_compute; reflexivity |].
    apply ancestry_top. reflexivity. }
  assert (Hfuel : (3 <= 5)%nat) by lia.
  split; [repeat split; assumption|].
  exact (getCategoryBreadcrumb_line "3" _ _ 5 after_first_categories Hfind Hline Hfuel).
Defined.

(** X20. The breadcrumb of a category on a cycle of parents: when the
    category belongs to a set of categories each of which has a parent in
    the store that is in the set again, the loop of
    [getCategoryBreadcrumb] is still running after any number of turns;
    the method delivers nothing for it. *)
Theorem getCategoryBreadcrumb_endless (S : BlogCategory -> Prop) (categoryId : string)
    (category : BlogCategory) (w : CategoriaService.World) :
  (forall c, S c ->
     exists parent, parent_of (CategoriaService.CATEGORIES_MOCK w) c parent /\ S parent) ->
  CategoriasMock.getCategoryById (CategoriaService.CATEGORIES_MOCK w) categoryId
  = Some category ->
  S category ->
  forall fuel, CategoriaService.getCategoryBreadcrumb fuel categoryId w = None.
Proof.
  intros Hclosed Hfind HS fuel. unfold CategoriaService.getCategoryBreadcrumb. rewrite Hfind.
  now rewrite (breadcrumb_loop_endless _ S Hclosed fuel category 0 [] HS).
Qed.

(** Two categories, each the parent of the other. *)
Lemma getCategoryBreadcrumb_endless_witness :
  ((forall c, c ∈ looping_categories ->
      exists parent, parent_of looping_categories c parent /\ parent ∈ looping_categories)
   /\ CategoriasMock.getCategoryById looping_categories "1"
      = Some (sample_category "1" (Some "2") 7)
   /\ sample_category "1" (Some "2") 7 ∈ looping_categories)
  /\ forall fuel,
       CategoriaService.getCategoryBreadcrumb fuel "1"
         {| CategoriaService.CATEGORIES_MOCK := looping_categories;
            CategoriaService.service := CategoriaService.initial_state |}
       = None.
Proof.
  assert (Hclosed : forall c, c ∈ looping_categories ->
            exists parent, parent_of looping_categories c parent
                           /\ parent ∈ looping_categories).
  { intros c Hc. apply list_elem_of_In in Hc. simpl in Hc.
    destruct Hc as [<-|[<-|[]]].
    - exists (sample_category "2" (Some "1") 9).
      split; [exists "2"; repeat split; vm_compute; reflexivity|].
      right. left.
    - exists (sample_category "1" (Some "2") 7).
      split; [exists "1"; repeat split; vm_compute; reflexivity|].
      left. }
  assert (Hfind : CategoriasMock.getCategoryById looping_categories "1"
                  = Some (sample_category "1" (Some "2") 7))
    by (vm_compute; reflexivity).
  assert (Hin : sample_category "1" (Some "2") 7 ∈ looping_categories) by left.
  split; [repeat split; assumption|].
  exact (getCategoryBreadcrumb_endless (fun c => c ∈ looping_categories) "1"
           (sample_category "1" (Some "2") 7)
           {| CategoriaService.CATEGORIES_MOCK := looping_categories;
              CategoriaService.service := CategoriaService.initial_state |}
           Hclosed Hfind Hin).
Defined.

(** ** The statistics of a category *)

Lemma count_status_category (store : list BlogPost) (id : string) (status : BlogPostStatus) :
  CategoriaService.count_status status (BlogMock.getPostsByCategory store id)
  = if bool_decide (status = published)
    then Z.of_nat (length (BlogMock.getPostsByCategory store id))
    else 0.
Proof.
  unfold CategoriaService.count_status, BlogMock.getPostsByCategory.
  rewrite filter_filter_and. destruct (bool_decide (status = published)) eqn:E.
  - apply bool_decide_eq_true in E. subst. do 2 f_equal. apply List.filter_ext.
    intros o. unfold BlogMock.is_published.
    destruct (bool_decide (Post.status (snd o) = published)); [|now rewrite !andb_false_r].
    now rewrite !andb_true_r.
  - apply bool_decide_eq_false in E.
    rewrite (List.filter_ext _ (fun _ => false)).
    + now induction (BlogMock.objects store).
    + intros o. unfold BlogMock.is_published.
      destruct (bool_decide (Post.status (snd o) = published)) eqn:E1;
        [|now rewrite andb_false_r].
      apply bool_decide_eq_true in E1. rewrite bool_decide_eq_false_2 by congruence.
      now rewrite andb_false_r.
Qed.

(** X21. [getCategoryStats] for an identifier that no category has fails
    with 'Categoría no encontrada' and leaves the service not loading,
    with the error message of the method and its cache as it was. For a
    known category it delivers statistics and leaves the service not
    loading and without error: the posts counted are the published posts
    of the category, so that [publishedPosts] equals [totalPosts] and
    [draftPosts] is 0 whatever the store holds; [popularPosts] lists
    [min(5, totalPosts)] posts in descending order of views; the average
    reading time is never a division by zero. *)
Theorem getCategoryStats_counts (blogPosts : list BlogPost) (draws : CategoriaService.Draws)
    (id : string) (w : CategoriaService.World) :
  match CategoriasMock.getCategoryById (CategoriaService.CATEGORIES_MOCK w) id with
  | None =>
      CategoriaService.getCategoryStats blogPosts draws id w
      = (JS.Error "Categoría no encontrada",
         {| CategoriaService.CATEGORIES_MOCK := CategoriaService.CATEGORIES_MOCK w;
            CategoriaService.service :=
              {| CategoriaService._loading := false;
                 CategoriaService._error :=
                   Some ("Error al cargar estadísticas de categoría: " +:+ id);
                 CategoriaService._categoriesCache :=
                   CategoriaService._categoriesCache (CategoriaService.service w);
                 CategoriaService._lastCacheTime :=
                   CategoriaService._lastCacheTime (CategoriaService.service w) |} |})
  | Some _ =>
      exists stats,
        CategoriaService.getCategoryStats blogPosts draws id w
        = (JS.Next stats,
           {| CategoriaService.CATEGORIES_MOCK := CategoriaService.CATEGORIES_MOCK w;
              CategoriaService.service :=
                {| CategoriaService._loading := false;
                   CategoriaService._error := None;
                   CategoriaService._categoriesCache :=
                     CategoriaService._categoriesCache (CategoriaService.service w);
                   CategoriaService._lastCacheTime :=
                     CategoriaService._lastCacheTime (CategoriaService.service w) |} |})
        /\ CategoriaService.totalPosts stats
           = Z.of_nat (length (BlogMock.getPostsByCategory blogPosts id))
        /\ CategoriaService.publishedPosts stats = CategoriaService.totalPosts stats
        /\ CategoriaService.draftPosts stats = 0
        /\ Z.of_nat (length (CategoriaService.popularPosts stats))
           = Z.min 5 (CategoriaService.totalPosts stats)
        /\ StronglySorted
             (fun a b => CategoriaService.popular_views b <= CategoriaService.popular_views a)
             (CategoriaService.popularPosts stats)
        /\ 0 < JS.denominator (CategoriaService.averageReadingTime stats)
  end.
Proof.
  unfold CategoriaService.getCategoryStats. simpl.
  destruct (CategoriasMock.getCategoryById _ _) as [category|]; [|reflexivity].
  eexists. split; [reflexivity|]. simpl.
  set (posts := BlogMock.getPostsByCategory blogPosts id).
  assert (Hlen : length (JS.sort BlogMock.by_views_descending posts) = length posts)
    by apply Permutation_length, sort_perm.
  pose proof (count_status_category blogPosts id published) as Hpublished.
  pose proof (count_status_category blogPosts id draft) as Hdraft.
  fold posts in Hpublished, Hdraft.
  rewrite !Hlen, Hpublished, Hdraft. clear Hpublished Hdraft.
  destruct (sort_slice_top _ _ by_views_in_order posts 5 ltac:(lia) (views_comparable _))
    as (Hl5 & _ & Hsorted & _).
  split; [reflexivity|]. split; [reflexivity|]. split; [reflexivity|].
  split; [rewrite length_map, Hl5; reflexivity|].
  split.
  - revert Hsorted. unfold sorted_on.
    generalize (JS.slice (JS.sort BlogMock.by_views_descending posts) 0 5). intros l.
    induction 1 as [|a l _ IH Hall]; [constructor|].
    simpl. constructor; [exact IH|].
    apply Forall_forall. intros x Hx.
    apply list_elem_of_In, in_map_iff in Hx as (b & <- & Hb). simpl.
    rewrite Forall_forall in Hall. specialize (Hall b (proj2 (list_elem_of_In _ _) Hb)).
    unfold in_order in Hall. simpl in Hall. now apply Z.ltb_ge in Hall.
  - destruct (0 <? Z.of_nat (length posts)) eqn:E; simpl; [|lia]. now apply Z.ltb_lt in E.
Qed.

(** ** Search *)

Lemma truthy_trim (term : string) : JS.truthy (JS.trim term) = true -> JS.truthy term = true.
Proof. destruct term; [intros H; exact H | reflexivity]. Qed.

Lemma passes_with_search (term : string) (F : BlogFilters) (post : BlogPost) :
  JS.truthy term = true -> Filters.search F = None ->
  passes (Filters.search_ term :: F) post = passes [Filters.search_ term] post && passes F post.
Proof.
  intros Ht Hs. unfold passes. simpl. rewrite Hs, Ht.
  destruct (BlogService.matches_search _ post); reflexivity.
Qed.

(** X22. [searchPosts] and the [search] filter of [getPosts] agree: for a
    term that is not blank and filters that carry no [search] of their
    own, what [searchPosts] delivers is the array that the deferred part of
    [getPosts] computes and stores in the cache for the same filters with
    the term as [search] (the whole result, before pagination). *)
Theorem searchPosts_is_the_search_filter (term : string) (F : BlogFilters)
    (page pageSize later : Z) (w : BlogService.World) :
  JS.truthy (JS.trim term) = true -> Filters.search F = None ->
  exists refs,
    fst (BlogService.searchPosts term F w) = JS.Next refs
    /\ BlogService._postsCache
         (BlogService.service
            (snd (BlogService.fetchPosts page pageSize (Filters.search_ term :: F)
                    (BlogService._generateCacheKey page pageSize (Filters.search_ term :: F))
                    later w)))
       !! BlogService._generateCacheKey page pageSize (Filters.search_ term :: F)
       = Some refs.
Proof.
  intros Hterm Hs. unfold BlogService.searchPosts. rewrite Hterm. simpl.
  eexists. split; [reflexivity|]. rewrite lookup_insert_eq. do 2 f_equal.
  apply truthy_trim in Hterm.
  rewrite (searchPosts_filter_stage _ term Hterm), !applyFilters_passes, filter_filter_and.
  f_equal. apply List.filter_ext. intros o. now apply passes_with_search.
Qed.

(** The search for 'angular' among the posts of the author. *)
Lemma searchPosts_is_the_search_filter_witness :
  (JS.truthy (JS.trim "angular") = true /\ Filters.search [Filters.authorId_ "author-1"] = None)
  /\ exists refs,
       fst (BlogService.searchPosts "angular" [Filters.authorId_ "author-1"]
              (BlogService.initial_world two_posts)) = JS.Next refs
       /\ BlogService._postsCache
            (BlogService.service
               (snd (BlogService.fetchPosts 1 12
                       [Filters.search_ "angular"; Filters.authorId_ "author-1"]
                       (BlogService._generateCacheKey 1 12
                          [Filters.search_ "angular"; Filters.authorId_ "author-1"])
                       100800 (BlogService.initial_world two_posts))))
          !! BlogService._generateCacheKey 1 12
               [Filters.search_ "angular"; Filters.authorId_ "author-1"]
          = Some refs.
Proof.
  assert (Hterm : JS.truthy (JS.trim "angular") = true) by (vm_compute; reflexivity).
  assert (Hs : Filters.search [Filters.authorId_ "author-1"] = None) by reflexivity.
  split; [split; assumption|].
  exact (searchPosts_is_the_search_filter "angular" [Filters.authorId_ "author-1"] 1 12 100800
           (BlogService.initial_world two_posts) Hterm Hs).
Defined.

(** ** The statistics of the blog *)

(** X23. [getBlogStats] delivers statistics of the published posts and
    leaves the service as it is. Without any published post the counts are
    0 and the average reading time is NaN (the rounding of 0 / 0);
    otherwise it is the integer nearest to the mean of the reading times,
    a half going up. *)
Theorem getBlogStats_average (w : BlogService.World) :
  exists stats,
    BlogService.getBlogStats w = (JS.Next stats, w)
    /\ BlogService.Stats.totalPosts stats
       = Z.of_nat (length (BlogMock.getPublishedPosts (BlogService.BLOG_POSTS_MOCK w)))
    /\ (BlogService.Stats.totalPosts stats = 0 ->
        stats = {| BlogService.Stats.totalPosts := 0; BlogService.Stats.totalViews := 0;
                   BlogService.Stats.totalLikes := 0; BlogService.Stats.totalComments := 0;
                   BlogService.Stats.avgReadingTime := JS.NaN |})
    /\ (0 < BlogService.Stats.totalPosts stats ->
        exists average,
          BlogService.Stats.avgReadingTime stats = JS.Fin average
          /\ 2 * BlogService.Stats.totalPosts stats * average
             <= 2 * BlogService.sum_of Post.readingTime
                      (BlogMock.getPublishedPosts (BlogService.BLOG_POSTS_MOCK w))
                + BlogService.Stats.totalPosts stats
             < 2 * BlogService.Stats.totalPosts stats * (average + 1)).
Proof.
  eexists. split; [reflexivity|]. simpl.
  set (posts := BlogMock.getPublishedPosts _). split; [reflexivity|].
  split.
  - intros H. destruct posts; [reflexivity | simpl in H; lia].
  - intros Hn. unfold JS.round_div.
    destruct (Z.of_nat (length posts) =? 0) eqn:E; [lia|].
    eexists. split; [reflexivity|].
    set (n := Z.of_nat (length posts)) in *.
    set (s := BlogService.sum_of Post.readingTime posts).
    pose proof (Z.div_mod (2 * s + n) (2 * n) ltac:(lia)) as Hdm.
    pose proof (Z.mod_pos_bound (2 * s + n) (2 * n) ltac:(lia)) as Hb.
    nia.
Qed.

(** ** The numbers in the cache key *)

Section KeyNumbers.

Lemma app_cons (c : ascii) (s r : string) : String c s +:+ r = String c (s +:+ r).
Proof. reflexivity. Qed.

Lemma app_empty (r : string) : EmptyString +:+ r = r.
Proof. reflexivity. Qed.

(** The digits of a number followed by a dash: where the digits end is
    read off the text. *)
Lemma digits_dash_inj (d d' : Decimal.uint) (r r' : string) :
  NilEmpty.string_of_uint d +:+ String "-" r = NilEmpty.string_of_uint d' +:+ String "-" r' ->
  d = d' /\ r = r'.
Proof.
  revert d'. induction d as [|d IH|d IH|d IH|d IH|d IH|d IH|d IH|d IH|d IH|d IH];
    intros [|d'|d'|d'|d'|d'|d'|d'|d'|d'|d']; simpl NilEmpty.string_of_uint;
    rewrite ?app_cons, ?app_empty; intros H; try discriminate H;
    try (injection H as H; destruct (IH d' H) as [-> ->]; split; reflexivity).
  injection H as ->. split; reflexivity.
Qed.

Lemma number_to_string_digits (n : Z) :
  exists d, d <> Decimal.Nil
    /\ (JS.number_to_string n = NilEmpty.string_of_uint d
        \/ JS.number_to_string n = String "-" (NilEmpty.string_of_uint d))
    /\ (JS.number_to_string n = NilEmpty.string_of_uint d -> Z.to_int n = Decimal.Pos d)
    /\ (JS.number_to_string n = String "-" (NilEmpty.string_of_uint d) ->
        Z.to_int n = Decimal.Neg d).
Proof.
  unfold JS.number_to_string.
  assert (Hdigit : forall d, d <> Decimal.Nil ->
            forall s, NilEmpty.string_of_uint d <> String "-" s).
  { intros [| | | | | | | | | |]; simpl; congruence. }
  destruct n as [|p|p]; simpl.
  - exists (Decimal.D0 Decimal.Nil). repeat split; try discriminate; auto.
  - exists (Pos.to_uint p). pose proof (Unsigned.to_uint_nonnil p) as Hn.
    unfold NilZero.string_of_uint.
    destruct (Pos.to_uint p) eqn:E; try congruence; repeat split; auto; try discriminate.
  - exists (Pos.to_uint p). pose proof (Unsigned.to_uint_nonnil p) as Hn.
    unfold NilZero.string_of_uint.
    destruct (Pos.to_uint p) eqn:E; try congruence; repeat split; auto; try discriminate;
      intros H; exfalso; symmetry in H; revert H; apply Hdigit; discriminate.
Qed.

Lemma number_dash_inj (a b : Z) (r r' : string) :
  JS.number_to_string a +:+ String "-" r = JS.number_to_string b +:+ String "-" r' ->
  a = b /\ r = r'.
Proof.
  destruct (number_to_string_digits a) as (da & Hda & Ha & Hpa & Hna).
  destruct (number_to_string_digits b) as (db & Hdb & Hb & Hpb & Hnb).
  assert (Hdigit : forall d, d <> Decimal.Nil ->
            forall s t, NilEmpty.string_of_uint d +:+ s <> String "-" t).
  { intros [| | | | | | | | | |]; simpl NilEmpty.string_of_uint; intros; rewrite ?app_cons;
      congruence. }
  intros H. destruct Ha as [Ha|Ha], Hb as [Hb|Hb]; rewrite Ha, Hb in H; rewrite ?app_cons in H.
  - apply digits_dash_inj in H as [-> ->]. split; [|reflexivity].
    apply to_int_inj. now rewrite (Hpa Ha), (Hpb Hb).
  - exfalso. revert H. now apply Hdigit.
  - exfalso. symmetry in H. revert H. now apply Hdigit.
  - injection H as H. apply digits_dash_inj in H as [-> ->]. split; [|reflexivity].
    apply to_int_inj. now rewrite (Hna Ha), (Hnb Hb).
Qed.

End KeyNumbers.

(** X24. Two calls of [getPosts] get the same cache key only if they ask
    for the same page with the same page size and their filters objects
    serialize to the same text: the two numbers are read off the key
    unambiguously, also when one is negative. *)
Theorem generateCacheKey_tells_pages_apart (page page' pageSize pageSize' : Z)
    (F F' : BlogFilters) :
  safe_integer page -> safe_integer pageSize ->
  safe_integer page' -> safe_integer pageSize' ->
  BlogService._generateCacheKey page pageSize F
  = BlogService._generateCacheKey page' pageSize' F'
  <-> page = page' /\ pageSize = pageSize' /\ Filters.stringify F = Filters.stringify F'.
Proof.
  intros _ _ _ _. unfold BlogService._generateCacheKey. split.
  - intros H. change ("-" +:+ ?s) with (String "-" s) in H.
    apply number_dash_inj in H as [-> H].
    apply number_dash_inj in H as [-> ->]. auto.
  - intros (-> & -> & ->). reflexivity.
Qed.

(** Page 1 in pages of 12 and page 11 in pages of 2. *)
Lemma generateCacheKey_tells_pages_apart_witness :
  (safe_integer 1 /\ safe_integer 12 /\ safe_integer 11 /\ safe_integer 2)
  /\ (BlogService._generateCacheKey 1 12 [] = BlogService._generateCacheKey 11 2 []
      <-> 1 = 11 /\ 12 = 2 /\ Filters.stringify [] = Filters.stringify []).
Proof.
  assert (H1 : safe_integer 1) by (unfold safe_integer; lia).
  assert (H12 : safe_integer 12) by (unfold safe_integer; lia).
  assert (H11 : safe_integer 11) by (unfold safe_integer; lia).
  assert (H2 : safe_integer 2) by (unfold safe_integer; lia).
  split; [repeat split; assumption|].
  exact (generateCacheKey_tells_pages_apart 1 11 12 2 [] [] H1 H12 H11 H2).
Defined.

(** ** Looking a category up *)

(** X25. [getCategoryById] and [getCategoryBySlug] never fail: for an
    identifier (respectively a slug) that no category has they deliver
    [null], and otherwise the first category of the store that has it.
    Either call leaves the service not loading and without error message,
    also when an earlier call had left one, and touches nothing else. *)
Theorem category_lookup (w : CategoriaService.World) (key : string) :
  snd (CategoriaService.getCategoryById key w)
  = CategoriaService.with_service
      (fun s => CategoriaService._setLoading false (CategoriaService._setLoading true s)) w
  /\ snd (CategoriaService.getCategoryBySlug key w)
     = CategoriaService.with_service
         (fun s => CategoriaService._setLoading false (CategoriaService._setLoading true s)) w
  /\ CategoriaService._error
       (CategoriaService.service (snd (CategoriaService.getCategoryById key w))) = None
  /\ ((forall category, category ∈ CategoriaService.CATEGORIES_MOCK w ->
         Category.id category <> key) ->
      fst (CategoriaService.getCategoryById key w) = JS.Next None)
  /\ ((forall category, category ∈ CategoriaService.CATEGORIES_MOCK w ->
         Category.slug category <> key) ->
      fst (CategoriaService.getCategoryBySlug key w) = JS.Next None)
  /\ (forall category, category ∈ CategoriaService.CATEGORIES_MOCK w ->
      Category.id category = key ->
      exists i found,
        fst (CategoriaService.getCategoryById key w) = JS.Next (Some found)
        /\ CategoriaService.CATEGORIES_MOCK w !! i = Some found /\ Category.id found = key
        /\ forall j other, (j < i)%nat -> CategoriaService.CATEGORIES_MOCK w !! j = Some other ->
                           Category.id other <> key)
  /\ (forall category, category ∈ CategoriaService.CATEGORIES_MOCK w ->
      Category.slug category = key ->
      exists i found,
        fst (CategoriaService.getCategoryBySlug key w) = JS.Next (Some found)
        /\ CategoriaService.CATEGORIES_MOCK w !! i = Some found /\ Category.slug found = key
        /\ forall j other, (j < i)%nat -> CategoriaService.CATEGORIES_MOCK w !! j = Some other ->
                           Category.slug other <> key).
Proof.
  unfold CategoriaService.getCategoryById, CategoriaService.getCategoryBySlug,
    CategoriasMock.getCategoryById, CategoriasMock.getCategoryBySlug. simpl.
  repeat split.
  - intros H. rewrite find_from_none; [reflexivity|].
    intros x Hx. apply String.eqb_neq. auto.
  - intros H. rewrite find_from_none; [reflexivity|].
    intros x Hx. apply String.eqb_neq. auto.
  - intros category Hin Hid.
    destruct (find_from_some (fun c => String.eqb (Category.id c) key) 0 _ category Hin)
      as (r & y & Hf & _ & Hl & Hy & Hfirst); [now apply String.eqb_eq|].
    rewrite Nat.sub_0_r in *. exists r, y. rewrite Hf. simpl.
    repeat split; auto; [now apply String.eqb_eq|].
    intros j other Hj Ho. apply String.eqb_neq. eauto.
  - intros category Hin Hid.
    destruct (find_from_some (fun c => String.eqb (Category.slug c) key) 0 _ category Hin)
      as (r & y & Hf & _ & Hl & Hy & Hfirst); [now apply String.eqb_eq|].
    rewrite Nat.sub_0_r in *. exists r, y. rewrite Hf. simpl.
    repeat split; auto; [now apply String.eqb_eq|].
    intros j other Hj Ho. apply String.eqb_neq. eauto.
Qed.
